(** * Page-table update engine of xen-2.4.16/common/memory.c

    A shallow embedding of the frame accounting, the table walks, the entry
    modifiers, the extended commands and the batch dispatcher of
    [common/memory.c], followed by the properties proved about them.

    Conventions.
    - [unsigned long] and [unsigned int] are 32-bit words, held in [Z] with
      the wrap-around written out ([u32]); [int] results are held in [Z]
      through [to_int].
    - [frame_table] is a list of [pfn_info] of length [max_page]; a pointer
      [frame_table + pfn] is the index [pfn].
    - Physical memory is a function from the (word-aligned) physical address
      of a 32-bit word to its value.
    - A C function [int f(args)] that reads and writes the global state is a
      computation [M Z]: a function from the machine state to an [outcome]. *)

From stdpp Require Import base list numbers.

Local Open Scope Z_scope.

(** ** Machine words *)

Definition u32 (x : Z) : Z := x mod 2 ^ 32.

(** Conversion of an [unsigned long] to [int], as done when a count is
    returned through an [int]. *)
Definition to_int (x : Z) : Z :=
  if u32 x <? 2 ^ 31 then u32 x else u32 x - 2 ^ 32.

(** ** Constants of the headers *)

(** Fixed by the code itself: "mapping (bits 12-31)", "presence (bit 0)",
    "writeable (bit 1)", and entries of four bytes ([>> 2]). *)
Definition PAGE_SHIFT : Z := 12.
Definition PAGE_SIZE : Z := 4096.
Definition _PAGE_PRESENT : Z := 1.
Definition _PAGE_RW : Z := 2.
Definition sizeof_pgentry : Z := 4.

(** Request kinds, in the two low bits of [ptr], and the mask that selects
    the extended command in [val]. *)
Definition PGREQ_NORMAL : Z := 0.
Definition PGREQ_UNCHECKED_UPDATE : Z := 1.
Definition PGREQ_EXTENDED_COMMAND : Z := 2.
Definition PGEXT_CMD_MASK : Z := 255.

(** The remaining constants come from headers ([xeno/mm.h], [asm/page.h],
    [hypervisor-ifs]) that are not part of the file; the development is
    parametric in them. [NDEBUG] tells whether [ASSERT] is compiled out. *)
Class Platform : Type := {
  PG_domain_mask : Z;
  PG_type_mask : Z;
  PGT_l1_page_table : Z;
  PGT_l2_page_table : Z;
  PGT_writeable_page : Z;
  REFCNT_PIN_BIT : Z;
  _PAGE_PAT : Z;
  _PAGE_PSE : Z;
  _PAGE_GLOBAL : Z;
  __PAGE_HYPERVISOR : Z;
  ENTRIES_PER_L1_PAGETABLE : Z;
  DOMAIN_ENTRIES_PER_L2_PAGETABLE : Z;
  HYPERVISOR_ENTRIES_PER_L2_PAGETABLE : Z;
  PERDOMAIN_L2_INDEX : Z; (* PERDOMAIN_VIRT_START >> L2_PAGETABLE_SHIFT *)
  PGEXT_PIN_L1_TABLE : Z;
  PGEXT_PIN_L2_TABLE : Z;
  PGEXT_UNPIN_TABLE : Z;
  PGEXT_NEW_BASEPTR : Z;
  PGEXT_TLB_FLUSH : Z;
  PGEXT_INVLPG : Z;
  NDEBUG : bool
}.

(** The values of the i386 build of this tree. *)
Definition xeno_i386 : Platform := {|
  PG_domain_mask := 16777215;          (* 0x00ffffff *)
  PG_type_mask := 251658240;           (* 15 << 24 *)
  PGT_l1_page_table := 16777216;       (* 1 << 24 *)
  PGT_l2_page_table := 33554432;       (* 2 << 24 *)
  PGT_writeable_page := 117440512;     (* 7 << 24 *)
  REFCNT_PIN_BIT := 1073741824;        (* 0x40000000 *)
  _PAGE_PAT := 128;
  _PAGE_PSE := 128;
  _PAGE_GLOBAL := 256;
  __PAGE_HYPERVISOR := 99;             (* present, rw, dirty, accessed *)
  ENTRIES_PER_L1_PAGETABLE := 1024;
  DOMAIN_ENTRIES_PER_L2_PAGETABLE := 1008;
  HYPERVISOR_ENTRIES_PER_L2_PAGETABLE := 16;
  PERDOMAIN_L2_INDEX := 1022;
  PGEXT_PIN_L1_TABLE := 0;
  PGEXT_PIN_L2_TABLE := 1;
  PGEXT_UNPIN_TABLE := 4;
  PGEXT_NEW_BASEPTR := 5;
  PGEXT_TLB_FLUSH := 6;
  PGEXT_INVLPG := 7;
  NDEBUG := false
|}.

(** ** The machine state *)

(** [struct pfn_info], without its free-list linkage. *)
Record pfn_info : Type := {
  flags : Z;
  tot_count : Z;
  type_count : Z
}.

Inductive hw_event : Type :=
| LoadCR3 (v : Z)        (* movl %eax,%cr3 *)
| FlushTlbOne (va : Z).  (* __flush_tlb_one *)

Record machine : Type := {
  frame_table : list pfn_info;
  phys_mem : Z → Z;
  tlb_flush : Z;              (* tlb_flush[smp_processor_id()] *)
  current_domain : Z;         (* current->domain *)
  mm_pagetable : Z;           (* current->mm.pagetable *)
  mm_perdomain_pt : Z;        (* __pa(current->mm.perdomain_pt) *)
  idle_pg_table : Z → Z;      (* idle_pg_table[smp_processor_id()][i] *)
  hw_log : list hw_event      (* most recent first *)
}.

Definition max_page (s : machine) : Z := Z.of_nat (length (frame_table s)).

Definition set_frame_table (ft : list pfn_info) (s : machine) : machine :=
  {| frame_table := ft; phys_mem := phys_mem s; tlb_flush := tlb_flush s;
     current_domain := current_domain s; mm_pagetable := mm_pagetable s;
     mm_perdomain_pt := mm_perdomain_pt s; idle_pg_table := idle_pg_table s;
     hw_log := hw_log s |}.

Definition set_phys_mem (m : Z → Z) (s : machine) : machine :=
  {| frame_table := frame_table s; phys_mem := m; tlb_flush := tlb_flush s;
     current_domain := current_domain s; mm_pagetable := mm_pagetable s;
     mm_perdomain_pt := mm_perdomain_pt s; idle_pg_table := idle_pg_table s;
     hw_log := hw_log s |}.

Definition set_tlb_flush (v : Z) (s : machine) : machine :=
  {| frame_table := frame_table s; phys_mem := phys_mem s; tlb_flush := v;
     current_domain := current_domain s; mm_pagetable := mm_pagetable s;
     mm_perdomain_pt := mm_perdomain_pt s; idle_pg_table := idle_pg_table s;
     hw_log := hw_log s |}.

Definition set_mm_pagetable (v : Z) (s : machine) : machine :=
  {| frame_table := frame_table s; phys_mem := phys_mem s;
     tlb_flush := tlb_flush s; current_domain := current_domain s;
     mm_pagetable := v; mm_perdomain_pt := mm_perdomain_pt s;
     idle_pg_table := idle_pg_table s; hw_log := hw_log s |}.

Definition log_event (e : hw_event) (s : machine) : machine :=
  {| frame_table := frame_table s; phys_mem := phys_mem s;
     tlb_flush := tlb_flush s; current_domain := current_domain s;
     mm_pagetable := mm_pagetable s; mm_perdomain_pt := mm_perdomain_pt s;
     idle_pg_table := idle_pg_table s; hw_log := e :: hw_log s |}.

(** The frame at index [pfn], if [pfn] is inside the table. *)
Definition frame (s : machine) (pfn : Z) : option pfn_info :=
  if pfn <? 0 then None else frame_table s !! Z.to_nat pfn.

Definition with_frame (pfn : Z) (f : pfn_info) (s : machine) : machine :=
  set_frame_table (<[Z.to_nat pfn := f]> (frame_table s)) s.

Definition store (pa v : Z) (m : Z → Z) : Z → Z :=
  λ a, if a =? pa then v else m a.

(** ** Computations *)

(** The function in which a frame-table pointer is dereferenced or an
    assertion is written. *)
Inductive site : Type :=
| In_inc_page_refcnt
| In_dec_page_refcnt
| In_get_page
| In_put_page
| In_do_extended_command
| In_do_process_page_updates.

Inductive kill_msg : Type :=
| Cannot_read_page_update_request
| Page_update_request_out_of_range
| Illegal_page_update_request.

(** What ends a run other than a return. *)
Inductive stop : Type :=
| AssertionFailed (fn : site)
| WildFrameAccess (fn : site)   (* frame_table + pfn with pfn >= max_page *)
| DomainKilled (msg : kill_msg).

Inductive outcome (A : Type) : Type :=
| Ret (a : A) (s : machine)
| Stop (why : stop) (s : machine).
Arguments Ret {A} a s.
Arguments Stop {A} why s.

Definition M (A : Type) : Type := machine → outcome A.

#[global] Instance M_ret : MRet M := λ A a s, Ret a s.
#[global] Instance M_bind : MBind M := λ A B k m s,
  match m s with
  | Ret a s' => k a s'
  | Stop w s' => Stop w s'
  end.

Definition gets {A : Type} (g : machine → A) : M A := λ s, Ret (g s) s.
Definition modify (g : machine → machine) : M unit := λ s, Ret tt (g s).
Definition halt {A : Type} (w : stop) : M A := λ s, Stop w s.

(** Modelled from the spec: [kill-domain(reason)] "does not return"; the
    body of [kill_domain_with_errmsg] is not in this file. *)
Definition kill_domain_with_errmsg {A : Type} (msg : kill_msg) : M A :=
  halt (DomainKilled msg).

(** Modelled from the spec: [map-frame(physical-address)] gives a pointer to
    the frame; the body of [map_domain_mem] is not in this file. A pointer
    into the mapping window is held as the physical address it stands for. *)
Definition map_domain_mem (pa : Z) : Z := pa.

Definition read_phys (p : Z) : M Z := gets (λ s, phys_mem s p).
Definition write_phys (p v : Z) : M unit :=
  modify (λ s, set_phys_mem (store p v (phys_mem s)) s).

Section Engine.
Context `{Platform}.

(** [ASSERT(c)]: nothing when compiled out, else stops unless [c]. *)
Definition ASSERT (fn : site) (c : M bool) : M unit :=
  if NDEBUG then mret tt
  else b ← c; if b : bool then mret tt else halt (AssertionFailed fn).

(** *** Accessors of [struct pfn_info] through a pointer [frame_table + pfn] *)

Definition deref (fn : site) (page : Z) : M pfn_info := λ s,
  match frame s page with
  | Some f => Ret f s
  | None => Stop (WildFrameAccess fn) s
  end.

Definition assign (fn : site) (page : Z) (g : pfn_info → pfn_info) : M unit :=
  f ← deref fn page; modify (with_frame page (g f)).

Definition set_flags (v : Z) (f : pfn_info) : pfn_info :=
  {| flags := v; tot_count := tot_count f; type_count := type_count f |}.
Definition set_tot_count (v : Z) (f : pfn_info) : pfn_info :=
  {| flags := flags f; tot_count := v; type_count := type_count f |}.
Definition set_type_count (v : Z) (f : pfn_info) : pfn_info :=
  {| flags := flags f; tot_count := tot_count f; type_count := v |}.

Definition page_flags (fn : site) (page : Z) : M Z :=
  f ← deref fn page; mret (flags f).
Definition page_type_count (fn : site) (page : Z) : M Z :=
  f ← deref fn page; mret (type_count f).

(** [(p)->tot_count++] and [(p)->type_count++]: the value is the old count. *)
Definition get_page_tot (fn : site) (page : Z) : M Z :=
  f ← deref fn page;
  assign fn page (set_tot_count (u32 (tot_count f + 1)));;
  mret (tot_count f).
Definition get_page_type (fn : site) (page : Z) : M Z :=
  f ← deref fn page;
  assign fn page (set_type_count (u32 (type_count f + 1)));;
  mret (type_count f).

(** [--(p)->tot_count] and [--(p)->type_count]: the value is the new count. *)
Definition put_page_tot (fn : site) (page : Z) : M Z :=
  f ← deref fn page;
  assign fn page (set_tot_count (u32 (tot_count f - 1)));;
  mret (u32 (tot_count f - 1)).
Definition put_page_type (fn : site) (page : Z) : M Z :=
  f ← deref fn page;
  assign fn page (set_type_count (u32 (type_count f - 1)));;
  mret (u32 (type_count f - 1)).

(** [page->flags |= m] and [page->flags &= ~m]. *)
Definition or_flags (fn : site) (page m : Z) : M unit :=
  assign fn page (λ f, set_flags (Z.lor (flags f) m) f).
Definition clear_flags (fn : site) (page m : Z) : M unit :=
  assign fn page (λ f, set_flags (Z.ldiff (flags f) m) f).

(** *** Reference accounting *)

(** Return original refcnt, or -1 on error. *)
Definition inc_page_refcnt (page_nr type : Z) : M Z :=
  mp ← gets max_page;
  if mp <=? page_nr then mret (-1) else
  let page := page_nr in
  flags ← page_flags In_inc_page_refcnt page;
  dom ← gets current_domain;
  if negb (Z.land flags PG_domain_mask =? dom) then mret (-1) else
  let count_up : M Z :=
    get_page_tot In_inc_page_refcnt page;;
    r ← get_page_type In_inc_page_refcnt page;
    mret (to_int r) in
  if negb (Z.land flags PG_type_mask =? type) then
    cnt ← page_type_count In_inc_page_refcnt page;
    if negb (cnt =? 0) then mret (-1) else
    or_flags In_inc_page_refcnt page type;;
    count_up
  else count_up.

(** Return new refcnt, or -1 on error. *)
Definition dec_page_refcnt (page_nr type : Z) : M Z :=
  mp ← gets max_page;
  if mp <=? page_nr then mret (-1) else
  let page := page_nr in
  flags ← page_flags In_dec_page_refcnt page;
  dom ← gets current_domain;
  if negb (Z.land flags (Z.lor PG_type_mask PG_domain_mask)
           =? Z.lor type dom) then mret (-1) else
  ASSERT In_dec_page_refcnt
    (cnt ← page_type_count In_dec_page_refcnt page; mret (negb (cnt =? 0)));;
  ret ← put_page_type In_dec_page_refcnt page;
  (if ret =? 0 then clear_flags In_dec_page_refcnt page PG_type_mask
   else mret tt);;
  put_page_tot In_dec_page_refcnt page;;
  mret (to_int ret).

Definition get_page (page_nr writeable : Z) : M Z :=
  mp ← gets max_page;
  if mp <=? page_nr then mret (-1) else
  let page := page_nr in
  flags ← page_flags In_get_page page;
  dom ← gets current_domain;
  if negb (Z.land flags PG_domain_mask =? dom) then mret (-1) else
  let finish : M Z := get_page_tot In_get_page page;; mret 0 in
  if negb (writeable =? 0) then
    if negb (Z.land flags PG_type_mask =? PGT_writeable_page) then
      cnt ← page_type_count In_get_page page;
      if negb (cnt =? 0) then mret (-1) else
      or_flags In_get_page page PGT_writeable_page;;
      get_page_type In_get_page page;;
      finish
    else
      get_page_type In_get_page page;;
      finish
  else finish.

Definition put_page (page_nr writeable : Z) : M unit :=
  ASSERT In_put_page (mp ← gets max_page; mret (page_nr <? mp));;
  let page := page_nr in
  ASSERT In_put_page
    (flags ← page_flags In_put_page page; dom ← gets current_domain;
     mret (Z.land flags PG_domain_mask =? dom));;
  ASSERT In_put_page
    (if writeable =? 0 then mret true else
     cnt ← page_type_count In_put_page page;
     flags ← page_flags In_put_page page;
     mret (negb (cnt =? 0)
           && (Z.land flags PG_type_mask =? PGT_writeable_page)));;
  (if negb (writeable =? 0) then
     n ← put_page_type In_put_page page;
     if n =? 0 then
       modify (set_tlb_flush 1);;
       clear_flags In_put_page page PG_type_mask
     else mret tt
   else mret tt);;
  put_page_tot In_put_page page;;
  mret tt.

(** *** Table walks *)

Definition l1_pgentry_to_pagenr (e : Z) : Z := Z.shiftr e PAGE_SHIFT.
Definition l2_pgentry_to_pagenr (e : Z) : Z := Z.shiftr e PAGE_SHIFT.

(** [page_nr << PAGE_SHIFT] on an [unsigned long]. *)
Definition page_address (page_nr : Z) : Z := u32 (Z.shiftl page_nr PAGE_SHIFT).

(** The loop of [get_l1_table]; [n] entries remain, [p_l1_entry] points at
    the next one. *)
Fixpoint get_l1_entries (n : nat) (p_l1_entry ret : Z) : M Z :=
  match n with
  | O => mret ret
  | S n' =>
      l1_entry ← read_phys p_l1_entry;
      let p_l1_entry := p_l1_entry + sizeof_pgentry in
      if Z.land l1_entry _PAGE_PRESENT =? 0 then
        get_l1_entries n' p_l1_entry ret
      else if negb (Z.land l1_entry (Z.lor _PAGE_GLOBAL _PAGE_PAT) =? 0) then
        mret (-1)
      else
        ret ← get_page (l1_pgentry_to_pagenr l1_entry)
                       (Z.land l1_entry _PAGE_RW);
        if negb (ret =? 0) then mret ret
        else get_l1_entries n' p_l1_entry ret
  end.

Definition get_l1_table (page_nr : Z) : M Z :=
  ret ← inc_page_refcnt page_nr PGT_l1_page_table;
  if negb (ret =? 0) then mret (if ret <? 0 then ret else 0) else
  get_l1_entries (Z.to_nat ENTRIES_PER_L1_PAGETABLE)
                 (map_domain_mem (page_address page_nr)) ret.

(** How the loop of [get_l2_table] is left. *)
Inductive loop_exit : Type :=
| Returned (ret : Z)            (* a [return] inside the loop *)
| Finished (p_l2_entry ret : Z) (* the loop ran to its bound *).

Fixpoint get_l2_entries (n : nat) (page_nr i p_l2_entry ret : Z)
  : M loop_exit :=
  match n with
  | O => mret (Finished p_l2_entry ret)
  | S n' =>
      l2_entry ← read_phys p_l2_entry;
      let p_l2_entry := p_l2_entry + sizeof_pgentry in
      if Z.land l2_entry _PAGE_PRESENT =? 0 then
        get_l2_entries n' page_nr (i + 1) p_l2_entry ret
      else if negb (Z.land l2_entry (Z.lor _PAGE_GLOBAL _PAGE_PSE) =? 0) then
        mret (Returned (-1))
      else
        ret ← get_l1_table (l2_pgentry_to_pagenr l2_entry);
        if negb (ret =? 0) then mret (Returned ret) else
        let p_l2_entry :=
          map_domain_mem (u32 (page_address page_nr
                               + (i + 1) * sizeof_pgentry)) in
        get_l2_entries n' page_nr (i + 1) p_l2_entry ret
  end.

(** [memcpy(dst, idle_pg_table[cpu] + from, n * sizeof(l2_pgentry_t))]. *)
Fixpoint copy_idle_entries (n : nat) (dst from : Z) : M unit :=
  match n with
  | O => mret tt
  | S n' =>
      e ← gets (λ s, idle_pg_table s from);
      write_phys dst e;;
      copy_idle_entries n' (dst + sizeof_pgentry) (from + 1)
  end.

Definition get_l2_table (page_nr : Z) : M Z :=
  ret ← inc_page_refcnt page_nr PGT_l2_page_table;
  if negb (ret =? 0) then mret (if ret <? 0 then ret else 0) else
  x ← get_l2_entries (Z.to_nat DOMAIN_ENTRIES_PER_L2_PAGETABLE) page_nr 0
                     (map_domain_mem (page_address page_nr)) ret;
  match x with
  | Returned r => mret r
  | Finished p_l2_entry ret =>
      (* Now we simply slap in our high mapping. *)
      copy_idle_entries (Z.to_nat HYPERVISOR_ENTRIES_PER_L2_PAGETABLE)
                        p_l2_entry DOMAIN_ENTRIES_PER_L2_PAGETABLE;;
      pd ← gets mm_perdomain_pt;
      write_phys (p_l2_entry
                  + (PERDOMAIN_L2_INDEX - DOMAIN_ENTRIES_PER_L2_PAGETABLE)
                    * sizeof_pgentry)
                 (Z.lor pd __PAGE_HYPERVISOR);;
      mret ret
  end.

Fixpoint put_l1_entries (n : nat) (p_l1_entry : Z) : M unit :=
  match n with
  | O => mret tt
  | S n' =>
      l1_entry ← read_phys p_l1_entry;
      let p_l1_entry := p_l1_entry + sizeof_pgentry in
      (if negb (Z.land l1_entry _PAGE_PRESENT =? 0) then
         put_page (l1_pgentry_to_pagenr l1_entry) (Z.land l1_entry _PAGE_RW)
       else mret tt);;
      put_l1_entries n' p_l1_entry
  end.

Definition put_l1_table (page_nr : Z) : M unit :=
  r ← dec_page_refcnt page_nr PGT_l1_page_table;
  if negb (r =? 0) then mret tt else
  (* We had last reference to level-1 page table. Free the PTEs. *)
  put_l1_entries (Z.to_nat ENTRIES_PER_L1_PAGETABLE)
                 (map_domain_mem (page_address page_nr)).

Fixpoint put_l2_entries (n : nat) (page_nr i p_l2_entry : Z) : M unit :=
  match n with
  | O => mret tt
  | S n' =>
      l2_entry ← read_phys p_l2_entry;
      let p_l2_entry := p_l2_entry + sizeof_pgentry in
      if negb (Z.land l2_entry _PAGE_PRESENT =? 0) then
        put_l1_table (l2_pgentry_to_pagenr l2_entry);;
        let p_l2_entry :=
          map_domain_mem (u32 (page_address page_nr
                               + (i + 1) * sizeof_pgentry)) in
        put_l2_entries n' page_nr (i + 1) p_l2_entry
      else put_l2_entries n' page_nr (i + 1) p_l2_entry
  end.

Definition put_l2_table (page_nr : Z) : M Z :=
  ret ← dec_page_refcnt page_nr PGT_l2_page_table;
  if negb (ret =? 0) then mret (if ret <? 0 then ret else 0) else
  (* We had last reference to level-2 page table. Free the PDEs. *)
  put_l2_entries (Z.to_nat HYPERVISOR_ENTRIES_PER_L2_PAGETABLE) page_nr 0
                 (map_domain_mem (page_address page_nr));;
  mret 0.

(** *** Entry modifiers *)

Definition mod_l2_entry (pa new_l2_entry : Z) : M Z :=
  let p_l2_entry := map_domain_mem pa in
  old_l2_entry ← read_phys p_l2_entry;
  (* fail: we put the old value back, regrabbing the mapping *)
  let fail : M Z :=
    write_phys (map_domain_mem pa) old_l2_entry;; mret (-1) in
  if DOMAIN_ENTRIES_PER_L2_PAGETABLE
     <=? Z.shiftr (Z.land p_l2_entry (PAGE_SIZE - 1)) 2 then fail else
  write_phys p_l2_entry new_l2_entry;;
  if negb (Z.land new_l2_entry _PAGE_PRESENT =? 0) then
    if negb (Z.land new_l2_entry (Z.lor _PAGE_GLOBAL _PAGE_PSE) =? 0)
    then fail else
    (* Differ in mapping (bits 12-31) or presence (bit 0)? *)
    if negb (Z.land (Z.lxor old_l2_entry new_l2_entry) 4294963201 =? 0) then
      (if negb (Z.land old_l2_entry _PAGE_PRESENT =? 0) then
         put_l1_table (l2_pgentry_to_pagenr old_l2_entry)
       else mret tt);;
      r ← get_l1_table (l2_pgentry_to_pagenr new_l2_entry);
      if negb (r =? 0) then fail else mret 0
    else mret 0
  else if negb (Z.land old_l2_entry _PAGE_PRESENT =? 0) then
    put_l1_table (l2_pgentry_to_pagenr old_l2_entry);;
    mret 0
  else mret 0.

Definition mod_l1_entry (pa new_l1_entry : Z) : M Z :=
  let p_l1_entry := map_domain_mem pa in
  old_l1_entry ← read_phys p_l1_entry;
  let finish : M Z :=
    (* p_l1_entry is still valid here *)
    write_phys p_l1_entry new_l1_entry;; mret 0 in
  if negb (Z.land new_l1_entry _PAGE_PRESENT =? 0) then
    if negb (Z.land new_l1_entry (Z.lor _PAGE_GLOBAL _PAGE_PAT) =? 0)
    then mret (-1) else
    (* Differ in mapping (bits 12-31), writeable (bit 1), or presence? *)
    if negb (Z.land (Z.lxor old_l1_entry new_l1_entry) 4294963203 =? 0) then
      (if negb (Z.land old_l1_entry _PAGE_PRESENT =? 0) then
         put_page (l1_pgentry_to_pagenr old_l1_entry)
                  (Z.land old_l1_entry _PAGE_RW)
       else mret tt);;
      r ← get_page (l1_pgentry_to_pagenr new_l1_entry)
                   (Z.land new_l1_entry _PAGE_RW);
      if negb (r =? 0) then mret (-1) else finish
    else finish
  else if negb (Z.land old_l1_entry _PAGE_PRESENT =? 0) then
    put_page (l1_pgentry_to_pagenr old_l1_entry)
             (Z.land old_l1_entry _PAGE_RW);;
    finish
  else finish.

(** *** Extended commands *)

Definition do_extended_command (ptr val : Z) : M Z :=
  let pfn := Z.shiftr ptr PAGE_SHIFT in
  let page := pfn in
  let cmd := Z.land val PGEXT_CMD_MASK in
  let mark_as_pinned (err : Z) : M Z :=
    if negb (err =? 0) then mret err else
    put_page_type In_do_extended_command page;;
    put_page_tot In_do_extended_command page;;
    cnt ← page_type_count In_do_extended_command page;
    if Z.land cnt REFCNT_PIN_BIT =? 0 then
      assign In_do_extended_command page
        (λ f, set_type_count (Z.lor (type_count f) REFCNT_PIN_BIT) f);;
      assign In_do_extended_command page
        (λ f, set_tot_count (Z.lor (tot_count f) REFCNT_PIN_BIT) f);;
      mret err
    else mret 1 in
  let tlb_flush_case (err : Z) : M Z :=
    modify (set_tlb_flush 1);; mret err in
  if cmd =? PGEXT_PIN_L1_TABLE then
    err ← get_l1_table pfn; mark_as_pinned err
  else if cmd =? PGEXT_PIN_L2_TABLE then
    err ← get_l2_table pfn; mark_as_pinned err
  else if cmd =? PGEXT_UNPIN_TABLE then
    flags ← page_flags In_do_extended_command page;
    dom ← gets current_domain;
    if negb (Z.land flags PG_domain_mask =? dom) then mret 1 else
    cnt ← page_type_count In_do_extended_command page;
    if negb (Z.land cnt REFCNT_PIN_BIT =? 0) then
      assign In_do_extended_command page
        (λ f, set_type_count (Z.ldiff (type_count f) REFCNT_PIN_BIT) f);;
      assign In_do_extended_command page
        (λ f, set_tot_count (Z.ldiff (tot_count f) REFCNT_PIN_BIT) f);;
      get_page_type In_do_extended_command page;;
      get_page_tot In_do_extended_command page;;
      flags ← page_flags In_do_extended_command page;
      (if Z.land flags PG_type_mask =? PGT_l1_page_table
       then put_l1_table pfn
       else put_l2_table pfn;; mret tt);;
      mret 0
    else mret 1
  else if cmd =? PGEXT_NEW_BASEPTR then
    err ← get_l2_table pfn;
    (if err =? 0 then
       pt ← gets mm_pagetable;
       put_l2_table (Z.shiftr pt PAGE_SHIFT);;
       modify (set_mm_pagetable (page_address pfn))
     else mret tt);;
    (* fall through *)
    tlb_flush_case err
  else if cmd =? PGEXT_TLB_FLUSH then
    tlb_flush_case 0
  else if cmd =? PGEXT_INVLPG then
    modify (log_event (FlushTlbOne (Z.ldiff val PGEXT_CMD_MASK)));;
    mret 0
  else mret 1.

(** *** The batch dispatcher *)

Record page_update_request_t : Type := { ptr : Z; val : Z }.

(** The [switch] on the request kind; [pfn] is [cur.ptr >> PAGE_SHIFT].
    It leaves [cur.ptr], which two of the cases mask, and [err]. *)
Definition demux_request (cur : page_update_request_t) (pfn : Z)
  : M (Z * Z) :=
  let kind := Z.land (ptr cur) (sizeof_pgentry - 1) in
  if kind =? PGREQ_NORMAL then
    let page := pfn in
    flags ← page_flags In_do_process_page_updates page;
    dom ← gets current_domain;
    if Z.land flags PG_domain_mask =? dom then
      if Z.land flags PG_type_mask =? PGT_l1_page_table then
        err ← mod_l1_entry (ptr cur) (val cur); mret (ptr cur, err)
      else if Z.land flags PG_type_mask =? PGT_l2_page_table then
        err ← mod_l2_entry (ptr cur) (val cur); mret (ptr cur, err)
      else mret (ptr cur, 1)
    else mret (ptr cur, 1)
  else if kind =? PGREQ_UNCHECKED_UPDATE then
    let cur_ptr := Z.ldiff (ptr cur) (sizeof_pgentry - 1) in
    let page := pfn in
    flags ← page_flags In_do_process_page_updates page;
    dom ← gets current_domain;
    if Z.lor flags dom =? PGT_l1_page_table then
      write_phys (map_domain_mem cur_ptr) (val cur);;
      mret (cur_ptr, 0)
    else mret (cur_ptr, 1)
  else if kind =? PGREQ_EXTENDED_COMMAND then
    let cur_ptr := Z.ldiff (ptr cur) (sizeof_pgentry - 1) in
    err ← do_extended_command cur_ptr (val cur);
    mret (cur_ptr, err)
  else mret (ptr cur, 1).

(** What follows the [switch]: a request that failed is logged and the
    domain killed. The debug [printk] reads [page->flags]. *)
Definition report_request (cur_ptr err : Z) : M unit :=
  if negb (err =? 0) then
    page_flags In_do_process_page_updates (Z.shiftr cur_ptr PAGE_SHIFT);;
    kill_domain_with_errmsg Illegal_page_update_request
  else mret tt.

(** One turn of the loop of [do_process_page_updates], after the request
    has been copied into [cur]. *)
Definition process_request (cur : page_update_request_t) : M unit :=
  let pfn := Z.shiftr (ptr cur) PAGE_SHIFT in
  mp ← gets max_page;
  (if mp <=? pfn
   then kill_domain_with_errmsg Page_update_request_out_of_range
   else mret tt);;
  x ← demux_request cur pfn;
  report_request x.1 x.2.

(** Modelled from the spec: [copy-from-guest(dst, src, n)] "fails on
    fault"; the guest's request array is a list, and reading past its end is
    the fault. *)
Definition copy_from_user (updates : list page_update_request_t) (i : nat)
  : option page_update_request_t := updates !! i.

Fixpoint process_updates (n : nat) (updates : list page_update_request_t)
    (i : nat) : M unit :=
  match n with
  | O => mret tt
  | S n' =>
      match copy_from_user updates i with
      | None => kill_domain_with_errmsg Cannot_read_page_update_request
      | Some cur =>
          process_request cur;;
          process_updates n' updates (S i)
      end
  end.

(** The code after the loop. *)
Definition flush_if_pending : M unit :=
  pending ← gets tlb_flush;
  if negb (pending =? 0) then
    modify (set_tlb_flush 0);;
    pt ← gets mm_pagetable;
    modify (log_event (LoadCR3 pt))
  else mret tt.

Definition do_process_page_updates (updates : list page_update_request_t)
    (count : Z) : M Z :=
  process_updates (Z.to_nat count) updates 0%nat;;
  flush_if_pending;;
  mret 0.

End Engine.


(** ** The second dispatcher *)

Section SecondDispatcher.
Context `{Platform}.

(** The array [cur] points into, as a function of the index: the code reads
    [cur[i]] for every [i < count] without any check. *)
Definition request_array : Type := nat → page_update_request_t.

Definition set_request (i : nat) (r : page_update_request_t)
    (reqs : request_array) : request_array :=
  λ j, if (j =? i)%nat then r else reqs j.

(** One turn of the loop of [new_do_process_page_updates]. The [switch] is
    that of [do_process_page_updates], but it reads and masks the request in
    place, through [cur]; the value is the request as the turn leaves it in
    the array. *)
Definition new_process_request (cur : page_update_request_t)
  : M page_update_request_t :=
  let pfn := Z.shiftr (ptr cur) PAGE_SHIFT in
  mp ← gets max_page;
  (if mp <=? pfn
   then kill_domain_with_errmsg Page_update_request_out_of_range
   else mret tt);;
  x ← demux_request cur pfn;
  report_request x.1 x.2;;
  mret {| ptr := x.1; val := val cur |}.

Fixpoint new_process_updates (n : nat) (reqs : request_array) (i : nat)
  : M request_array :=
  match n with
  | O => mret reqs
  | S n' =>
      cur ← new_process_request (reqs i);
      new_process_updates n' (set_request i cur reqs) (S i)
  end.

(** The value is the [int] the function returns, with the array as the
    function leaves it. *)
Definition new_do_process_page_updates (cur : request_array) (count : Z)
  : M (Z * request_array) :=
  reqs ← new_process_updates (Z.to_nat count) cur 0%nat;
  flush_if_pending;;
  mret (0, reqs).

End SecondDispatcher.

(** An outcome without the request array. *)
Definition forget_array {A B : Type} (o : outcome (A * B)) : outcome A :=
  match o with
  | Ret x s => Ret x.1 s
  | Stop w s => Stop w s
  end.

(** ** Start of day *)

(** [PAGE_MASK] is [~(PAGE_SIZE-1)] on an [unsigned long]. *)
Definition PAGE_MASK : Z := 4294963200.

(** Constants of [init_frametable] that come from the headers. *)
Class Layout : Type := {
  MAX_MONITOR_ADDRESS : Z;
  sizeof_pfn_info : Z   (* sizeof(struct pfn_info) *)
}.

(** A monitor of 16MB and frame records of 24 bytes. *)
Definition layout_16M : Layout :=
  {| MAX_MONITOR_ADDRESS := 16777216; sizeof_pfn_info := 24 |}.

(** The globals [init_frametable] sets. [free_list] is held as the frame
    numbers of the records linked on it, head first; [zeroed_records] are
    the records at [frame_table] that lie inside the area the [memset]
    clears. *)
Record frametable_globals : Type := {
  boot_tlb_flush : Z;
  boot_max_page : Z;
  boot_frame_table_size : Z;
  boot_free_pfns : Z;
  zeroed_records : list pfn_info;
  free_list : list Z
}.

Definition zero_record : pfn_info :=
  {| flags := 0; tot_count := 0; type_count := 0 |}.

(** The loop of [init_frametable]: [list_add_tail] of the record of every
    [page_index] below [nr_pages]. It runs at most [nr_pages] times. *)
Fixpoint add_free_pages (fuel : nat) (page_index nr_pages : Z)
    (free : list Z) : list Z :=
  match fuel with
  | O => free
  | S fuel' =>
      if page_index <? nr_pages
      then add_free_pages fuel' (u32 (page_index + 1)) nr_pages
                          (free ++ [page_index])
      else free
  end.

Definition init_frametable `{Layout} (nr_pages : Z) : frametable_globals :=
  let max_page := nr_pages in
  let frame_table_size := u32 (nr_pages * sizeof_pfn_info) in
  let frame_table_size :=
    Z.land (u32 (frame_table_size + PAGE_SIZE - 1)) PAGE_MASK in
  let first_free :=
    Z.shiftr (u32 (MAX_MONITOR_ADDRESS + frame_table_size)) PAGE_SHIFT in
  let free_pfns := u32 (nr_pages - first_free) in
  {| boot_tlb_flush := 0;
     boot_max_page := max_page;
     boot_frame_table_size := frame_table_size;
     boot_free_pfns := free_pfns;
     zeroed_records :=
       replicate (Z.to_nat (frame_table_size `div` sizeof_pfn_info))
                 zero_record;
     free_list := add_free_pages (Z.to_nat nr_pages) first_free nr_pages [] |}.

(** ** Reading a frame record *)

Section Fields.
Context `{Platform}.

Definition owner (f : pfn_info) : Z := Z.land (flags f) PG_domain_mask.
Definition page_type (f : pfn_info) : Z := Z.land (flags f) PG_type_mask.
(** The code reads the pin off [type_count] only. *)
Definition pinned (f : pfn_info) : bool :=
  negb (Z.land (type_count f) REFCNT_PIN_BIT =? 0).

(** The frame a successful [inc_page_refcnt] leaves. *)
Definition acquired (type : Z) (f : pfn_info) : pfn_info :=
  {| flags := if page_type f =? type then flags f else Z.lor (flags f) type;
     tot_count := u32 (tot_count f + 1);
     type_count := u32 (type_count f + 1) |}.

(** The frame a successful [dec_page_refcnt] leaves, and also a [put_page]
    of a writeable mapping. *)
Definition released (f : pfn_info) : pfn_info :=
  {| flags := if u32 (type_count f - 1) =? 0
              then Z.ldiff (flags f) PG_type_mask else flags f;
     tot_count := u32 (tot_count f - 1);
     type_count := u32 (type_count f - 1) |}.

End Fields.

(** What the code takes for granted of the header constants: the owner and
    the type are separate fields of the flags word, the tags of the two
    kinds of table are distinct type tags, and the commands that pin and
    unpin are distinct codes below [PGEXT_CMD_MASK]. *)
Class PlatformLaws `{Platform} : Prop := {
  fields_disjoint : Z.land PG_type_mask PG_domain_mask = 0;
  l1_is_tag : Z.land PGT_l1_page_table PG_type_mask = PGT_l1_page_table;
  l2_is_tag : Z.land PGT_l2_page_table PG_type_mask = PGT_l2_page_table;
  tables_differ : PGT_l1_page_table ≠ PGT_l2_page_table;
  pin_l1_code : Z.land PGEXT_PIN_L1_TABLE PGEXT_CMD_MASK = PGEXT_PIN_L1_TABLE;
  pin_l2_code : Z.land PGEXT_PIN_L2_TABLE PGEXT_CMD_MASK = PGEXT_PIN_L2_TABLE;
  unpin_code : Z.land PGEXT_UNPIN_TABLE PGEXT_CMD_MASK = PGEXT_UNPIN_TABLE;
  pin_codes_differ : PGEXT_PIN_L1_TABLE ≠ PGEXT_PIN_L2_TABLE;
  unpin_not_pin_l1 : PGEXT_UNPIN_TABLE ≠ PGEXT_PIN_L1_TABLE;
  unpin_not_pin_l2 : PGEXT_UNPIN_TABLE ≠ PGEXT_PIN_L2_TABLE;
  pin_bit_nonzero : REFCNT_PIN_BIT ≠ 0;
  writeable_is_tag :
    Z.land PGT_writeable_page PG_type_mask = PGT_writeable_page;
  writeable_not_l1 : PGT_writeable_page ≠ PGT_l1_page_table;
  pin_bit_single : ∃ k, 0 ≤ k < 32 ∧ REFCNT_PIN_BIT = 2 ^ k
}.

(** The six extended commands have six codes, all below
    [PGEXT_CMD_MASK]. *)
Definition command_codes `{Platform} : list Z :=
  [PGEXT_PIN_L1_TABLE; PGEXT_PIN_L2_TABLE; PGEXT_UNPIN_TABLE;
   PGEXT_NEW_BASEPTR; PGEXT_TLB_FLUSH; PGEXT_INVLPG].

Class CommandLaws `{Platform} : Prop := {
  codes_differ : NoDup command_codes;
  codes_masked : Forall (λ c, Z.land c PGEXT_CMD_MASK = c) command_codes
}.

(** A frame with the pin bit raised in both counts. *)
Definition with_pin `{Platform} (f : pfn_info) : pfn_info :=
  {| flags := flags f;
     tot_count := Z.lor (tot_count f) REFCNT_PIN_BIT;
     type_count := Z.lor (type_count f) REFCNT_PIN_BIT |}.

(** [flags &= ~PG_type_mask] leaves this type tag. *)
Definition PGT_none : Z := 0.

#[global] Instance site_eq_dec : EqDecision site.
Proof. solve_decision. Defined.

(** An outcome that is a wild dereference made by [fn]. *)
Definition wild_access_in {A : Type} (fn : site) (o : outcome A) : bool :=
  match o with
  | Stop (WildFrameAccess g) _ => bool_decide (g = fn)
  | _ => false
  end.

(** [inv_run I ok m]: started in a state of [I], the run [m] ends in a state
    of [I], and if it stops short its reason is one of [ok]. *)
Definition inv_run `{Platform} {A : Type} (I : machine → Prop)
    (ok : stop → Prop) (m : M A) : Prop :=
  ∀ s, I s →
    match m s with
    | Ret _ s' => I s'
    | Stop w s' => I s' ∧ ok w
    end.

(** The invariant and the stops used for the bounds of
    [do_extended_command]: the table has [n] frames; the run does not stop
    on a wild dereference of [do_extended_command]; and the dereferences
    that function makes are those of an index below [n]. *)
Definition table_has (n : Z) (s : machine) : Prop := max_page s = n.
Definition not_wild_in_extended (w : stop) : Prop :=
  w ≠ WildFrameAccess In_do_extended_command.
Definition checked_deref (n : Z) (fn : site) (p : Z) : Prop :=
  fn ≠ In_do_extended_command ∨ 0 ≤ p < n.

(** The invariant used for the entry modifiers: memory is [m]. *)
Definition memory_is (m : Z → Z) (s : machine) : Prop := phys_mem s = m.
Definition any_stop (w : stop) : Prop := True.
Definition any_deref (fn : site) (p : Z) : Prop := True.

(** *** References held by a table

    A reference is a frame number with the [_PAGE_RW] bit of the entry that
    holds it. *)
Definition ref : Type := Z * Z.

(** The references of the present entries among the [n] entries at [p], in
    the order of the walks. *)
Fixpoint present_refs (m : Z → Z) (n : nat) (p : Z) : list ref :=
  match n with
  | O => []
  | S n' =>
      if Z.land (m p) _PAGE_PRESENT =? 0
      then present_refs m n' (p + sizeof_pgentry)
      else (Z.shiftr (m p) PAGE_SHIFT, Z.land (m p) _PAGE_RW)
           :: present_refs m n' (p + sizeof_pgentry)
  end.

(** How many of the references are to frame [x], and how many of those are
    writeable. *)
Fixpoint refs_to (x : Z) (R : list ref) : Z :=
  match R with
  | [] => 0
  | r :: R' => (if r.1 =? x then 1 else 0) + refs_to x R'
  end.

Fixpoint rw_refs_to (x : Z) (R : list ref) : Z :=
  match R with
  | [] => 0
  | r :: R' =>
      (if (r.1 =? x) && negb (r.2 =? 0) then 1 else 0) + rw_refs_to x R'
  end.

Section Mapped.
Context `{Platform}.

(** The record of frame [x] once the references [R] have been taken on the
    record [f0]. *)
Definition mapped (R : list ref) (x : Z) (f0 : pfn_info) : pfn_info :=
  {| flags := if rw_refs_to x R =? 0 then flags f0
              else Z.lor (flags f0) PGT_writeable_page;
     tot_count := tot_count f0 + refs_to x R;
     type_count := type_count f0 + rw_refs_to x R |}.

(** The frame table of [s] is that of [b] with the references [R] taken. *)
Definition represents (R : list ref) (b s : machine) : Prop :=
  ∀ x, frame s x = mapped R x <$> frame b x.

(** The references [R] are ones [get_page] grants on [b] to domain [d]. *)
Definition admissible (d : Z) (R : list ref) (b : machine) : Prop :=
  ∀ x w, (x, w) ∈ R →
    ∃ f0, frame b x = Some f0 ∧ owner f0 = d
          ∧ (w ≠ 0 → type_count f0 ≠ 0 → page_type f0 = PGT_writeable_page).

(** No count of [b] overflows when [bound] references are added, and a
    frame without typed reference has no type. *)
Definition settled (bound : Z) (b : machine) : Prop :=
  ∀ x f0, frame b x = Some f0 →
    0 ≤ tot_count f0 ∧ 0 ≤ type_count f0
    ∧ tot_count f0 + bound < 2 ^ 32 ∧ type_count f0 + bound < 2 ^ 32
    ∧ (type_count f0 = 0 → page_type f0 = 0).

(** The frame a successful [get_page] leaves. *)
Definition got (writeable : Z) (f : pfn_info) : pfn_info :=
  if writeable =? 0 then set_tot_count (u32 (tot_count f + 1)) f
  else {| flags := if page_type f =? PGT_writeable_page then flags f
                   else Z.lor (flags f) PGT_writeable_page;
          tot_count := u32 (tot_count f + 1);
          type_count := u32 (type_count f + 1) |}.

End Mapped.

(** What the walks leave alone: memory, the idle table and the per-domain
    table. *)
Definition walk_frame (m : Z → Z) (t : Z → Z) (v : Z) (s : machine) : Prop :=
  phys_mem s = m ∧ idle_pg_table s = t ∧ mm_perdomain_pt s = v.

(** The frame table of [s] against that of [s0], for the domain [d] that
    runs: the same frames with the same owners, and the records of the
    frames that [d] does not own are those of [s0]. *)
Definition isolated `{Platform} (d : Z) (s0 s : machine) : Prop :=
  current_domain s = d
  ∧ ∀ x, match frame s0 x, frame s x with
         | Some f0, Some f => owner f = owner f0 ∧ (owner f0 ≠ d → f = f0)
         | None, None => True
         | _, _ => False
         end.

Definition returned {A : Type} (o : outcome A) : option A :=
  match o with Ret a _ => Some a | Stop _ _ => None end.

Definition final_state {A : Type} (o : outcome A) : machine :=
  match o with Ret _ s => s | Stop _ s => s end.

(** ** Concrete machines, on the i386 constants *)

Definition mk_frame (fl tot typ : Z) : pfn_info :=
  {| flags := fl; tot_count := tot; type_count := typ |}.

Definition mk_machine (ft : list pfn_info) (m : Z → Z) (dom : Z) : machine :=
  {| frame_table := ft; phys_mem := m; tlb_flush := 0; current_domain := dom;
     mm_pagetable := 0; mm_perdomain_pt := 0; idle_pg_table := λ _, 0;
     hw_log := [] |}.

Definition zero_mem : Z → Z := λ _, 0.

(** Domain 5 owns frames 0..2; frame 1 carries the tag of an L2 table but no
    reference. *)
Definition unreferenced_l2 : machine :=
  mk_machine [mk_frame 5 0 0; mk_frame (33554432 + 5) 0 0; mk_frame 5 0 0]
             zero_mem 5.

(** Frame 1 is an L1 table of domain 5 whose entry 0 maps frame 2 writeable;
    frame 2 has that one writeable reference; frame 3 belongs to domain 6. *)
Definition l1_with_writeable_pte : machine :=
  mk_machine [mk_frame 5 0 0; mk_frame (16777216 + 5) 1 1;
              mk_frame (117440512 + 5) 1 1; mk_frame 6 0 0]
             (store 4096 (2 * 4096 + 3) zero_mem) 5.

(** Frame 1 is an L2 table of domain 5 with one reference, whose entry
    [slot] points at frame 2, an L1 table with one reference and no present
    entry. *)
Definition l2_with_entry (slot : Z) : machine :=
  mk_machine [mk_frame 5 0 0; mk_frame (33554432 + 5) 1 1;
              mk_frame (16777216 + 5) 1 1]
             (store (4096 + 4 * slot) (2 * 4096 + 1) zero_mem) 5.

(** Frames 1 and 2 of domain 5 are untyped and unreferenced. Frame 1 holds,
    at entry 16, a present entry for frame 2; frame 2 holds, at entry 0, a
    present read-only entry for frame 1. *)
Definition l2_with_back_reference : machine :=
  mk_machine [mk_frame 5 0 0; mk_frame 5 0 0; mk_frame 5 0 0]
             (store (4096 + 4 * 16) (2 * 4096 + 1)
                (store (2 * 4096) (4096 + 1) zero_mem)) 5.

(** The current domain has identifier [0x01000000]; frame 1 is an untyped
    frame with owner field 0. *)
Definition domain_numbered_like_l1_tag : machine :=
  mk_machine [mk_frame 0 0 0; mk_frame 0 0 0] zero_mem 16777216.

(** Frames 0..2 of domain 5 are untyped and unreferenced; entry 0 of frame 1
    is a present writeable entry for frame 2. *)
Definition untyped_with_writeable_pte : machine :=
  mk_machine [mk_frame 5 0 0; mk_frame 5 0 0; mk_frame 5 0 0]
             (store 4096 (2 * 4096 + 3) zero_mem) 5.

(** Frames 1 and 2 are directories of domain 5; frame 1, with two
    references, is the one the base pointer names, frame 2 has one. *)
Definition two_directories : machine :=
  set_mm_pagetable 4096
    (mk_machine [mk_frame 5 0 0; mk_frame (33554432 + 5) 2 2;
                 mk_frame (33554432 + 5) 1 1] zero_mem 5).

(** [l1_with_writeable_pte] before the reference of its entry was taken. *)
Definition l1_without_reference : machine :=
  mk_machine [mk_frame 5 0 0; mk_frame (16777216 + 5) 1 1;
              mk_frame 5 0 0; mk_frame 6 0 0]
             (store 4096 (2 * 4096 + 3) zero_mem) 5.

(** A request for [PGEXT_TLB_FLUSH] that names frame 0, and a request of
    the fourth kind. *)
Definition flush_request : page_update_request_t :=
  {| ptr := 2; val := 6 |}.
Definition odd_request : page_update_request_t :=
  {| ptr := 3; val := 0 |}.

(** An array that holds [flush_request] and then a request for
    [PGEXT_INVLPG] of the page at [0x5000]. *)
Definition two_requests : nat → page_update_request_t :=
  λ j, match j with
       | O => flush_request
       | _ => {| ptr := 2; val := 20480 + 7 |}
       end.

(** Domain 0 with an L1 table in frame 1. *)
Definition dom0_with_l1 : machine :=
  mk_machine [mk_frame 0 0 0; mk_frame 16777216 1 1] zero_mem 0.

(** Frame 1 is an L2 table of domain 5 with no present entry. Frame 2 is an
    untyped frame of domain 5 whose entry 0 is a present entry for frame 3,
    and frame 3 belongs to domain 6. *)
Definition l2_and_table_with_foreign_pte : machine :=
  mk_machine [mk_frame 5 0 0; mk_frame (33554432 + 5) 1 1; mk_frame 5 0 0;
              mk_frame 6 0 0]
             (store (2 * 4096) (3 * 4096 + 1) zero_mem) 5.
(** * Running the primitives *)

Section Running.
Context `{Platform}.

Lemma bind_unfold {A B : Type} (m : M A) (k : A → M B) (s : machine) :
  (m ≫= k) s
  = match m s with Ret a s' => k a s' | Stop w s' => Stop w s' end.
Proof. reflexivity. Qed.

Lemma gets_run {A : Type} (g : machine → A) (s : machine) :
  gets g s = Ret (g s) s.
Proof. reflexivity. Qed.

Lemma mret_run {A : Type} (a : A) (s : machine) : (mret a : M A) s = Ret a s.
Proof. reflexivity. Qed.

Lemma modify_run (g : machine → machine) (s : machine) :
  modify g s = Ret tt (g s).
Proof. reflexivity. Qed.

Lemma frame_Some_range s p f : frame s p = Some f → 0 ≤ p < max_page s.
Proof.
  unfold frame, max_page. destruct (Z.ltb_spec p 0); [done|].
  intros Hl. apply lookup_lt_Some in Hl. lia.
Qed.

Lemma frame_None_range s p : 0 ≤ p → frame s p = None → max_page s ≤ p.
Proof.
  unfold frame, max_page. destruct (Z.ltb_spec p 0); [lia|].
  intros _ Hl. apply lookup_ge_None in Hl. lia.
Qed.

Lemma frame_in_range s p : 0 ≤ p < max_page s → is_Some (frame s p).
Proof.
  intros Hr. destruct (frame s p) eqn:E; [eauto|].
  apply frame_None_range in E; lia.
Qed.

Lemma frame_with_frame_eq s p f g :
  frame s p = Some f → frame (with_frame p g s) p = Some g.
Proof.
  intros Hf. pose proof (frame_Some_range _ _ _ Hf) as Hr.
  unfold frame, max_page in *. destruct (Z.ltb_spec p 0); [done|].
  cbn. apply list_lookup_insert_eq. lia.
Qed.

Lemma frame_with_frame_ne s p q g :
  0 ≤ p → p ≠ q → frame (with_frame p g s) q = frame s q.
Proof.
  intros Hp Hne. unfold frame. destruct (Z.ltb_spec q 0); [done|].
  cbn. apply list_lookup_insert_ne. lia.
Qed.

Lemma with_frame_twice s p f g :
  with_frame p g (with_frame p f s) = with_frame p g s.
Proof.
  unfold with_frame, set_frame_table. cbn. by rewrite list_insert_insert_eq.
Qed.

Lemma with_frame_same s p f : frame s p = Some f → with_frame p f s = s.
Proof.
  unfold frame, with_frame, set_frame_table.
  destruct (Z.ltb_spec p 0); [done|].
  intros Hl. rewrite (list_insert_id _ _ _ Hl). by destruct s.
Qed.

Lemma max_page_with_frame s p f : max_page (with_frame p f s) = max_page s.
Proof. unfold max_page, with_frame. cbn. by rewrite length_insert. Qed.

Lemma deref_run fn p s f : frame s p = Some f → deref fn p s = Ret f s.
Proof. unfold deref. by intros ->. Qed.

Lemma assign_run fn p g s f :
  frame s p = Some f → assign fn p g s = Ret tt (with_frame p (g f) s).
Proof.
  intros Hf. unfold assign. by rewrite bind_unfold, (deref_run _ _ _ _ Hf).
Qed.

Lemma page_flags_run fn p s f :
  frame s p = Some f → page_flags fn p s = Ret (flags f) s.
Proof.
  intros Hf. unfold page_flags. by rewrite bind_unfold, (deref_run _ _ _ _ Hf).
Qed.

Lemma page_type_count_run fn p s f :
  frame s p = Some f → page_type_count fn p s = Ret (type_count f) s.
Proof.
  intros Hf. unfold page_type_count.
  by rewrite bind_unfold, (deref_run _ _ _ _ Hf).
Qed.

Lemma get_page_tot_run fn p s f :
  frame s p = Some f →
  get_page_tot fn p s
  = Ret (tot_count f)
        (with_frame p (set_tot_count (u32 (tot_count f + 1)) f) s).
Proof.
  intros Hf. unfold get_page_tot.
  by rewrite bind_unfold, (deref_run _ _ _ _ Hf), bind_unfold,
     (assign_run _ _ _ _ _ Hf).
Qed.

Lemma get_page_type_run fn p s f :
  frame s p = Some f →
  get_page_type fn p s
  = Ret (type_count f)
        (with_frame p (set_type_count (u32 (type_count f + 1)) f) s).
Proof.
  intros Hf. unfold get_page_type.
  by rewrite bind_unfold, (deref_run _ _ _ _ Hf), bind_unfold,
     (assign_run _ _ _ _ _ Hf).
Qed.

Lemma put_page_tot_run fn p s f :
  frame s p = Some f →
  put_page_tot fn p s
  = Ret (u32 (tot_count f - 1))
        (with_frame p (set_tot_count (u32 (tot_count f - 1)) f) s).
Proof.
  intros Hf. unfold put_page_tot.
  by rewrite bind_unfold, (deref_run _ _ _ _ Hf), bind_unfold,
     (assign_run _ _ _ _ _ Hf).
Qed.

Lemma put_page_type_run fn p s f :
  frame s p = Some f →
  put_page_type fn p s
  = Ret (u32 (type_count f - 1))
        (with_frame p (set_type_count (u32 (type_count f - 1)) f) s).
Proof.
  intros Hf. unfold put_page_type.
  by rewrite bind_unfold, (deref_run _ _ _ _ Hf), bind_unfold,
     (assign_run _ _ _ _ _ Hf).
Qed.

Lemma or_flags_run fn p m s f :
  frame s p = Some f →
  or_flags fn p m s
  = Ret tt (with_frame p (set_flags (Z.lor (flags f) m) f) s).
Proof. intros Hf. unfold or_flags. by rewrite (assign_run _ _ _ _ _ Hf). Qed.

Lemma clear_flags_run fn p m s f :
  frame s p = Some f →
  clear_flags fn p m s
  = Ret tt (with_frame p (set_flags (Z.ldiff (flags f) m) f) s).
Proof.
  intros Hf. unfold clear_flags. by rewrite (assign_run _ _ _ _ _ Hf).
Qed.

(** An assertion that is compiled out, or whose condition evaluates to
    [true], is passed. *)
Lemma ASSERT_pass fn (c : M bool) s :
  (NDEBUG = false → c s = Ret true s) → ASSERT fn c s = Ret tt s.
Proof.
  intros Hc. unfold ASSERT. destruct NDEBUG; [done|].
  by rewrite bind_unfold, Hc.
Qed.

Lemma frame_set_tlb_flush v s p : frame (set_tlb_flush v s) p = frame s p.
Proof. reflexivity. Qed.

Lemma with_frame_set_tlb_flush v s p f :
  with_frame p f (set_tlb_flush v s) = set_tlb_flush v (with_frame p f s).
Proof. reflexivity. Qed.

End Running.

Create HintDb frames.
#[global] Hint Resolve frame_with_frame_eq : frames.

(** One step of a run on a state whose frame is known. *)
Ltac mrun1 :=
  first
  [ rewrite bind_unfold
  | rewrite gets_run
  | rewrite mret_run
  | rewrite modify_run
  | erewrite page_flags_run by eauto with frames
  | erewrite page_type_count_run by eauto with frames
  | erewrite get_page_tot_run by eauto with frames
  | erewrite get_page_type_run by eauto with frames
  | erewrite put_page_tot_run by eauto with frames
  | erewrite put_page_type_run by eauto with frames
  | erewrite or_flags_run by eauto with frames
  | erewrite clear_flags_run by eauto with frames
  | rewrite with_frame_twice ].
Ltac mrun := repeat mrun1.

(** Projections of an updated frame record. *)
Ltac frame_simpl :=
  unfold set_flags, set_tot_count, set_type_count, with_pin;
  cbn [flags tot_count type_count].
(** * Reference accounting (C1, C5) *)

Section Accounting.
Context `{Platform}.

Lemma to_int_zero x : 0 ≤ x < 2 ^ 32 → to_int x = 0 ↔ x = 0.
Proof.
  intros Hx. unfold to_int, u32. rewrite Z.mod_small by lia.
  destruct (Z.ltb_spec x (2 ^ 31)); lia.
Qed.

Lemma to_int_small x : 0 ≤ x < 2 ^ 31 → to_int x = x.
Proof.
  intros Hx. unfold to_int, u32. rewrite Z.mod_small by lia.
  destruct (Z.ltb_spec x (2 ^ 31)); lia.
Qed.

Lemma inc_page_refcnt_out_of_range s page_nr type :
  max_page s ≤ page_nr → inc_page_refcnt page_nr type s = Ret (-1) s.
Proof.
  intros Hr. unfold inc_page_refcnt. mrun.
  by destruct (Z.leb_spec (max_page s) page_nr); [|lia].
Qed.

Lemma inc_page_refcnt_wrong_domain s page_nr type f :
  frame s page_nr = Some f → owner f ≠ current_domain s →
  inc_page_refcnt page_nr type s = Ret (-1) s.
Proof.
  intros Hf Ho. pose proof (frame_Some_range _ _ _ Hf).
  unfold inc_page_refcnt. mrun.
  destruct (Z.leb_spec (max_page s) page_nr); [lia|]. mrun.
  fold (owner f). by destruct (Z.eqb_spec (owner f) (current_domain s)).
Qed.

Lemma inc_page_refcnt_type_conflict s page_nr type f :
  frame s page_nr = Some f → owner f = current_domain s →
  page_type f ≠ type → type_count f ≠ 0 →
  inc_page_refcnt page_nr type s = Ret (-1) s.
Proof.
  intros Hf Ho Ht Hc. pose proof (frame_Some_range _ _ _ Hf).
  unfold inc_page_refcnt. mrun.
  destruct (Z.leb_spec (max_page s) page_nr); [lia|]. mrun.
  fold (owner f) (page_type f). rewrite Ho, Z.eqb_refl. cbn [negb].
  destruct (Z.eqb_spec (page_type f) type); [done|]. cbn [negb]. mrun.
  by destruct (Z.eqb_spec (type_count f) 0).
Qed.

Lemma inc_page_refcnt_success s page_nr type f :
  frame s page_nr = Some f → owner f = current_domain s →
  page_type f = type ∨ type_count f = 0 →
  inc_page_refcnt page_nr type s
  = Ret (to_int (type_count f)) (with_frame page_nr (acquired type f) s).
Proof.
  intros Hf Ho Ht. pose proof (frame_Some_range _ _ _ Hf).
  unfold inc_page_refcnt, acquired. mrun.
  destruct (Z.leb_spec (max_page s) page_nr); [lia|]. mrun.
  fold (owner f) (page_type f). rewrite Ho, Z.eqb_refl. cbn [negb].
  destruct (Z.eqb_spec (page_type f) type) as [Et|Et]; cbn [negb].
  - by mrun.
  - destruct Ht as [Ht|Ht]; [done|]. mrun.
    destruct (Z.eqb_spec (type_count f) 0); [|done]. cbn [negb]. by mrun.
Qed.

Lemma page_type_acquired type f :
  page_type f = type ∨ type_count f = 0 →
  page_type (acquired type f)
  = Z.lor (page_type f) (Z.land type PG_type_mask).
Proof.
  intros Ht. unfold acquired, page_type at 1. cbn [flags].
  fold (page_type f). destruct (Z.eqb_spec (page_type f) type) as [Et|Et].
  - subst type. unfold page_type.
    by rewrite <- Z.land_assoc, Z.land_diag, Z.lor_diag.
  - by rewrite Z.land_lor_distr_l.
Qed.

(** C1. The requested type is one of the type tags, and the frame is
    untyped while it has no typed reference, as [dec_page_refcnt] and
    [put_page] leave every frame whose count they bring to 0.
    [inc_page_refcnt] fails, leaving the state as it was, when
    [page_nr >= max_page], when the frame's owner is not the current domain,
    and when the frame's type differs from the requested one while
    [type_count] is nonzero. In every other case it succeeds: a differing
    type is dealt with by [page->flags |= type], after which the frame has
    the requested type; both counts go up by one and the result is the
    count before the increment, which is 0 exactly when the frame had no
    typed reference. *)
Theorem inc_page_refcnt_acquire (s : machine) (page_nr type : Z) :
  Z.land type PG_type_mask = type →
  (max_page s ≤ page_nr → inc_page_refcnt page_nr type s = Ret (-1) s)
  ∧ ∀ f, frame s page_nr = Some f →
      (type_count f = 0 → page_type f = PGT_none) →
      (owner f ≠ current_domain s →
         inc_page_refcnt page_nr type s = Ret (-1) s)
    ∧ (owner f = current_domain s → page_type f ≠ type → type_count f ≠ 0 →
         inc_page_refcnt page_nr type s = Ret (-1) s)
    ∧ (owner f = current_domain s → page_type f = type ∨ type_count f = 0 →
         ∃ f', inc_page_refcnt page_nr type s
               = Ret (to_int (type_count f)) (with_frame page_nr f' s)
           ∧ page_type f' = type
           ∧ flags f' = (if page_type f =? type then flags f
                         else Z.lor (flags f) type)
           ∧ tot_count f' = u32 (tot_count f + 1)
           ∧ type_count f' = u32 (type_count f + 1)
           ∧ (0 ≤ type_count f < 2 ^ 32 →
              to_int (type_count f) = 0 ↔ type_count f = 0)
           ∧ (0 ≤ type_count f < 2 ^ 31 →
              to_int (type_count f) = type_count f)).
Proof.
  intros Htag. split; [apply inc_page_refcnt_out_of_range|].
  intros f Hf Hnone. split; [|split].
  - by apply inc_page_refcnt_wrong_domain.
  - by apply inc_page_refcnt_type_conflict.
  - intros Ho Ht. exists (acquired type f).
    split; [by apply inc_page_refcnt_success|].
    split; [|split; [done|split; [done|split; [done|split]]]].
    + rewrite page_type_acquired, Htag by done.
      destruct Ht as [->|Hc]; [apply Z.lor_diag|].
      rewrite (Hnone Hc). apply Z.lor_0_l.
    + apply to_int_zero.
    + apply to_int_small.
Qed.

Lemma u32_range x : 0 ≤ u32 x < 2 ^ 32.
Proof. unfold u32. apply Z.mod_pos_bound. lia. Qed.

Lemma page_type_cleared fl :
  Z.land (Z.ldiff fl PG_type_mask) PG_type_mask = PGT_none.
Proof. apply Z.land_ldiff. Qed.

Lemma dec_page_refcnt_success s page_nr type f :
  frame s page_nr = Some f →
  owner f = current_domain s → page_type f = type →
  (NDEBUG = false → type_count f ≠ 0) →
  dec_page_refcnt page_nr type s
  = Ret (to_int (u32 (type_count f - 1)))
        (with_frame page_nr (released f) s).
Proof.
  intros Hf Ho Ht Hc. pose proof (frame_Some_range _ _ _ Hf).
  unfold dec_page_refcnt, released. mrun.
  destruct (Z.leb_spec (max_page s) page_nr); [lia|]. mrun.
  rewrite Z.land_lor_distr_r. fold (owner f) (page_type f).
  rewrite Ho, Ht, Z.eqb_refl. cbn [negb]. mrun.
  rewrite ASSERT_pass; cycle 1.
  { intros Hd. mrun. by destruct (Z.eqb_spec (type_count f) 0); [apply Hc in Hd|]. }
  mrun. destruct (Z.eqb_spec (u32 (type_count f - 1)) 0); by mrun.
Qed.

(** C5. On a frame of the current domain whose type is the given one (and
    whose count is nonzero where [ASSERT] is compiled in), [dec_page_refcnt]
    decrements [type_count], clears the type to none exactly when the new
    count is 0, decrements [tot_count] and returns the new [type_count]. *)
Theorem dec_page_refcnt_release (s : machine) (page_nr type : Z)
    (f : pfn_info) :
  frame s page_nr = Some f →
  owner f = current_domain s → page_type f = type →
  (NDEBUG = false → type_count f ≠ 0) →
  ∃ f', dec_page_refcnt page_nr type s
        = Ret (to_int (type_count f')) (with_frame page_nr f' s)
    ∧ type_count f' = u32 (type_count f - 1)
    ∧ tot_count f' = u32 (tot_count f - 1)
    ∧ (type_count f' = 0 →
       flags f' = Z.ldiff (flags f) PG_type_mask ∧ page_type f' = PGT_none)
    ∧ (type_count f' ≠ 0 → flags f' = flags f ∧ page_type f' = type)
    ∧ (type_count f' < 2 ^ 31 → to_int (type_count f') = type_count f').
Proof.
  intros Hf Ho Ht Hc. exists (released f).
  split; [by apply dec_page_refcnt_success|].
  split; [done|]. split; [done|]. unfold released, page_type. cbn.
  destruct (Z.eqb_spec (u32 (type_count f - 1)) 0) as [E|E].
  - split; [intros _; split; [done|apply page_type_cleared]|].
    split; [done|]. intros _. rewrite E. by apply to_int_small.
  - split; [done|]. split; [done|].
    intros Hs. apply to_int_small. pose proof (u32_range (type_count f - 1)). lia.
Qed.

End Accounting.

(** * Page references: [get_page] and [put_page] (C7, C8) *)

Section Pages.
Context `{Platform}.

Lemma get_page_read_only s page_nr f :
  frame s page_nr = Some f → owner f = current_domain s →
  get_page page_nr 0 s
  = Ret 0 (with_frame page_nr (set_tot_count (u32 (tot_count f + 1)) f) s).
Proof.
  intros Hf Ho. pose proof (frame_Some_range _ _ _ Hf).
  unfold get_page. mrun.
  destruct (Z.leb_spec (max_page s) page_nr); [lia|]. mrun.
  fold (owner f). rewrite Ho, Z.eqb_refl. cbn [negb Z.eqb]. by mrun.
Qed.

(** The three assertions of [put_page] are passed. *)
Lemma put_page_asserts s page_nr writeable f :
  frame s page_nr = Some f →
  (NDEBUG = false →
   owner f = current_domain s
   ∧ (writeable ≠ 0 →
      type_count f ≠ 0 ∧ page_type f = PGT_writeable_page)) →
  put_page page_nr writeable s
  = ((if negb (writeable =? 0) then
        n ← put_page_type In_put_page page_nr;
        if n =? 0 then
          modify (set_tlb_flush 1);;
          clear_flags In_put_page page_nr PG_type_mask
        else mret tt
      else mret tt);;
     put_page_tot In_put_page page_nr;;
     mret tt) s.
Proof.
  intros Hf Ha. pose proof (frame_Some_range _ _ _ Hf).
  unfold put_page.
  rewrite bind_unfold, ASSERT_pass; cycle 1.
  { intros _. mrun. by destruct (Z.ltb_spec page_nr (max_page s)); [|lia]. }
  rewrite bind_unfold, ASSERT_pass; cycle 1.
  { intros Hd. destruct (Ha Hd) as [Ho _]. mrun.
    fold (owner f). by rewrite Ho, Z.eqb_refl. }
  rewrite bind_unfold, ASSERT_pass; cycle 1.
  { intros Hd. destruct (Ha Hd) as [_ Hw].
    destruct (Z.eqb_spec writeable 0); [done|]. mrun.
    destruct (Hw ltac:(done)) as [Hc Ht]. fold (page_type f).
    rewrite Ht, Z.eqb_refl. by destruct (Z.eqb_spec (type_count f) 0). }
  done.
Qed.

Lemma put_page_read_only s page_nr f :
  frame s page_nr = Some f → owner f = current_domain s →
  put_page page_nr 0 s
  = Ret tt (with_frame page_nr (set_tot_count (u32 (tot_count f - 1)) f) s).
Proof.
  intros Hf Ho. rewrite (put_page_asserts _ _ _ f); [|done|by intros _; split].
  cbn [Z.eqb negb]. by mrun.
Qed.

Lemma put_page_writeable s page_nr writeable f :
  frame s page_nr = Some f → writeable ≠ 0 →
  (NDEBUG = false →
   owner f = current_domain s ∧ type_count f ≠ 0
   ∧ page_type f = PGT_writeable_page) →
  put_page page_nr writeable s
  = Ret tt
      (if u32 (type_count f - 1) =? 0
       then set_tlb_flush 1 (with_frame page_nr (released f) s)
       else with_frame page_nr (released f) s).
Proof.
  intros Hf Hw Ha. rewrite (put_page_asserts _ _ _ f); [|done|]; cycle 1.
  { intros Hd. by destruct (Ha Hd) as (?&?&?). }
  destruct (Z.eqb_spec writeable 0); [done|]. cbn [negb]. mrun.
  unfold released.
  destruct (Z.eqb_spec (u32 (type_count f - 1)) 0).
  - mrun. erewrite clear_flags_run; cycle 1.
    { rewrite frame_set_tlb_flush. eauto with frames. }
    mrun. erewrite put_page_tot_run; cycle 1.
    { rewrite with_frame_set_tlb_flush, frame_set_tlb_flush.
      rewrite with_frame_twice. eauto with frames. }
    mrun. by rewrite !with_frame_set_tlb_flush, !with_frame_twice.
  - by mrun.
Qed.

Lemma flush_if_pending_run s :
  flush_if_pending s
  = Ret tt (if tlb_flush s =? 0 then s
            else log_event (LoadCR3 (mm_pagetable s)) (set_tlb_flush 0 s)).
Proof.
  unfold flush_if_pending. mrun. by destruct (tlb_flush s =? 0).
Qed.

(** C7. A [put_page] of a writeable mapping whose decrement takes
    [type_count] to 0 clears the frame's type and sets the flush flag of the
    CPU; and the dispatcher, once its loop has run through, reloads the root
    register with the current page table and clears the flag when the flag is
    set, and does neither when it is not. *)
Theorem put_page_schedules_flush_and_dispatcher_consumes_it :
  (∀ (s : machine) (page_nr writeable : Z) (f : pfn_info),
     frame s page_nr = Some f → writeable ≠ 0 →
     u32 (type_count f - 1) = 0 →
     (NDEBUG = false →
      owner f = current_domain s ∧ type_count f ≠ 0
      ∧ page_type f = PGT_writeable_page) →
     ∃ f' s', put_page page_nr writeable s = Ret tt s'
       ∧ frame s' page_nr = Some f'
       ∧ page_type f' = PGT_none ∧ type_count f' = 0
       ∧ tot_count f' = u32 (tot_count f - 1)
       ∧ tlb_flush s' = 1)
  ∧ (∀ (updates : list page_update_request_t) (count : Z) (s s1 : machine),
       process_updates (Z.to_nat count) updates 0 s = Ret tt s1 →
       ∃ s', do_process_page_updates updates count s = Ret 0 s'
         ∧ tlb_flush s' = 0
         ∧ frame_table s' = frame_table s1
         ∧ (tlb_flush s1 ≠ 0 →
            hw_log s' = LoadCR3 (mm_pagetable s1) :: hw_log s1)
         ∧ (tlb_flush s1 = 0 → s' = s1)).
Proof.
  split.
  - intros s page_nr writeable f Hf Hw Hz Ha.
    exists (released f), (set_tlb_flush 1 (with_frame page_nr (released f) s)).
    rewrite (put_page_writeable _ _ _ f) by done.
    rewrite Hz. cbn [Z.eqb]. split; [done|].
    split; [rewrite frame_set_tlb_flush; eauto with frames|].
    unfold released, page_type. rewrite Hz. cbn.
    by rewrite page_type_cleared.
  - intros updates count s s1 Hl. unfold do_process_page_updates.
    rewrite bind_unfold, Hl, bind_unfold, flush_if_pending_run.
    eexists. split; [reflexivity|].
    destruct (Z.eqb_spec (tlb_flush s1) 0) as [E|E]; cbn; by eauto.
Qed.

(** C8. On a frame of the current domain, taking and dropping a read-only
    mapping change [tot_count] by one and nothing else: not the flags (the
    type), not [type_count] (so not the pin bit the code reads off it), not
    the flush flag, no other frame and no memory. *)
Theorem read_only_mapping_changes_tot_count_only (s : machine)
    (page_nr : Z) (f : pfn_info) :
  frame s page_nr = Some f → owner f = current_domain s →
  ∃ f_get f_put,
    get_page page_nr 0 s = Ret 0 (with_frame page_nr f_get s)
    ∧ put_page page_nr 0 s = Ret tt (with_frame page_nr f_put s)
    ∧ tot_count f_get = u32 (tot_count f + 1)
    ∧ tot_count f_put = u32 (tot_count f - 1)
    ∧ (∀ f', f' = f_get ∨ f' = f_put →
         flags f' = flags f ∧ page_type f' = page_type f
         ∧ type_count f' = type_count f ∧ pinned f' = pinned f)
    ∧ (∀ f', tlb_flush (with_frame page_nr f' s) = tlb_flush s
             ∧ phys_mem (with_frame page_nr f' s) = phys_mem s
             ∧ ∀ q, 0 ≤ q → q ≠ page_nr →
                 frame (with_frame page_nr f' s) q = frame s q).
Proof.
  intros Hf Ho. pose proof (frame_Some_range _ _ _ Hf).
  exists (set_tot_count (u32 (tot_count f + 1)) f),
         (set_tot_count (u32 (tot_count f - 1)) f).
  split; [by apply get_page_read_only|].
  split; [by apply put_page_read_only|].
  split; [done|]. split; [done|]. split.
  - by intros f' [-> | ->].
  - intros f'. split; [done|]. split; [done|].
    intros q Hq Hne. apply frame_with_frame_ne; lia.
Qed.

End Pages.

(** * Invariants of runs *)

Section InvRun.
Context `{Platform}.
Variable I : machine → Prop.
Variable ok : stop → Prop.

Lemma inv_run_ret {A : Type} (a : A) : inv_run I ok (mret a : M A).
Proof. by intros s Hs. Qed.

Lemma inv_run_bind {A B : Type} (m : M A) (k : A → M B) :
  inv_run I ok m → (∀ a, inv_run I ok (k a)) → inv_run I ok (m ≫= k).
Proof.
  intros Hm Hk s Hs. rewrite bind_unfold. specialize (Hm s Hs).
  destruct (m s) as [a s'|w s']; [by apply Hk|done].
Qed.

Lemma inv_run_gets {A : Type} (g : machine → A) : inv_run I ok (gets g).
Proof. by intros s Hs. Qed.

Lemma inv_run_modify (g : machine → machine) :
  (∀ s, I s → I (g s)) → inv_run I ok (modify g).
Proof. intros Hg s Hs. by apply Hg. Qed.

Lemma inv_run_halt {A : Type} (w : stop) : ok w → inv_run I ok (halt w : M A).
Proof. by intros Hw s Hs. Qed.

Lemma inv_run_read_phys p : inv_run I ok (read_phys p).
Proof. apply inv_run_gets. Qed.

End InvRun.

Create HintDb inv.
#[global] Hint Resolve inv_run_ret inv_run_gets inv_run_read_phys : inv.

(** Splits a run along its binds and branches, and closes what the hint
    database knows. *)
Ltac inv_step :=
  lazymatch goal with
  | |- inv_run _ _ (_ ≫= _) => apply inv_run_bind; [|intros ?]
  | |- inv_run _ _ (if ?b then _ else _) => destruct b
  | |- inv_run _ _ (match ?x with _ => _ end) => destruct x
  | |- inv_run _ _ _ => solve [eauto with inv]
  end.
Ltac inv_go := cbv zeta; repeat inv_step.

(** The masking of the request kind leaves the frame number alone. *)
Lemma shiftr_ldiff_low_bits (p : Z) :
  Z.shiftr (Z.ldiff p (sizeof_pgentry - 1)) PAGE_SHIFT = Z.shiftr p PAGE_SHIFT.
Proof.
  change (sizeof_pgentry - 1) with (Z.ones 2). unfold PAGE_SHIFT.
  rewrite Z.ldiff_ones_r by lia.
  rewrite Z.shiftr_shiftl_r by lia.
  rewrite Z.shiftr_shiftr by lia. done.
Qed.

Section Preserved.
Context `{Platform}.
Variable I : machine → Prop.
Variable ok : stop → Prop.
(** The dereferences a run may make. *)
Variable allowed : site → Z → Prop.

Hypothesis I_frames : ∀ p f s, I s → I (with_frame p f s).
Hypothesis I_tlb : ∀ v s, I s → I (set_tlb_flush v s).
Hypothesis I_mem : ∀ m s, I s → I (set_phys_mem m s).
Hypothesis I_log : ∀ e s, I s → I (log_event e s).
Hypothesis I_pagetable : ∀ v s, I s → I (set_mm_pagetable v s).
Hypothesis ok_assert : ∀ fn, ok (AssertionFailed fn).
Hypothesis ok_kill : ∀ msg, ok (DomainKilled msg).
Hypothesis deref_allowed :
  ∀ fn p, allowed fn p → inv_run I ok (deref fn p).
Hypothesis allowed_leaf :
  ∀ fn p, fn ≠ In_do_extended_command → allowed fn p.
Hypothesis allowed_checked :
  ∀ p s, I s → 0 ≤ p < max_page s → allowed In_do_extended_command p.

Lemma inv_run_assign fn p g : allowed fn p → inv_run I ok (assign fn p g).
Proof.
  intros Ha. unfold assign. apply inv_run_bind; [by apply deref_allowed|].
  intros f. apply inv_run_modify. intros s. apply I_frames.
Qed.

Lemma inv_run_page_flags fn p : allowed fn p → inv_run I ok (page_flags fn p).
Proof.
  intros Ha. unfold page_flags.
  apply inv_run_bind; [by apply deref_allowed|]. intros. apply inv_run_ret.
Qed.

Lemma inv_run_page_type_count fn p :
  allowed fn p → inv_run I ok (page_type_count fn p).
Proof.
  intros Ha. unfold page_type_count.
  apply inv_run_bind; [by apply deref_allowed|]. intros. apply inv_run_ret.
Qed.

Lemma inv_run_get_page_tot fn p : allowed fn p → inv_run I ok (get_page_tot fn p).
Proof.
  intros Ha. unfold get_page_tot.
  apply inv_run_bind; [by apply deref_allowed|]. intros f.
  apply inv_run_bind; [by apply inv_run_assign|]. intros. apply inv_run_ret.
Qed.

Lemma inv_run_get_page_type fn p :
  allowed fn p → inv_run I ok (get_page_type fn p).
Proof.
  intros Ha. unfold get_page_type.
  apply inv_run_bind; [by apply deref_allowed|]. intros f.
  apply inv_run_bind; [by apply inv_run_assign|]. intros. apply inv_run_ret.
Qed.

Lemma inv_run_put_page_tot fn p : allowed fn p → inv_run I ok (put_page_tot fn p).
Proof.
  intros Ha. unfold put_page_tot.
  apply inv_run_bind; [by apply deref_allowed|]. intros f.
  apply inv_run_bind; [by apply inv_run_assign|]. intros. apply inv_run_ret.
Qed.

Lemma inv_run_put_page_type fn p :
  allowed fn p → inv_run I ok (put_page_type fn p).
Proof.
  intros Ha. unfold put_page_type.
  apply inv_run_bind; [by apply deref_allowed|]. intros f.
  apply inv_run_bind; [by apply inv_run_assign|]. intros. apply inv_run_ret.
Qed.

Lemma inv_run_or_flags fn p m : allowed fn p → inv_run I ok (or_flags fn p m).
Proof. intros Ha. by apply inv_run_assign. Qed.

Lemma inv_run_clear_flags fn p m :
  allowed fn p → inv_run I ok (clear_flags fn p m).
Proof. intros Ha. by apply inv_run_assign. Qed.

Lemma inv_run_ASSERT fn (c : M bool) :
  inv_run I ok c → inv_run I ok (ASSERT fn c).
Proof.
  intros Hc. unfold ASSERT. destruct NDEBUG; [apply inv_run_ret|].
  apply inv_run_bind; [done|]. intros [|]; [apply inv_run_ret|].
  by apply inv_run_halt.
Qed.

Lemma inv_run_set_tlb_flush v : inv_run I ok (modify (set_tlb_flush v)).
Proof. apply inv_run_modify. intros s. apply I_tlb. Qed.

Hint Resolve inv_run_assign inv_run_page_flags inv_run_page_type_count
  inv_run_get_page_tot inv_run_get_page_type inv_run_put_page_tot
  inv_run_put_page_type inv_run_or_flags inv_run_clear_flags
  inv_run_ASSERT inv_run_set_tlb_flush allowed_leaf : inv.

Lemma inv_run_inc_page_refcnt page_nr type :
  inv_run I ok (inc_page_refcnt page_nr type).
Proof. unfold inc_page_refcnt. inv_go. Qed.

Lemma inv_run_dec_page_refcnt page_nr type :
  inv_run I ok (dec_page_refcnt page_nr type).
Proof.
  unfold dec_page_refcnt. inv_go.
  apply inv_run_ASSERT. inv_go.
Qed.

Lemma inv_run_get_page page_nr writeable :
  inv_run I ok (get_page page_nr writeable).
Proof. unfold get_page. inv_go. Qed.

Lemma inv_run_put_page page_nr writeable :
  inv_run I ok (put_page page_nr writeable).
Proof. unfold put_page. inv_go; apply inv_run_ASSERT; inv_go. Qed.

Hint Resolve inv_run_inc_page_refcnt inv_run_dec_page_refcnt
  inv_run_get_page inv_run_put_page : inv.

Lemma inv_run_get_l1_entries n p ret :
  inv_run I ok (get_l1_entries n p ret).
Proof.
  revert p ret. induction n as [|n IH]; intros p ret; cbn [get_l1_entries];
    inv_go.
Qed.

Lemma inv_run_put_l1_entries n p : inv_run I ok (put_l1_entries n p).
Proof.
  revert p. induction n as [|n IH]; intros p; cbn [put_l1_entries]; inv_go.
Qed.

Hint Resolve inv_run_get_l1_entries inv_run_put_l1_entries : inv.

Lemma inv_run_get_l1_table page_nr : inv_run I ok (get_l1_table page_nr).
Proof. unfold get_l1_table. inv_go. Qed.

Lemma inv_run_put_l1_table page_nr : inv_run I ok (put_l1_table page_nr).
Proof. unfold put_l1_table. inv_go. Qed.

Hint Resolve inv_run_get_l1_table inv_run_put_l1_table : inv.

Lemma inv_run_put_l2_entries n page_nr i p :
  inv_run I ok (put_l2_entries n page_nr i p).
Proof.
  revert i p. induction n as [|n IH]; intros i p; cbn [put_l2_entries];
    inv_go.
Qed.

Hint Resolve inv_run_put_l2_entries : inv.

Lemma inv_run_put_l2_table page_nr : inv_run I ok (put_l2_table page_nr).
Proof. unfold put_l2_table. inv_go. Qed.

(** From here on memory is written. *)

Lemma inv_run_write_phys p v : inv_run I ok (write_phys p v).
Proof. apply inv_run_modify. intros s. apply I_mem. Qed.

Hint Resolve inv_run_write_phys inv_run_put_l2_table : inv.

Lemma inv_run_get_l2_entries n page_nr i p ret :
  inv_run I ok (get_l2_entries n page_nr i p ret).
Proof.
  revert i p ret.
  induction n as [|n IH]; intros i p ret; cbn [get_l2_entries]; inv_go.
Qed.

Lemma inv_run_copy_idle_entries n dst from :
  inv_run I ok (copy_idle_entries n dst from).
Proof.
  revert dst from.
  induction n as [|n IH]; intros dst from; cbn [copy_idle_entries]; inv_go.
Qed.

Hint Resolve inv_run_get_l2_entries inv_run_copy_idle_entries : inv.

Lemma inv_run_get_l2_table page_nr : inv_run I ok (get_l2_table page_nr).
Proof. unfold get_l2_table. inv_go. Qed.

Lemma inv_run_mod_l1_entry pa new : inv_run I ok (mod_l1_entry pa new).
Proof. unfold mod_l1_entry. inv_go. Qed.

Lemma inv_run_mod_l2_entry pa new : inv_run I ok (mod_l2_entry pa new).
Proof. unfold mod_l2_entry. inv_go. Qed.

Hint Resolve inv_run_get_l2_table inv_run_mod_l1_entry inv_run_mod_l2_entry
  : inv.

Lemma inv_run_do_extended_command ptr val :
  allowed In_do_extended_command (Z.shiftr ptr PAGE_SHIFT) →
  inv_run I ok (do_extended_command ptr val).
Proof.
  intros Ha. unfold do_extended_command. inv_go.
  all: try (apply inv_run_modify; intros s; first [apply I_log|apply I_pagetable]).
Qed.

Hint Resolve inv_run_do_extended_command : inv.

Lemma inv_run_kill {A : Type} msg :
  inv_run I ok (kill_domain_with_errmsg msg : M A).
Proof. by apply inv_run_halt. Qed.

Hint Resolve inv_run_kill : inv.

Lemma inv_run_demux_request cur pfn :
  allowed In_do_extended_command
    (Z.shiftr (Z.ldiff (ptr cur) (sizeof_pgentry - 1)) PAGE_SHIFT) →
  inv_run I ok (demux_request cur pfn).
Proof. intros Ha. unfold demux_request. inv_go. Qed.

Lemma inv_run_report_request cur_ptr err :
  inv_run I ok (report_request cur_ptr err).
Proof. unfold report_request. inv_go. Qed.

Lemma inv_run_process_request cur :
  0 ≤ ptr cur → inv_run I ok (process_request cur).
Proof.
  intros Hptr s Hs. unfold process_request.
  rewrite bind_unfold, gets_run, bind_unfold.
  assert (0 ≤ Z.shiftr (ptr cur) PAGE_SHIFT) as Hpfn
    by by apply Z.shiftr_nonneg.
  destruct (Z.leb_spec (max_page s) (Z.shiftr (ptr cur) PAGE_SHIFT)) as [Hr|Hr];
    [by split|].
  rewrite mret_run.
  refine (inv_run_bind I ok _ _ _ _ s Hs).
  - apply inv_run_demux_request. rewrite shiftr_ldiff_low_bits.
    by apply (allowed_checked _ s).
  - intros x. apply inv_run_report_request.
Qed.

Hint Resolve inv_run_process_request : inv.

Lemma inv_run_process_updates n updates i :
  Forall (λ r, 0 ≤ ptr r) updates →
  inv_run I ok (process_updates n updates i).
Proof.
  intros Hall. revert i.
  induction n as [|n IH]; intros i; cbn [process_updates]; [inv_go|].
  unfold copy_from_user. destruct (updates !! i) as [cur|] eqn:E; [|inv_go].
  pose proof (Forall_lookup_1 _ _ _ _ Hall E) as Hcur. cbn beta in Hcur.
  inv_go.
Qed.

Lemma inv_run_flush_if_pending : inv_run I ok flush_if_pending.
Proof.
  unfold flush_if_pending. inv_go.
  apply inv_run_modify. intros s. apply I_log.
Qed.

Lemma inv_run_do_process_page_updates updates count :
  Forall (λ r, 0 ≤ ptr r) updates →
  inv_run I ok (do_process_page_updates updates count).
Proof.
  intros Hall. unfold do_process_page_updates.
  apply inv_run_bind; [by apply inv_run_process_updates|]. intros _.
  apply inv_run_bind; [apply inv_run_flush_if_pending|]. intros _.
  apply inv_run_ret.
Qed.

End Preserved.

(** * The dispatcher (C9, C10) *)

Section Dispatcher.
Context `{Platform}.

Lemma deref_checked n fn p :
  checked_deref n fn p →
  inv_run (table_has n) not_wild_in_extended (deref fn p).
Proof.
  intros Ha s Hs. unfold deref. destruct (frame s p) eqn:E; [done|].
  split; [done|]. intros [= ->]. destruct Ha as [Ha|Ha]; [done|].
  unfold table_has in Hs. subst n.
  destruct (frame_in_range s p Ha) as [f Hf]. congruence.
Qed.

Lemma dispatcher_keeps_table n updates count :
  Forall (λ r, 0 ≤ ptr r) updates →
  inv_run (table_has n) not_wild_in_extended
          (do_process_page_updates updates count).
Proof.
  intros Hall.
  apply inv_run_do_process_page_updates with (allowed := checked_deref n);
    try done.
  - intros p f s. unfold table_has. by rewrite max_page_with_frame.
  - apply deref_checked.
  - intros fn p Hfn. by left.
  - intros p s Hs Hp. right. unfold table_has in Hs. by subst n.
Qed.

Lemma process_request_out_of_range s cur :
  max_page s ≤ Z.shiftr (ptr cur) PAGE_SHIFT →
  process_request cur s
  = Stop (DomainKilled Page_update_request_out_of_range) s.
Proof.
  intros Hr. unfold process_request.
  rewrite bind_unfold, gets_run, bind_unfold.
  by destruct (Z.leb_spec (max_page s) (Z.shiftr (ptr cur) PAGE_SHIFT));
    [|lia].
Qed.

(** C9. Every request whose frame number is not below [max_page] ends in
    the death of the domain before the [switch] is reached;
    [do_extended_command] gets the masked [ptr], whose frame number is that
    of the request; hence no run of the dispatcher stops on a wild
    dereference of [frame_table + pfn] made by [do_extended_command], and the
    table keeps its size. *)
Theorem extended_command_frame_accesses_in_bounds
    (updates : list page_update_request_t) (count : Z) (s : machine) :
  Forall (λ r, 0 ≤ ptr r) updates →
  (∀ s0 cur, max_page s0 ≤ Z.shiftr (ptr cur) PAGE_SHIFT →
     process_request cur s0
     = Stop (DomainKilled Page_update_request_out_of_range) s0)
  ∧ (∀ cur, Z.shiftr (Z.ldiff (ptr cur) (sizeof_pgentry - 1)) PAGE_SHIFT
            = Z.shiftr (ptr cur) PAGE_SHIFT)
  ∧ wild_access_in In_do_extended_command
      (do_process_page_updates updates count s) = false
  ∧ max_page (final_state (do_process_page_updates updates count s))
    = max_page s.
Proof.
  intros Hall. split; [apply process_request_out_of_range|].
  split; [intros; apply shiftr_ldiff_low_bits|].
  pose proof (dispatcher_keeps_table (max_page s) updates count Hall s eq_refl)
    as Hrun.
  destruct (do_process_page_updates updates count s) as [r s'|w s']; [done|].
  destruct Hrun as [Hn Hw]. split; [|done].
  destruct w as [fn|fn|msg]; cbn; try done.
  apply bool_decide_eq_false. intros ->. by apply Hw.
Qed.

(** A request kind that is none of the three known ones. *)
Lemma demux_request_unknown_kind s cur pfn :
  Z.land (ptr cur) (sizeof_pgentry - 1) = 3 →
  demux_request cur pfn s = Ret (ptr cur, 1) s.
Proof. intros Hk. unfold demux_request. by rewrite Hk. Qed.

Lemma process_request_unknown_kind s cur :
  0 ≤ ptr cur → Z.land (ptr cur) (sizeof_pgentry - 1) = 3 →
  process_request cur s
  = Stop (DomainKilled
            (if max_page s <=? Z.shiftr (ptr cur) PAGE_SHIFT
             then Page_update_request_out_of_range
             else Illegal_page_update_request)) s.
Proof.
  intros Hp Hk. unfold process_request.
  rewrite bind_unfold, gets_run, bind_unfold.
  destruct (Z.leb_spec (max_page s) (Z.shiftr (ptr cur) PAGE_SHIFT)) as [Hr|Hr];
    [done|].
  rewrite mret_run, bind_unfold, demux_request_unknown_kind by done.
  cbn [fst snd]. unfold report_request. cbn [Z.eqb negb].
  assert (0 ≤ Z.shiftr (ptr cur) PAGE_SHIFT) as Hpfn
    by by apply Z.shiftr_nonneg.
  destruct (frame_in_range s (Z.shiftr (ptr cur) PAGE_SHIFT)) as [f Hf];
    [done|].
  rewrite bind_unfold. by erewrite page_flags_run by done.
Qed.

(** C10. A request whose [ptr] has both low bits set changes nothing, in
    the frame table, in memory or elsewhere, and the domain is killed: the
    turn of the loop that reads it stops there, in the state it started
    in. *)
Theorem unknown_request_kind_kills_without_mutation (s : machine)
    (cur : page_update_request_t) :
  0 ≤ ptr cur →
  Z.land (ptr cur) (sizeof_pgentry - 1) = 3 →
  ∃ msg,
    process_request cur s = Stop (DomainKilled msg) s
    ∧ ∀ n updates i, copy_from_user updates i = Some cur →
        process_updates (S n) updates i s = Stop (DomainKilled msg) s.
Proof.
  intros Hp Hk. eexists. split; [by apply process_request_unknown_kind|].
  intros n updates i Hc. cbn [process_updates]. rewrite Hc, bind_unfold.
  by rewrite process_request_unknown_kind.
Qed.

End Dispatcher.

(** * The unchecked update *)

Section Unchecked.
Context `{PlatformLaws}.

Lemma tag_outside_owner_field tag :
  Z.land tag PG_type_mask = tag → Z.land tag PG_domain_mask = 0.
Proof.
  intros <-. by rewrite <- Z.land_assoc, fields_disjoint, Z.land_0_r.
Qed.

(** The test of the unchecked case, read on the fields of the flags word:
    with a domain identifier that fits the owner field and a flags word made
    of its two fields, it holds exactly of domain 0 and an L1 table whose
    owner field is 0. *)
Lemma unchecked_test_on_fields (fl dom : Z) :
  Z.land dom PG_domain_mask = dom →
  Z.lor (Z.land fl PG_domain_mask) (Z.land fl PG_type_mask) = fl →
  Z.lor fl dom = PGT_l1_page_table
  ↔ dom = 0 ∧ Z.land fl PG_type_mask = PGT_l1_page_table
    ∧ Z.land fl PG_domain_mask = 0.
Proof.
  intros Hdom Hfl. split.
  - intros Heq.
    assert (Z.land (Z.lor fl dom) PG_domain_mask = 0) as Hz.
    { rewrite Heq. apply tag_outside_owner_field, l1_is_tag. }
    rewrite Z.land_lor_distr_l, Hdom in Hz.
    apply Z.lor_eq_0_iff in Hz as [Ho ->].
    rewrite Z.lor_0_r in Heq. subst fl. by rewrite l1_is_tag.
  - intros (-> & Ht & Ho). by rewrite Z.lor_0_r, <- Hfl, Ho, Ht.
Qed.

(** The unchecked case of the [switch], run on a frame inside the table. *)
Lemma process_request_unchecked s cur f :
  Z.land (ptr cur) (sizeof_pgentry - 1) = PGREQ_UNCHECKED_UPDATE →
  frame s (Z.shiftr (ptr cur) PAGE_SHIFT) = Some f →
  process_request cur s
  = if Z.lor (flags f) (current_domain s) =? PGT_l1_page_table
    then Ret tt (set_phys_mem
                   (store (Z.ldiff (ptr cur) (sizeof_pgentry - 1)) (val cur)
                          (phys_mem s)) s)
    else Stop (DomainKilled Illegal_page_update_request) s.
Proof.
  intros Hk Hf. pose proof (frame_Some_range _ _ _ Hf) as Hr.
  assert (process_request cur s
          = (x ← demux_request cur (Z.shiftr (ptr cur) PAGE_SHIFT);
             report_request x.1 x.2) s) as ->.
  { unfold process_request. rewrite bind_unfold, gets_run, bind_unfold.
    by destruct (Z.leb_spec (max_page s) (Z.shiftr (ptr cur) PAGE_SHIFT));
      [lia|]. }
  rewrite bind_unfold. unfold demux_request. rewrite Hk.
  change (PGREQ_UNCHECKED_UPDATE =? PGREQ_NORMAL) with false.
  change (PGREQ_UNCHECKED_UPDATE =? PGREQ_UNCHECKED_UPDATE) with true.
  cbv zeta. mrun. unfold write_phys, map_domain_mem.
  destruct (Z.lor (flags f) (current_domain s) =? PGT_l1_page_table);
    [by mrun|].
  mrun. cbn [fst snd]. unfold report_request. cbn [Z.eqb negb].
  rewrite bind_unfold.
  erewrite page_flags_run; [done|]. by rewrite shiftr_ldiff_low_bits.
Qed.

(** The unchecked request on a frame inside the table: accepted exactly
    when [(flags | current->domain) == PGT_l1_page_table]. Accepted, it
    writes [val] at the masked [ptr] and touches nothing else; refused, it
    changes nothing and the domain is killed. *)
Theorem unchecked_update_decision (s : machine)
    (cur : page_update_request_t) (f : pfn_info) :
  Z.land (ptr cur) (sizeof_pgentry - 1) = PGREQ_UNCHECKED_UPDATE →
  frame s (Z.shiftr (ptr cur) PAGE_SHIFT) = Some f →
  (Z.lor (flags f) (current_domain s) = PGT_l1_page_table →
     process_request cur s
     = Ret tt (set_phys_mem
                 (store (Z.ldiff (ptr cur) (sizeof_pgentry - 1)) (val cur)
                        (phys_mem s)) s))
  ∧ (Z.lor (flags f) (current_domain s) ≠ PGT_l1_page_table →
     process_request cur s
     = Stop (DomainKilled Illegal_page_update_request) s)
  ∧ (Z.land (current_domain s) PG_domain_mask = current_domain s →
     Z.lor (owner f) (page_type f) = flags f →
     Z.lor (flags f) (current_domain s) = PGT_l1_page_table
     ↔ current_domain s = 0 ∧ page_type f = PGT_l1_page_table
       ∧ owner f = 0).
Proof.
  intros Hk Hf. rewrite (process_request_unchecked s cur f Hk Hf).
  split; [|split].
  - intros ->. by rewrite Z.eqb_refl.
  - intros Hne.
    by destruct (Z.eqb_spec (Z.lor (flags f) (current_domain s))
                   PGT_l1_page_table).
  - apply unchecked_test_on_fields.
Qed.

(** C4. The current domain's identifier fits the owner field of the flags
    word, and the flags word of the targeted frame holds its owner and its
    type. An unchecked request then succeeds exactly when the current domain
    is domain 0 and the frame is an L1 table that domain 0 owns: [val] is
    written at the entry, and the frame table, with every count in it, is
    as it was. In every other case, and when the frame number is not below
    [max_page], the request fails: the domain is killed and nothing has
    changed. *)
Theorem unchecked_update_only_by_domain_0 (s : machine)
    (cur : page_update_request_t) :
  Z.land (ptr cur) (sizeof_pgentry - 1) = PGREQ_UNCHECKED_UPDATE →
  Z.land (current_domain s) PG_domain_mask = current_domain s →
  (max_page s ≤ Z.shiftr (ptr cur) PAGE_SHIFT →
     process_request cur s
     = Stop (DomainKilled Page_update_request_out_of_range) s)
  ∧ ∀ f, frame s (Z.shiftr (ptr cur) PAGE_SHIFT) = Some f →
      Z.lor (owner f) (page_type f) = flags f →
      ((∃ s', process_request cur s = Ret tt s')
       ↔ current_domain s = 0 ∧ page_type f = PGT_l1_page_table
         ∧ owner f = 0)
    ∧ (current_domain s = 0 ∧ page_type f = PGT_l1_page_table ∧ owner f = 0 →
       process_request cur s
       = Ret tt (set_phys_mem
                   (store (Z.ldiff (ptr cur) (sizeof_pgentry - 1)) (val cur)
                          (phys_mem s)) s))
    ∧ (¬ (current_domain s = 0 ∧ page_type f = PGT_l1_page_table
          ∧ owner f = 0) →
       process_request cur s
       = Stop (DomainKilled Illegal_page_update_request) s).
Proof.
  intros Hk Hdom. split; [apply process_request_out_of_range|].
  intros f Hf Hfl. rewrite (process_request_unchecked s cur f Hk Hf).
  pose proof (unchecked_test_on_fields (flags f) (current_domain s) Hdom Hfl)
    as Htest. fold (owner f) (page_type f) in Htest.
  destruct (Z.eqb_spec (Z.lor (flags f) (current_domain s))
              PGT_l1_page_table) as [Hyes|Hno].
  - apply Htest in Hyes. split; [|by split]. split; [done|]. by eexists.
  - assert (¬ (current_domain s = 0 ∧ page_type f = PGT_l1_page_table
               ∧ owner f = 0)) as Hnot by (intros Hc; by apply Hno, Htest).
    split; [|by split]. split; [by intros [s' ?]|done].
Qed.

End Unchecked.

(** * The entry modifiers (C2) *)

Section Modifiers.
Context `{Platform}.

Lemma deref_wild fn p s : frame s p = None → deref fn p s = Stop (WildFrameAccess fn) s.
Proof. unfold deref. by intros ->. Qed.

Lemma page_flags_wild fn p s :
  frame s p = None → page_flags fn p s = Stop (WildFrameAccess fn) s.
Proof.
  intros Hf. unfold page_flags. by rewrite bind_unfold, deref_wild.
Qed.

(** A [get_page] that fails has changed nothing. *)
Lemma get_page_failure s page_nr writeable r s' :
  get_page page_nr writeable s = Ret r s' → r ≠ 0 → s' = s.
Proof.
  unfold get_page. rewrite bind_unfold, gets_run.
  destruct (Z.leb_spec (max_page s) page_nr); [by intros [= <- <-]|].
  destruct (frame s page_nr) as [f|] eqn:Hf;
    [|by rewrite bind_unfold, page_flags_wild].
  mrun. destruct (Z.land (flags f) PG_domain_mask =? current_domain s);
    cbn [negb]; [|by intros [= <- <-]].
  destruct (writeable =? 0); cbn [negb]; [mrun; by intros [= <- <-]|].
  destruct (Z.land (flags f) PG_type_mask =? PGT_writeable_page); cbn [negb];
    [mrun; by intros [= <- <-]|].
  mrun. destruct (type_count f =? 0); cbn [negb]; [|by intros [= <- <-]].
  mrun. by intros [= <- <-].
Qed.

Lemma memory_kept_by_frames m p f s :
  memory_is m s → memory_is m (with_frame p f s).
Proof. done. Qed.

Lemma deref_any (I : machine → Prop) fn p :
  inv_run I any_stop (deref fn p).
Proof. intros s Hs. unfold deref. by destruct (frame s p). Qed.

Lemma put_page_keeps_memory m page_nr writeable :
  inv_run (memory_is m) any_stop (put_page page_nr writeable).
Proof.
  apply inv_run_put_page with (allowed := any_deref); try done.
  intros. apply deref_any.
Qed.

Lemma put_l1_table_keeps_memory m page_nr :
  inv_run (memory_is m) any_stop (put_l1_table page_nr).
Proof.
  apply inv_run_put_l1_table with (allowed := any_deref); try done.
  intros. apply deref_any.
Qed.

Lemma get_l1_table_keeps_memory m page_nr :
  inv_run (memory_is m) any_stop (get_l1_table page_nr).
Proof.
  apply inv_run_get_l1_table with (allowed := any_deref); try done.
  intros. apply deref_any.
Qed.

Lemma store_store_old pa v (m : Z → Z) a :
  store pa (m pa) (store pa v m) a = m a.
Proof. unfold store. by destruct (Z.eqb_spec a pa) as [->|]. Qed.

Lemma store_old pa (m : Z → Z) a : store pa (m pa) m a = m a.
Proof. unfold store. by destruct (Z.eqb_spec a pa) as [->|]. Qed.

Lemma mod_l1_entry_failure s pa new r s' :
  mod_l1_entry pa new s = Ret r s' → r ≠ 0 →
  phys_mem s' = phys_mem s
  ∧ (Z.land new (Z.lor _PAGE_GLOBAL _PAGE_PAT) ≠ 0
     ∨ Z.land (phys_mem s (map_domain_mem pa)) _PAGE_PRESENT = 0 →
     s' = s).
Proof.
  unfold mod_l1_entry. cbv zeta. rewrite bind_unfold. unfold read_phys at 1.
  rewrite gets_run. set (old := phys_mem s (map_domain_mem pa)).
  unfold write_phys.
  destruct (Z.eqb_spec (Z.land new _PAGE_PRESENT) 0) as [Hn|Hn]; cbn [negb].
  { destruct (Z.land old _PAGE_PRESENT =? 0); cbn [negb].
    - mrun. by intros [= <- <-].
    - rewrite bind_unfold.
      destruct (put_page _ _ s) as [[] s1|w s1]; [|done].
      mrun. by intros [= <- <-]. }
  destruct (Z.eqb_spec (Z.land new (Z.lor _PAGE_GLOBAL _PAGE_PAT)) 0)
    as [Hb|Hb]; cbn [negb]; [|by intros [= <- <-]].
  destruct (Z.land (Z.lxor old new) 4294963203 =? 0); cbn [negb];
    [mrun; by intros [= <- <-]|].
  rewrite bind_unfold.
  destruct (Z.eqb_spec (Z.land old _PAGE_PRESENT) 0) as [Ho|Ho]; cbn [negb].
  - rewrite mret_run, bind_unfold.
    destruct (get_page _ _ s) as [r2 s2|w s2] eqn:E2; [|done].
    destruct (Z.eqb_spec r2 0) as [->|Hr2]; cbn [negb];
      [mrun; by intros [= <- <-]|].
    rewrite mret_run. intros [= <- <-] _.
    by rewrite (get_page_failure _ _ _ _ _ E2 Hr2).
  - pose proof (put_page_keeps_memory (phys_mem s)
                  (l1_pgentry_to_pagenr old) (Z.land old _PAGE_RW) s eq_refl)
      as Hput.
    destruct (put_page _ _ s) as [[] s1|w s1]; [|done].
    rewrite bind_unfold.
    destruct (get_page _ _ s1) as [r2 s2|w s2] eqn:E2; [|done].
    destruct (Z.eqb_spec r2 0) as [->|Hr2]; cbn [negb];
      [mrun; by intros [= <- <-]|].
    rewrite mret_run. intros [= <- <-] _.
    rewrite (get_page_failure _ _ _ _ _ E2 Hr2).
    split; [done|]. intros [Hc|Hc]; done.
Qed.

Lemma mod_l2_entry_failure s pa new r s' :
  mod_l2_entry pa new s = Ret r s' → r ≠ 0 →
  (∀ a, phys_mem s' a = phys_mem s a)
  ∧ (DOMAIN_ENTRIES_PER_L2_PAGETABLE
       ≤ Z.shiftr (Z.land (map_domain_mem pa) (PAGE_SIZE - 1)) 2
     ∨ Z.land new (Z.lor _PAGE_GLOBAL _PAGE_PSE) ≠ 0 →
     frame_table s' = frame_table s ∧ tlb_flush s' = tlb_flush s).
Proof.
  unfold mod_l2_entry. cbv zeta. rewrite bind_unfold. unfold read_phys at 1.
  rewrite gets_run. set (old := phys_mem s (map_domain_mem pa)).
  unfold write_phys.
  destruct (Z.leb_spec DOMAIN_ENTRIES_PER_L2_PAGETABLE
              (Z.shiftr (Z.land (map_domain_mem pa) (PAGE_SIZE - 1)) 2))
    as [Hs|Hs].
  { mrun. intros [= <- <-] _. split; [|done].
    intros a. apply store_old. }
  mrun. set (s1 := set_phys_mem (store (map_domain_mem pa) new (phys_mem s)) s).
  destruct (Z.eqb_spec (Z.land new _PAGE_PRESENT) 0) as [Hn|Hn]; cbn [negb].
  { destruct (Z.land old _PAGE_PRESENT =? 0); cbn [negb].
    - by intros [= <- <-].
    - rewrite bind_unfold.
      destruct (put_l1_table _ s1) as [[] s2|w s2]; [|done].
      mrun. by intros [= <- <-]. }
  destruct (Z.eqb_spec (Z.land new (Z.lor _PAGE_GLOBAL _PAGE_PSE)) 0)
    as [Hb|Hb]; cbn [negb].
  2:{ mrun. intros [= <- <-] _. split; [|done].
      intros a. apply store_store_old. }
  destruct (Z.land (Z.lxor old new) 4294963201 =? 0); cbn [negb];
    [by intros [= <- <-]|].
  assert (∀ s2, memory_is (phys_mem s1) s2 →
    ∀ o, (r2 ← get_l1_table (l2_pgentry_to_pagenr new);
          if negb (r2 =? 0)
          then modify (λ s, set_phys_mem
                              (store (map_domain_mem pa) old (phys_mem s)) s);;
               mret (-1)
          else mret 0) s2 = o →
    o = Ret r s' → r ≠ 0 → ∀ a, phys_mem s' a = phys_mem s a) as Hget.
  { intros s2 Hm2 o <-. rewrite bind_unfold.
    pose proof (get_l1_table_keeps_memory (phys_mem s1)
                  (l2_pgentry_to_pagenr new) s2 Hm2) as Hg.
    destruct (get_l1_table _ s2) as [r3 s3|w s3]; [|done].
    destruct (Z.eqb_spec r3 0) as [->|Hr3]; cbn [negb];
      [by intros [= <- <-]|].
    mrun. intros [= <- <-] _ a. cbn. unfold memory_is in Hg. rewrite Hg.
    apply store_store_old. }
  destruct (Z.eqb_spec (Z.land old _PAGE_PRESENT) 0) as [Ho|Ho]; cbn [negb].
  - rewrite (bind_unfold (mret tt)), mret_run.
    intros Hr Hne. split; [by eapply (Hget s1)|]. intros [Hc|Hc]; [lia|done].
  - pose proof (put_l1_table_keeps_memory (phys_mem s1)
                  (l2_pgentry_to_pagenr old) s1 eq_refl) as Hput.
    rewrite (bind_unfold (put_l1_table _)).
    destruct (put_l1_table _ s1) as [[] s2|w s2]; [|done].
    intros Hr Hne. split; [by eapply (Hget s2)|]. intros [Hc|Hc]; [lia|done].
Qed.

(** C2, as the code has it. When [mod_l1_entry] or [mod_l2_entry] returns
    failure, memory, and so the entry, reads as before the call (nothing was
    written, or the old value was written back). The frame table is as
    before too when the failure comes before any release or acquire: a
    forbidden bit in the new entry, a slot of the hypervisor area, or, for
    [mod_l1_entry], an old entry that is not present. *)
Theorem failed_modification_restores_entry (s s' : machine) (pa new r : Z) :
  r ≠ 0 →
  (mod_l1_entry pa new s = Ret r s' →
     phys_mem s' = phys_mem s
     ∧ (Z.land new (Z.lor _PAGE_GLOBAL _PAGE_PAT) ≠ 0
        ∨ Z.land (phys_mem s (map_domain_mem pa)) _PAGE_PRESENT = 0 →
        s' = s))
  ∧ (mod_l2_entry pa new s = Ret r s' →
     (∀ a, phys_mem s' a = phys_mem s a)
     ∧ (DOMAIN_ENTRIES_PER_L2_PAGETABLE
          ≤ Z.shiftr (Z.land (map_domain_mem pa) (PAGE_SIZE - 1)) 2
        ∨ Z.land new (Z.lor _PAGE_GLOBAL _PAGE_PSE) ≠ 0 →
        frame_table s' = frame_table s ∧ tlb_flush s' = tlb_flush s)).
Proof.
  intros Hr. split; intros Hm.
  - by eapply mod_l1_entry_failure.
  - by eapply mod_l2_entry_failure.
Qed.

(** A call of [get_page] that returns failure has changed nothing: not a
    count, not a type, not the flush flag. *)
Theorem failed_get_page_changes_nothing (s s' : machine)
    (page_nr writeable r : Z) :
  get_page page_nr writeable s = Ret r s' → r ≠ 0 → s' = s.
Proof. apply get_page_failure. Qed.

End Modifiers.

(** * The release walk of a directory *)

Section DirectoryRelease.
Context `{Platform}.

Lemma put_l2_entries_none_present n page_nr i p s :
  (∀ k, 0 ≤ k < Z.of_nat n →
        Z.land (phys_mem s (p + sizeof_pgentry * k)) _PAGE_PRESENT = 0) →
  put_l2_entries n page_nr i p s = Ret tt s.
Proof.
  revert i p. induction n as [|n IH]; intros i p Hnone; [done|].
  cbn [put_l2_entries]. rewrite bind_unfold. unfold read_phys at 1.
  rewrite gets_run.
  pose proof (Hnone 0 ltac:(lia)) as H0. rewrite Z.mul_0_r, Z.add_0_r in H0.
  rewrite H0. cbn [Z.eqb negb]. apply IH. intros k Hk.
  specialize (Hnone (k + 1) ltac:(lia)).
  by replace (p + sizeof_pgentry + sizeof_pgentry * k)
    with (p + sizeof_pgentry * (k + 1)) by lia.
Qed.

(** When the last reference of a directory goes, and none of its first
    [HYPERVISOR_ENTRIES_PER_L2_PAGETABLE] slots holds a present entry,
    [put_l2_table] changes the frame of the directory and nothing else,
    whatever the slots from there up to [DOMAIN_ENTRIES_PER_L2_PAGETABLE]
    hold. *)
Theorem put_l2_table_reads_hypervisor_count_of_slots (s : machine)
    (page_nr : Z) (f : pfn_info) :
  frame s page_nr = Some f →
  owner f = current_domain s → page_type f = PGT_l2_page_table →
  (NDEBUG = false → type_count f ≠ 0) →
  u32 (type_count f - 1) = 0 →
  (∀ k, 0 ≤ k < HYPERVISOR_ENTRIES_PER_L2_PAGETABLE →
        Z.land (phys_mem s (map_domain_mem (page_address page_nr)
                            + sizeof_pgentry * k)) _PAGE_PRESENT = 0) →
  put_l2_table page_nr s = Ret 0 (with_frame page_nr (released f) s).
Proof.
  intros Hf Ho Ht Ha Hz Hnone. unfold put_l2_table.
  rewrite bind_unfold, (dec_page_refcnt_success _ _ _ f) by done.
  rewrite Hz. change (to_int 0) with 0. cbn [Z.eqb negb].
  rewrite bind_unfold, put_l2_entries_none_present; [done|].
  intros k Hk. apply Hnone. lia.
Qed.

End DirectoryRelease.

(** * Pinning a table that is referenced already *)

Section Pinning.
Context `{PlatformLaws}.

Lemma u32_small x : 0 ≤ x < 2 ^ 32 → u32 x = x.
Proof. intros Hx. unfold u32. by apply Z.mod_small. Qed.

Lemma u32_up_down x : 0 ≤ x < 2 ^ 32 → u32 (u32 (x + 1) - 1) = x.
Proof.
  intros Hx. unfold u32. rewrite Zminus_mod_idemp_l.
  replace (x + 1 - 1) with x by lia. by apply Z.mod_small.
Qed.

Lemma pin_bit_raised k :
  Z.land k REFCNT_PIN_BIT = 0 →
  Z.land (Z.lor k REFCNT_PIN_BIT) REFCNT_PIN_BIT = REFCNT_PIN_BIT
  ∧ Z.ldiff (Z.lor k REFCNT_PIN_BIT) REFCNT_PIN_BIT = k.
Proof.
  intros Hk. split.
  - by rewrite Z.land_lor_distr_l, Hk, Z.land_diag, Z.lor_0_l.
  - apply Z.bits_inj'. intros n Hn.
    rewrite Z.ldiff_spec, Z.lor_spec.
    assert (Z.testbit (Z.land k REFCNT_PIN_BIT) n = false) as Hb
      by by rewrite Hk, Z.bits_0.
    rewrite Z.land_spec in Hb.
    destruct (Z.testbit k n), (Z.testbit REFCNT_PIN_BIT n); done.
Qed.

Lemma get_l1_table_referenced s pfn f :
  frame s pfn = Some f → owner f = current_domain s →
  page_type f = PGT_l1_page_table → 0 < type_count f < 2 ^ 31 →
  get_l1_table pfn s
  = Ret 0 (with_frame pfn
             {| flags := flags f; tot_count := u32 (tot_count f + 1);
                type_count := u32 (type_count f + 1) |} s).
Proof.
  intros Hf Ho Ht Hc. unfold get_l1_table.
  rewrite bind_unfold, (inc_page_refcnt_success _ _ _ f) by auto.
  rewrite to_int_small by lia. unfold acquired. rewrite Ht, Z.eqb_refl.
  destruct (Z.eqb_spec (type_count f) 0); [lia|]. cbn [negb].
  by destruct (Z.ltb_spec (type_count f) 0); [lia|].
Qed.

Lemma get_l2_table_referenced s pfn f :
  frame s pfn = Some f → owner f = current_domain s →
  page_type f = PGT_l2_page_table → 0 < type_count f < 2 ^ 31 →
  get_l2_table pfn s
  = Ret 0 (with_frame pfn
             {| flags := flags f; tot_count := u32 (tot_count f + 1);
                type_count := u32 (type_count f + 1) |} s).
Proof.
  intros Hf Ho Ht Hc. unfold get_l2_table.
  rewrite bind_unfold, (inc_page_refcnt_success _ _ _ f) by auto.
  rewrite to_int_small by lia. unfold acquired. rewrite Ht, Z.eqb_refl.
  destruct (Z.eqb_spec (type_count f) 0); [lia|]. cbn [negb].
  by destruct (Z.ltb_spec (type_count f) 0); [lia|].
Qed.

(** Dropping a reference that is not the last one. *)
Lemma released_not_last f :
  0 ≤ type_count f - 1 < 2 ^ 32 → type_count f - 1 ≠ 0 →
  released f
  = {| flags := flags f; tot_count := u32 (tot_count f - 1);
       type_count := type_count f - 1 |}.
Proof.
  intros Hr Hn. unfold released. rewrite (u32_small (type_count f - 1)) by done.
  by destruct (Z.eqb_spec (type_count f - 1) 0).
Qed.

Lemma put_l1_table_referenced s pfn f :
  frame s pfn = Some f → owner f = current_domain s →
  page_type f = PGT_l1_page_table → 1 < type_count f ≤ 2 ^ 31 →
  put_l1_table pfn s = Ret tt (with_frame pfn (released f) s).
Proof.
  intros Hf Ho Ht Hc. unfold put_l1_table.
  rewrite bind_unfold, (dec_page_refcnt_success _ _ _ f) by (auto; lia).
  rewrite (u32_small (type_count f - 1)), to_int_small by lia.
  by destruct (Z.eqb_spec (type_count f - 1) 0); [lia|].
Qed.

Lemma put_l2_table_referenced s pfn f :
  frame s pfn = Some f → owner f = current_domain s →
  page_type f = PGT_l2_page_table → 1 < type_count f ≤ 2 ^ 31 →
  put_l2_table pfn s = Ret 0 (with_frame pfn (released f) s).
Proof.
  intros Hf Ho Ht Hc. unfold put_l2_table.
  rewrite bind_unfold, (dec_page_refcnt_success _ _ _ f) by (auto; lia).
  rewrite (u32_small (type_count f - 1)), to_int_small by lia.
  destruct (Z.eqb_spec (type_count f - 1) 0); [lia|]. cbn [negb].
  by destruct (Z.ltb_spec (type_count f - 1) 0); [lia|].
Qed.

(** What [mark_as_pinned] does after a successful [get_l?_table] that found
    the table referenced. *)
Lemma mark_as_pinned_run s pfn f :
  frame s pfn = Some f →
  0 < type_count f < 2 ^ 31 → 0 ≤ tot_count f < 2 ^ 32 →
  Z.land (type_count f) REFCNT_PIN_BIT = 0 →
  (put_page_type In_do_extended_command pfn;;
   put_page_tot In_do_extended_command pfn;;
   cnt ← page_type_count In_do_extended_command pfn;
   if Z.land cnt REFCNT_PIN_BIT =? 0 then
     assign In_do_extended_command pfn
       (λ f, set_type_count (Z.lor (type_count f) REFCNT_PIN_BIT) f);;
     assign In_do_extended_command pfn
       (λ f, set_tot_count (Z.lor (tot_count f) REFCNT_PIN_BIT) f);;
     mret 0
   else mret 1)
    (with_frame pfn
       {| flags := flags f; tot_count := u32 (tot_count f + 1);
          type_count := u32 (type_count f + 1) |} s)
  = Ret 0 (with_frame pfn (with_pin f) s).
Proof.
  intros Hf Hc Ht Hp. mrun. frame_simpl.
  rewrite !u32_up_down by lia. rewrite Hp. cbn [Z.eqb].
  rewrite bind_unfold. erewrite assign_run by eauto with frames.
  rewrite with_frame_twice, bind_unfold.
  erewrite assign_run by eauto with frames.
  rewrite with_frame_twice. frame_simpl. by rewrite ?u32_up_down by lia.
Qed.

(** A frame that is a table of the current domain, with typed references
    and no pin, is pinned by [PGEXT_PIN_L1_TABLE] or [PGEXT_PIN_L2_TABLE]
    (whichever its type is) without any walk, and [PGEXT_UNPIN_TABLE] right
    after gives back the machine state as it was before the pin. *)
Theorem pin_then_unpin_of_referenced_table (s : machine)
    (ptr pin unpin : Z) (f : pfn_info) :
  frame s (Z.shiftr ptr PAGE_SHIFT) = Some f →
  owner f = current_domain s →
  (Z.land pin PGEXT_CMD_MASK = PGEXT_PIN_L1_TABLE
   ∧ page_type f = PGT_l1_page_table
   ∨ Z.land pin PGEXT_CMD_MASK = PGEXT_PIN_L2_TABLE
     ∧ page_type f = PGT_l2_page_table) →
  Z.land unpin PGEXT_CMD_MASK = PGEXT_UNPIN_TABLE →
  0 < type_count f < 2 ^ 31 → Z.land (type_count f) REFCNT_PIN_BIT = 0 →
  0 ≤ tot_count f < 2 ^ 32 → Z.land (tot_count f) REFCNT_PIN_BIT = 0 →
  do_extended_command ptr pin s
  = Ret 0 (with_frame (Z.shiftr ptr PAGE_SHIFT) (with_pin f) s)
  ∧ do_extended_command ptr unpin
      (with_frame (Z.shiftr ptr PAGE_SHIFT) (with_pin f) s)
    = Ret 0 s.
Proof.
  intros Hf Ho Hpin Hunpin Hc Hcp Ht Htp.
  set (pfn := Z.shiftr ptr PAGE_SHIFT) in *.
  destruct (pin_bit_raised _ Hcp) as [Hc1 Hc2].
  destruct (pin_bit_raised _ Htp) as [Ht1 Ht2].
  split.
  - unfold do_extended_command. cbv zeta. fold pfn.
    destruct Hpin as [[-> Hty]|[-> Hty]].
    + rewrite Z.eqb_refl, bind_unfold, (get_l1_table_referenced _ _ f) by done.
      cbn [Z.eqb negb]. by apply mark_as_pinned_run.
    + destruct (Z.eqb_spec PGEXT_PIN_L2_TABLE PGEXT_PIN_L1_TABLE) as [E|_];
        [by destruct pin_codes_differ|].
      rewrite Z.eqb_refl, bind_unfold, (get_l2_table_referenced _ _ f) by done.
      cbn [Z.eqb negb]. by apply mark_as_pinned_run.
  - unfold do_extended_command. cbv zeta. fold pfn. rewrite Hunpin.
    destruct (Z.eqb_spec PGEXT_UNPIN_TABLE PGEXT_PIN_L1_TABLE) as [E|_];
      [by destruct unpin_not_pin_l1|].
    destruct (Z.eqb_spec PGEXT_UNPIN_TABLE PGEXT_PIN_L2_TABLE) as [E|_];
      [by destruct unpin_not_pin_l2|].
    rewrite Z.eqb_refl. mrun. frame_simpl.
    fold (owner f). rewrite Ho, Z.eqb_refl. cbn [negb]. mrun.
    frame_simpl. rewrite Hc1.
    destruct (Z.eqb_spec REFCNT_PIN_BIT 0) as [E|_];
      [by destruct pin_bit_nonzero|].
    cbn [negb]. rewrite bind_unfold.
    erewrite assign_run by eauto with frames. rewrite with_frame_twice.
    rewrite bind_unfold. erewrite assign_run by eauto with frames.
    rewrite with_frame_twice. mrun. frame_simpl.
    rewrite Hc2, Ht2. fold (page_type f).
    set (g := {| flags := flags f; tot_count := u32 (tot_count f + 1);
                 type_count := u32 (type_count f + 1) |}).
    assert (frame (with_frame pfn g s) pfn = Some g) as Hg
      by eauto with frames.
    assert (type_count g = type_count f + 1) as Hgc
      by (cbn; apply u32_small; lia).
    assert (with_frame pfn (released g) (with_frame pfn g s) = s) as Hback.
    { rewrite with_frame_twice, released_not_last by (rewrite Hgc; lia).
      rewrite Hgc. cbn [flags tot_count g]. rewrite u32_up_down by done.
      replace (type_count f + 1 - 1) with (type_count f) by lia.
      apply with_frame_same. by destruct f. }
    destruct Hpin as [[_ Hty]|[_ Hty]]; rewrite Hty.
    + rewrite Z.eqb_refl.
      rewrite (put_l1_table_referenced _ _ g); [|done|done|done|lia].
      by rewrite Hback.
    + destruct (Z.eqb_spec PGT_l2_page_table PGT_l1_page_table) as [E|_];
        [by destruct tables_differ|].
      rewrite !bind_unfold.
      rewrite (put_l2_table_referenced _ _ g); [|done|done|done|lia].
      by rewrite Hback.
Qed.

End Pinning.

(** * Taking and dropping the references of an L1 table *)

Section Counting.

Lemma refs_to_nonneg x R : 0 ≤ refs_to x R.
Proof. induction R as [|r R IH]; cbn; [lia|]. destruct (r.1 =? x); lia. Qed.

Lemma rw_refs_to_nonneg x R : 0 ≤ rw_refs_to x R.
Proof.
  induction R as [|r R IH]; cbn; [lia|].
  destruct ((r.1 =? x) && negb (r.2 =? 0)); lia.
Qed.

Lemma rw_refs_le_refs x R : rw_refs_to x R ≤ refs_to x R.
Proof.
  induction R as [|r R IH]; cbn; [lia|].
  destruct (r.1 =? x), (r.2 =? 0); cbn; lia.
Qed.

Lemma refs_to_le_length x R : refs_to x R ≤ Z.of_nat (length R).
Proof.
  induction R as [|r R IH]; cbn [refs_to length]; [lia|].
  destruct (r.1 =? x); lia.
Qed.

Lemma refs_to_app x R1 R2 : refs_to x (R1 ++ R2) = refs_to x R1 + refs_to x R2.
Proof. induction R1 as [|r R1 IH]; cbn; [done|]. rewrite IH. lia. Qed.

Lemma rw_refs_to_app x R1 R2 :
  rw_refs_to x (R1 ++ R2) = rw_refs_to x R1 + rw_refs_to x R2.
Proof. induction R1 as [|r R1 IH]; cbn; [done|]. rewrite IH. lia. Qed.

Lemma refs_to_rev x R : refs_to x (rev R) = refs_to x R.
Proof.
  induction R as [|r R IH]; [done|]. cbn [rev].
  rewrite refs_to_app, IH. cbn. lia.
Qed.

Lemma rw_refs_to_rev x R : rw_refs_to x (rev R) = rw_refs_to x R.
Proof.
  induction R as [|r R IH]; [done|]. cbn [rev].
  rewrite rw_refs_to_app, IH. cbn. lia.
Qed.

Lemma refs_to_positive x R : 0 < refs_to x R → ∃ w, (x, w) ∈ R.
Proof.
  induction R as [|[y w] R IH]; cbn; [lia|].
  destruct (Z.eqb_spec y x) as [->|Hne].
  - intros _. exists w. by left.
  - intros Hp. destruct IH as [w' Hin]; [lia|]. exists w'. by right.
Qed.

Lemma rw_refs_to_positive x R :
  0 < rw_refs_to x R → ∃ w, w ≠ 0 ∧ (x, w) ∈ R.
Proof.
  induction R as [|[y w] R IH]; cbn; [lia|].
  destruct (Z.eqb_spec y x) as [->|Hne], (Z.eqb_spec w 0) as [Hw|Hw]; cbn.
  - intros Hp. destruct IH as (w' & ? & Hin); [lia|]. exists w'.
    split; [done|by right].
  - intros _. exists w. split; [done|by left].
  - intros Hp. destruct IH as (w' & ? & Hin); [lia|]. exists w'.
    split; [done|by right].
  - intros Hp. destruct IH as (w' & ? & Hin); [lia|]. exists w'.
    split; [done|by right].
Qed.

Lemma present_refs_length m n p :
  (length (present_refs m n p) ≤ n)%nat.
Proof.
  revert p. induction n as [|n IH]; intros p; cbn; [lia|].
  destruct (Z.land (m p) _PAGE_PRESENT =? 0); cbn; specialize (IH (p + sizeof_pgentry)); lia.
Qed.

End Counting.

Section Roundtrip.
Context `{PlatformLaws}.

Lemma owner_with_tag fl tag :
  Z.land tag PG_type_mask = tag →
  Z.land (Z.lor fl tag) PG_domain_mask = Z.land fl PG_domain_mask.
Proof.
  intros Ht. by rewrite Z.land_lor_distr_l, (tag_outside_owner_field _ Ht),
    Z.lor_0_r.
Qed.

Lemma owner_without_type fl :
  Z.land (Z.ldiff fl PG_type_mask) PG_domain_mask = Z.land fl PG_domain_mask.
Proof.
  apply Z.bits_inj'. intros n Hn.
  rewrite !Z.land_spec, Z.ldiff_spec.
  pose proof (f_equal (λ z, Z.testbit z n) fields_disjoint) as Hd.
  cbn beta in Hd. rewrite Z.land_spec, Z.bits_0 in Hd.
  destruct (Z.testbit fl n), (Z.testbit PG_type_mask n),
    (Z.testbit PG_domain_mask n); done.
Qed.

(** OR-ing a tag into a flags word that has it changes nothing. *)
Lemma lor_tag_present fl tag :
  Z.land tag PG_type_mask = tag → Z.land fl PG_type_mask = tag →
  Z.lor fl tag = fl.
Proof.
  intros Ht Hfl. apply Z.bits_inj'. intros n Hn. rewrite Z.lor_spec.
  pose proof (f_equal (λ z, Z.testbit z n) Hfl) as Hb. cbn beta in Hb.
  rewrite Z.land_spec in Hb.
  destruct (Z.testbit fl n), (Z.testbit tag n), (Z.testbit PG_type_mask n);
    done.
Qed.

(** Clearing the type of an untyped word that got a tag gives the word
    back. *)
Lemma clear_tag_of_untyped fl tag :
  Z.land tag PG_type_mask = tag → Z.land fl PG_type_mask = 0 →
  Z.ldiff (Z.lor fl tag) PG_type_mask = fl.
Proof.
  intros Ht Hfl. apply Z.bits_inj'. intros n Hn.
  rewrite Z.ldiff_spec, Z.lor_spec.
  pose proof (f_equal (λ z, Z.testbit z n) Hfl) as Hb. cbn beta in Hb.
  pose proof (f_equal (λ z, Z.testbit z n) Ht) as Hc. cbn beta in Hc.
  rewrite Z.land_spec in Hb, Hc. rewrite Z.bits_0 in Hb.
  destruct (Z.testbit fl n), (Z.testbit tag n), (Z.testbit PG_type_mask n);
    done.
Qed.

Lemma type_with_tag fl tag :
  Z.land tag PG_type_mask = tag →
  Z.land fl PG_type_mask = 0 ∨ Z.land fl PG_type_mask = tag →
  Z.land (Z.lor fl tag) PG_type_mask = tag.
Proof.
  intros Ht [Hfl|Hfl]; rewrite Z.land_lor_distr_l, Hfl, Ht.
  - apply Z.lor_0_l.
  - apply Z.lor_diag.
Qed.

(** What a [get_page] that returns 0 has done. *)
Lemma get_page_success_frame s x w s' :
  get_page x w s = Ret 0 s' → is_Some (frame s x).
Proof.
  unfold get_page. rewrite bind_unfold, gets_run.
  destruct (Z.leb_spec (max_page s) x); [done|].
  destruct (frame s x) as [f|] eqn:Hf; [by eauto|].
  by rewrite bind_unfold, page_flags_wild.
Qed.

Lemma get_page_success s x w s' f :
  frame s x = Some f → get_page x w s = Ret 0 s' →
  owner f = current_domain s
  ∧ s' = with_frame x (got w f) s
  ∧ (w ≠ 0 → page_type f = PGT_writeable_page ∨ type_count f = 0).
Proof.
  intros Hf. pose proof (frame_Some_range _ _ _ Hf).
  unfold get_page. rewrite bind_unfold, gets_run.
  destruct (Z.leb_spec (max_page s) x); [lia|].
  mrun. fold (owner f) (page_type f). unfold got.
  destruct (Z.eqb_spec (owner f) (current_domain s)) as [Ho|Ho];
    cbn [negb]; [|done].
  destruct (Z.eqb_spec w 0) as [Hw|Hw]; cbn [negb].
  { mrun. by intros [= <-]. }
  destruct (Z.eqb_spec (page_type f) PGT_writeable_page) as [Ht|Ht];
    cbn [negb].
  { mrun. intros [= <-]. frame_simpl. by eauto. }
  mrun. destruct (Z.eqb_spec (type_count f) 0) as [Hc|Hc]; cbn [negb];
    [|done].
  mrun. intros [= <-]. frame_simpl. by eauto.
Qed.

Lemma mapped_elsewhere x w R y f0 :
  x ≠ y → mapped ((x, w) :: R) y f0 = mapped R y f0.
Proof.
  intros Hne. unfold mapped. cbn [refs_to rw_refs_to fst snd].
  destruct (Z.eqb_spec x y); [done|]. cbn [andb]. by rewrite !Z.add_0_l.
Qed.

Lemma mapped_nil x f0 : mapped [] x f0 = f0.
Proof. unfold mapped. cbn. rewrite !Z.add_0_r. by destruct f0. Qed.

(** A frame to which a writeable reference was granted is untyped or
    writeable in the base table. *)
Lemma base_type_of_rw_ref d R b B x w f0 :
  admissible d R b → settled B b → (x, w) ∈ R → w ≠ 0 →
  frame b x = Some f0 →
  (type_count f0 = 0 ∧ page_type f0 = 0)
  ∨ (type_count f0 ≠ 0 ∧ page_type f0 = PGT_writeable_page).
Proof.
  intros Ha Hs Hin Hw Hf0.
  destruct (Ha x w Hin) as (f1 & Hf1 & _ & Hrw).
  assert (f1 = f0) as -> by congruence.
  destruct (Hs x f0 Hf0) as (_ & _ & _ & _ & Hnone).
  destruct (Z.eq_dec (type_count f0) 0); [left|right]; auto.
Qed.

Lemma represents_elsewhere R b s x w g :
  0 ≤ x → represents R b s →
  ∀ y, y ≠ x → frame (with_frame x g s) y = mapped ((x, w) :: R) y <$> frame b y.
Proof.
  intros Hx Hr y Hne. rewrite frame_with_frame_ne by done. rewrite (Hr y).
  destruct (frame b y) as [f0|]; [|done]. cbn.
  by rewrite mapped_elsewhere.
Qed.

Lemma represents_elsewhere_drop R b s x w g :
  0 ≤ x → represents ((x, w) :: R) b s →
  ∀ y, y ≠ x → frame (with_frame x g s) y = mapped R y <$> frame b y.
Proof.
  intros Hx Hr y Hne. rewrite frame_with_frame_ne by done. rewrite (Hr y).
  destruct (frame b y) as [f0|]; [|done]. cbn.
  by rewrite mapped_elsewhere.
Qed.

Lemma u32_plus_one a n B :
  0 ≤ a → 0 ≤ n < B → a + B < 2 ^ 32 → u32 (a + n + 1) = a + (1 + n).
Proof. intros. unfold u32. rewrite Z.mod_small; lia. Qed.

Lemma u32_minus_one a n B :
  0 ≤ a → 0 ≤ n < B → a + B < 2 ^ 32 → u32 (a + (1 + n) - 1) = a + n.
Proof. intros. unfold u32. rewrite Z.mod_small; lia. Qed.

(** One more reference, taken by [get_page]. *)
Lemma represents_get d R b B s x w s' :
  represents R b s → admissible d R b → settled B b →
  Z.of_nat (length R) < B → current_domain s = d →
  get_page x w s = Ret 0 s' →
  represents ((x, w) :: R) b s' ∧ admissible d ((x, w) :: R) b
  ∧ current_domain s' = d ∧ phys_mem s' = phys_mem s
  ∧ tlb_flush s' = tlb_flush s.
Proof.
  intros Hr Ha Hs HB Hd Hget.
  destruct (get_page_success_frame _ _ _ _ Hget) as [f Hf].
  pose proof (frame_Some_range _ _ _ Hf) as Hx.
  pose proof (Hr x) as Hrx. rewrite Hf in Hrx.
  destruct (frame b x) as [f0|] eqn:Hf0; [|done].
  cbn in Hrx. injection Hrx as Hfm.
  destruct (get_page_success _ _ _ _ _ Hf Hget) as (Ho & -> & Hrw).
  destruct (Hs x f0 Hf0) as (Ht0 & Hc0 & Htb & Hcb & Hnone).
  pose proof (refs_to_nonneg x R) as Hn1.
  pose proof (rw_refs_to_nonneg x R) as Hn2.
  pose proof (rw_refs_le_refs x R) as Hn3.
  pose proof (refs_to_le_length x R) as Hn4.
  assert (owner f = owner f0) as Hof.
  { rewrite Hfm. unfold owner, mapped. cbn [flags].
    destruct (rw_refs_to x R =? 0); [done|].
    apply owner_with_tag, writeable_is_tag. }
  assert (w ≠ 0 → type_count f0 ≠ 0 → page_type f0 = PGT_writeable_page)
    as Hbase.
  { intros Hw Hc. destruct (Z.eq_dec (rw_refs_to x R) 0) as [Hz|Hz].
    - destruct (Hrw Hw) as [Ht|Ht].
      + rewrite Hfm in Ht. unfold page_type, mapped in Ht. cbn [flags] in Ht.
        by rewrite Hz in Ht.
      + rewrite Hfm in Ht. unfold mapped in Ht. cbn [type_count] in Ht. lia.
    - destruct (rw_refs_to_positive x R) as (w' & Hw' & Hin); [lia|].
      destruct (base_type_of_rw_ref d R b B x w' f0) as [[? _]|[_ ?]]; done. }
  split; [|split; [|done]].
  - intros y. destruct (Z.eq_dec y x) as [->|Hne];
      [|apply represents_elsewhere; [lia|done|done]].
    rewrite (frame_with_frame_eq _ _ f) by done. rewrite Hf0. cbn. f_equal.
    rewrite Hfm. unfold got, mapped, page_type.
    cbn [refs_to rw_refs_to fst snd flags tot_count type_count].
    rewrite Z.eqb_refl. cbn [andb].
    destruct (Z.eqb_spec w 0) as [Hw|Hw]; cbn [negb].
    + unfold set_tot_count. cbn [flags tot_count type_count].
      rewrite Z.add_0_l. f_equal. apply (u32_plus_one _ _ B); lia.
    + assert ((1 + rw_refs_to x R =? 0) = false) as -> by lia.
      rewrite (u32_plus_one _ _ B), (u32_plus_one _ _ B) by lia.
      f_equal.
      destruct (Z.eqb_spec (rw_refs_to x R) 0) as [Hz|Hz].
      * destruct (Z.eqb_spec (Z.land (flags f0) PG_type_mask)
                    PGT_writeable_page) as [Ht|Ht]; [|done].
        symmetry. apply lor_tag_present; [apply writeable_is_tag|done].
      * destruct (rw_refs_to_positive x R) as (w' & Hw' & Hin); [lia|].
        rewrite type_with_tag, Z.eqb_refl; [done|apply writeable_is_tag|].
        destruct (base_type_of_rw_ref d R b B x w' f0) as [[_ ?]|[_ ?]];
          auto.
  - intros y w' Hin. apply elem_of_cons in Hin as [[= -> ->]|Hin];
      [|by apply Ha].
    exists f0. split; [done|]. split; [congruence|done].
Qed.

(** One reference less, dropped by [put_page]. *)
Lemma represents_put d (R : list ref) b B s x w :
  represents ((x, w) :: R) b s → admissible d ((x, w) :: R) b →
  settled B b → Z.of_nat (length R) < B → current_domain s = d →
  ∃ s', put_page x w s = Ret tt s'
        ∧ represents R b s' ∧ current_domain s' = d
        ∧ phys_mem s' = phys_mem s.
Proof.
  intros Hr Ha Hs HB Hd.
  destruct (Ha x w ltac:(by left)) as (f0 & Hf0 & Ho0 & Hrw0).
  pose proof (frame_Some_range _ _ _ Hf0) as Hx.
  pose proof (Hr x) as Hf. rewrite Hf0 in Hf. cbn in Hf.
  destruct (Hs x f0 Hf0) as (Ht0 & Hc0 & Htb & Hcb & Hnone).
  pose proof (refs_to_nonneg x R) as Hn1.
  pose proof (rw_refs_to_nonneg x R) as Hn2.
  pose proof (rw_refs_le_refs x R) as Hn3.
  pose proof (refs_to_le_length x R) as Hn4.
  set (f := mapped ((x, w) :: R) x f0) in *.
  assert (owner f = d) as Ho.
  { rewrite <- Ho0. unfold f, owner, mapped. cbn [flags].
    destruct (rw_refs_to x ((x, w) :: R) =? 0); [done|].
    apply owner_with_tag, writeable_is_tag. }
  assert (refs_to x ((x, w) :: R) = 1 + refs_to x R) as Hcnt.
  { cbn [refs_to fst]. by rewrite Z.eqb_refl. }
  destruct (Z.eq_dec w 0) as [->|Hw].
  - assert (rw_refs_to x ((x, 0) :: R) = rw_refs_to x R) as Hrwc.
    { cbn [rw_refs_to fst snd]. rewrite Z.eqb_refl. cbn. lia. }
    eexists. split; [apply (put_page_read_only _ _ f); congruence|].
    split; [|done].
    intros y. destruct (Z.eq_dec y x) as [->|Hne];
      [|eapply represents_elsewhere_drop; [lia|done|done]].
    rewrite (frame_with_frame_eq _ _ f) by done. rewrite Hf0. cbn. f_equal.
    unfold set_tot_count. unfold f, mapped.
    rewrite Hrwc, Hcnt. cbn [flags tot_count type_count]. f_equal.
    rewrite ?Z.eqb_refl. apply (u32_minus_one _ _ B); lia.
  - assert (rw_refs_to x ((x, w) :: R) = 1 + rw_refs_to x R) as Hrwc.
    { cbn [rw_refs_to fst snd]. rewrite Z.eqb_refl.
      by destruct (Z.eqb_spec w 0). }
    assert (page_type f0 = 0 ∨ page_type f0 = PGT_writeable_page) as Hty.
    { destruct (base_type_of_rw_ref d ((x, w) :: R) b B x w f0)
        as [[_ ?]|[_ ?]]; auto. by left. }
    assert (flags f = Z.lor (flags f0) PGT_writeable_page) as Hfl.
    { unfold f, mapped. cbn [flags]. rewrite Hrwc.
      by destruct (Z.eqb_spec (1 + rw_refs_to x R) 0); [lia|]. }
    assert (type_count f = type_count f0 + (1 + rw_refs_to x R)) as Hfc.
    { unfold f, mapped. cbn [type_count]. by rewrite Hrwc. }
    assert (tot_count f = tot_count f0 + (1 + refs_to x R)) as Hft.
    { unfold f, mapped. cbn [tot_count]. by rewrite Hcnt. }
    assert (released f = mapped R x f0) as Hrel.
    { unfold released. rewrite Hfl, Hfc, Hft.
      rewrite (u32_minus_one _ _ B), (u32_minus_one _ _ B) by lia.
      unfold mapped. f_equal.
      destruct (Z.eqb_spec (type_count f0 + rw_refs_to x R) 0) as [Hz|Hz].
      - assert (rw_refs_to x R = 0) as -> by lia. cbn [Z.eqb].
        apply clear_tag_of_untyped; [apply writeable_is_tag|].
        apply Hnone. lia.
      - destruct (Z.eqb_spec (rw_refs_to x R) 0) as [Hr0|Hr0]; [|done].
        apply lor_tag_present; [apply writeable_is_tag|].
        apply Hrw0; [done|lia]. }
    assert (page_type f = PGT_writeable_page) as Hpt.
    { unfold page_type. rewrite Hfl.
      by apply type_with_tag; [apply writeable_is_tag|]. }
    rewrite (put_page_writeable _ _ _ f); [|done|done|]; cycle 1.
    { intros _. split; [congruence|]. split; [lia|done]. }
    rewrite Hrel.
    assert (represents R b (with_frame x (mapped R x f0) s)) as Hrep.
    { intros y. destruct (Z.eq_dec y x) as [->|Hne];
        [|eapply represents_elsewhere_drop; [lia|done|done]].
      rewrite (frame_with_frame_eq _ _ f) by done. by rewrite Hf0. }
    destruct (u32 (type_count f - 1) =? 0); by eexists.
Qed.

(** The walk of [get_l1_table], when it succeeds, takes the references of
    the present entries. *)
Lemma represents_get_walk d b B m n :
  ∀ p (R : list ref) s ret s',
    represents R b s → admissible d R b → settled B b →
    Z.of_nat (length R) + Z.of_nat n < B →
    current_domain s = d → phys_mem s = m →
    get_l1_entries n p ret s = Ret 0 s' →
    represents (rev (present_refs m n p) ++ R) b s'
    ∧ admissible d (rev (present_refs m n p) ++ R) b
    ∧ current_domain s' = d ∧ phys_mem s' = m.
Proof.
  induction n as [|n IH]; intros p R s ret s' Hr Ha Hs HB Hd Hm.
  { cbn. by intros [= _ <-]. }
  cbn [get_l1_entries present_refs]. rewrite bind_unfold.
  unfold read_phys at 1. rewrite gets_run, Hm.
  destruct (Z.land (m p) _PAGE_PRESENT =? 0).
  { intros Hw. eapply IH; eauto. lia. }
  destruct (Z.land (m p) (Z.lor _PAGE_GLOBAL _PAGE_PAT) =? 0); cbn [negb];
    [|done].
  rewrite bind_unfold. unfold l1_pgentry_to_pagenr.
  destruct (get_page _ _ s) as [r s1|w s1] eqn:Hget; [|done].
  destruct (Z.eqb_spec r 0) as [->|Hr0]; cbn [negb];
    [|by rewrite mret_run; intros [= ? _]].
  destruct (represents_get d R b B s _ _ s1 Hr Ha Hs ltac:(lia) Hd Hget)
    as (Hr1 & Ha1 & Hd1 & Hm1 & _).
  intros Hw. cbn [rev]. rewrite <- app_assoc. cbn [app].
  eapply IH; eauto; [cbn [length]; lia|congruence].
Qed.

(** The walk of [put_l1_table] drops them. *)
Lemma represents_put_walk d b B m n :
  ∀ p s,
    represents (present_refs m n p) b s →
    admissible d (present_refs m n p) b → settled B b →
    Z.of_nat n < B → current_domain s = d → phys_mem s = m →
    ∃ s', put_l1_entries n p s = Ret tt s'
          ∧ represents [] b s' ∧ current_domain s' = d ∧ phys_mem s' = m.
Proof.
  induction n as [|n IH]; intros p s Hr Ha Hs HB Hd Hm.
  { exists s. by cbn. }
  cbn [put_l1_entries]. cbn [present_refs] in Hr, Ha.
  rewrite bind_unfold. unfold read_phys at 1. rewrite gets_run, Hm.
  destruct (Z.land (m p) _PAGE_PRESENT =? 0); cbn [negb].
  { rewrite bind_unfold, mret_run. apply IH; auto. lia. }
  pose proof (present_refs_length m n (p + sizeof_pgentry)) as Hlen.
  destruct (represents_put d _ b B s _ _ Hr Ha Hs ltac:(lia) Hd)
    as (s1 & Hput & Hr1 & Hd1 & Hm1).
  rewrite bind_unfold. unfold l1_pgentry_to_pagenr. rewrite Hput.
  apply IH; auto; [|lia|congruence].
  intros x w Hin. apply Ha. by right.
Qed.

Lemma represents_nil b s : represents [] b s → frame_table s = frame_table b.
Proof.
  intros Hr. apply list_eq. intros i. specialize (Hr (Z.of_nat i)).
  unfold frame in Hr. destruct (Z.ltb_spec (Z.of_nat i) 0); [lia|].
  rewrite Nat2Z.id in Hr. rewrite Hr.
  destruct (frame_table b !! i); [|done]. cbn. by rewrite mapped_nil.
Qed.

Lemma represents_rev R b s : represents (rev R) b s → represents R b s.
Proof.
  intros Hr x. rewrite (Hr x). destruct (frame b x); [|done]. cbn.
  unfold mapped. by rewrite refs_to_rev, rw_refs_to_rev.
Qed.

Lemma admissible_rev d R b : admissible d (rev R) b → admissible d R b.
Proof.
  intros Ha x w Hin. apply Ha. apply list_elem_of_In.
  rewrite <- in_rev. by apply list_elem_of_In.
Qed.

(** The ways [inc_page_refcnt] returns. *)
Lemma inc_page_refcnt_cases s page_nr type r s' :
  inc_page_refcnt page_nr type s = Ret r s' →
  (r = -1 ∧ s' = s)
  ∨ ∃ f, frame s page_nr = Some f ∧ owner f = current_domain s
         ∧ (page_type f = type ∨ type_count f = 0)
         ∧ r = to_int (type_count f)
         ∧ s' = with_frame page_nr (acquired type f) s.
Proof.
  intros Hrun.
  destruct (Z.le_gt_cases (max_page s) page_nr) as [Hr|Hr].
  { rewrite inc_page_refcnt_out_of_range in Hrun by done.
    left. by injection Hrun as <- <-. }
  destruct (frame s page_nr) as [f|] eqn:Hf; cycle 1.
  { unfold inc_page_refcnt in Hrun. rewrite bind_unfold, gets_run in Hrun.
    destruct (Z.leb_spec (max_page s) page_nr); [lia|].
    by rewrite bind_unfold, page_flags_wild in Hrun. }
  destruct (Z.eq_dec (owner f) (current_domain s)) as [Ho|Ho]; cycle 1.
  { rewrite (inc_page_refcnt_wrong_domain _ _ _ f) in Hrun by done.
    left. by injection Hrun as <- <-. }
  destruct (Z.eq_dec (page_type f) type) as [Ht|Ht].
  { rewrite (inc_page_refcnt_success _ _ _ f) in Hrun by auto.
    right. exists f. injection Hrun as <- <-. by auto 10. }
  destruct (Z.eq_dec (type_count f) 0) as [Hc|Hc].
  { rewrite (inc_page_refcnt_success _ _ _ f) in Hrun by auto.
    right. exists f. injection Hrun as <- <-. by auto 10. }
  rewrite (inc_page_refcnt_type_conflict _ _ _ f) in Hrun by done.
  left. by injection Hrun as <- <-.
Qed.

Lemma to_int_range x : 0 ≤ x < 2 ^ 32 → 0 ≤ to_int x → to_int x = x.
Proof.
  intros Hx. unfold to_int, u32. rewrite Z.mod_small by lia.
  destruct (Z.ltb_spec x (2 ^ 31)); lia.
Qed.

Lemma flags_acquired_untyped tag f :
  Z.land tag PG_type_mask = tag → page_type f = 0 →
  owner (acquired tag f) = owner f
  ∧ page_type (acquired tag f) = tag
  ∧ Z.ldiff (flags (acquired tag f)) PG_type_mask = flags f.
Proof.
  intros Htag Hf. unfold acquired, owner, page_type in *. cbn [flags].
  rewrite Hf. destruct (Z.eqb_spec 0 tag) as [<-|Hne].
  - split; [done|]. split; [done|].
    rewrite <- (Z.lor_0_r (flags f)) at 1.
    by apply clear_tag_of_untyped.
  - split; [by apply owner_with_tag|].
    split; [apply type_with_tag; auto|by apply clear_tag_of_untyped].
Qed.

Lemma flags_acquired_typed tag f :
  page_type f = tag → flags (acquired tag f) = flags f.
Proof. intros Hf. unfold acquired. cbn [flags]. by rewrite Hf, Z.eqb_refl. Qed.

(** A table that had typed references before [get_l1_table]:
    [put_l1_table] undoes the increment. *)
Lemma put_after_get_referenced s page_nr f :
  frame s page_nr = Some f → owner f = current_domain s →
  page_type f = PGT_l1_page_table →
  0 < type_count f → type_count f + 2 < 2 ^ 32 →
  0 ≤ tot_count f → tot_count f + 2 < 2 ^ 32 →
  to_int (type_count f) ≠ 0 →
  put_l1_table page_nr (with_frame page_nr (acquired PGT_l1_page_table f) s)
  = Ret tt s.
Proof.
  intros Hf Ho Ht Hc Hcb Htt Htb Hr.
  set (g := acquired PGT_l1_page_table f).
  assert (flags g = flags f) as Hfl by by apply flags_acquired_typed.
  assert (type_count g = type_count f + 1) as Hgc
    by (cbn; apply u32_small; lia).
  assert (tot_count g = tot_count f + 1) as Hgt
    by (cbn; apply u32_small; lia).
  unfold put_l1_table.
  rewrite bind_unfold, (dec_page_refcnt_success _ _ _ g); cycle 1.
  - eauto with frames.
  - unfold owner. by rewrite Hfl.
  - unfold page_type. by rewrite Hfl.
  - intros _. lia.
  - rewrite Hgc. replace (type_count f + 1 - 1) with (type_count f) by lia.
    rewrite (u32_small (type_count f)) by lia.
    destruct (Z.eqb_spec (to_int (type_count f)) 0); [done|]. cbn [negb].
    rewrite mret_run, with_frame_twice. f_equal.
    apply with_frame_same. rewrite Hf. f_equal.
    unfold released. rewrite Hgc, Hgt, Hfl.
    replace (type_count f + 1 - 1) with (type_count f) by lia.
    replace (tot_count f + 1 - 1) with (tot_count f) by lia.
    rewrite !u32_small by lia.
    destruct (Z.eqb_spec (type_count f) 0); [lia|]. by destruct f.
Qed.

Lemma settled_weaken B B' b : B' ≤ B → settled B b → settled B' b.
Proof.
  intros HB Hs x f0 Hf0. destruct (Hs x f0 Hf0) as (?&?&?&?&?).
  repeat split; auto; lia.
Qed.

(** A table without typed reference before [get_l1_table], whose walk went
    through: [put_l1_table] gives the frame table back. *)
Lemma put_after_get_fresh s page_nr f s1 :
  frame s page_nr = Some f → owner f = current_domain s →
  type_count f = 0 →
  settled (Z.of_nat (Z.to_nat ENTRIES_PER_L1_PAGETABLE) + 2) s →
  get_l1_entries (Z.to_nat ENTRIES_PER_L1_PAGETABLE)
    (map_domain_mem (page_address page_nr)) 0
    (with_frame page_nr (acquired PGT_l1_page_table f) s) = Ret 0 s1 →
  ∃ g1 s2,
    frame s1 page_nr = Some g1 ∧ owner g1 = current_domain s1
    ∧ page_type g1 = PGT_l1_page_table ∧ type_count g1 = 1
    ∧ tot_count f + 1 ≤ tot_count g1
      ≤ tot_count f + 1 + Z.of_nat (Z.to_nat ENTRIES_PER_L1_PAGETABLE)
    ∧ current_domain s1 = current_domain s
    ∧ put_l1_table page_nr s1 = Ret tt s2
    ∧ frame_table s2 = frame_table s ∧ phys_mem s2 = phys_mem s.
Proof.
  set (N := Z.to_nat ENTRIES_PER_L1_PAGETABLE).
  set (d := current_domain s). set (m := phys_mem s).
  intros Hf Ho Hc Hs Hwalk.
  pose proof (frame_Some_range _ _ _ Hf) as Hp.
  destruct (Hs page_nr f Hf) as (Ht0 & _ & Htb & _ & Hnone).
  specialize (Hnone Hc).
  destruct (flags_acquired_untyped PGT_l1_page_table f l1_is_tag Hnone)
    as (Hao & Hat & Hacl).
  set (g0 := acquired PGT_l1_page_table f) in *.
  set (b := with_frame page_nr g0 s) in *.
  assert (frame b page_nr = Some g0) as Hg0 by (unfold b; eauto with frames).
  assert (tot_count g0 = tot_count f + 1) as Hg0t
    by (cbn; apply u32_small; lia).
  assert (type_count g0 = 1) as Hg0c by (cbn; by rewrite Hc).
  assert (settled (Z.of_nat N + 1) b) as Hsb.
  { intros x f0 Hf0. destruct (Z.eq_dec x page_nr) as [->|Hne].
    - assert (f0 = g0) as -> by congruence. rewrite Hg0t, Hg0c.
      repeat split; lia.
    - unfold b in Hf0. rewrite frame_with_frame_ne in Hf0 by lia.
      by apply (settled_weaken (Z.of_nat N + 2) (Z.of_nat N + 1) s
                  ltac:(lia) Hs x f0). }
  assert (represents [] b b) as Hr0.
  { intros x. destruct (frame b x); [|done]. cbn. by rewrite mapped_nil. }
  assert (admissible d [] b) as Ha0.
  { intros x w Hin. by apply elem_of_nil in Hin. }
  destruct (represents_get_walk d b (Z.of_nat N + 1) m N
              (map_domain_mem (page_address page_nr)) [] b 0 s1
              Hr0 Ha0 Hsb ltac:(cbn; lia) eq_refl eq_refl Hwalk)
    as (Hr1 & Ha1 & Hd1 & Hm1).
  rewrite app_nil_r in Hr1, Ha1.
  set (R := rev (present_refs m N (map_domain_mem (page_address page_nr))))
    in *.
  assert (rw_refs_to page_nr R = 0) as Hrw.
  { pose proof (rw_refs_to_nonneg page_nr R).
    destruct (Z.eq_dec (rw_refs_to page_nr R) 0) as [|Hpos]; [done|].
    destruct (rw_refs_to_positive page_nr R) as (w & Hw & Hin); [lia|].
    destruct (Ha1 _ _ Hin) as (f1 & Hf1 & _ & Hty).
    assert (f1 = g0) as -> by congruence.
    destruct writeable_not_l1. rewrite <- Hat. symmetry. apply Hty; [done|].
    lia. }
  pose proof (refs_to_nonneg page_nr R) as Hn1.
  assert (refs_to page_nr R ≤ Z.of_nat N) as Hn2.
  { etrans; [apply refs_to_le_length|]. unfold R. rewrite length_rev.
    pose proof (present_refs_length m N
                  (map_domain_mem (page_address page_nr))). lia. }
  set (g1 := mapped R page_nr g0).
  assert (frame s1 page_nr = Some g1) as Hg1.
  { rewrite (Hr1 page_nr), Hg0. done. }
  assert (flags g1 = flags g0) as Hg1f.
  { unfold g1, mapped. cbn [flags]. by rewrite Hrw. }
  assert (type_count g1 = 1) as Hg1c.
  { unfold g1, mapped. cbn [type_count]. rewrite Hrw, Hg0c. lia. }
  assert (tot_count g1 = tot_count f + 1 + refs_to page_nr R) as Hg1t.
  { unfold g1, mapped. cbn [tot_count]. by rewrite Hg0t. }
  assert (owner g1 = d) as Hg1o.
  { unfold owner. rewrite Hg1f. fold (owner g0). by rewrite Hao. }
  assert (page_type g1 = PGT_l1_page_table) as Hg1y.
  { unfold page_type. rewrite Hg1f. done. }
  (* the release of the table itself *)
  set (f1 := {| flags := flags f; tot_count := tot_count f + refs_to page_nr R;
                type_count := 0 |}).
  assert (released g1 = f1) as Hrel.
  { unfold released. rewrite Hg1c, Hg1t, Hg1f. cbn [Z.sub Z.add Z.opp].
    change (u32 (1 - 1)) with 0. cbn [Z.eqb]. unfold f1. f_equal; [done|].
    replace (tot_count f + 1 + refs_to page_nr R - 1)
      with (tot_count f + refs_to page_nr R) by lia.
    apply u32_small. lia. }
  set (s1' := with_frame page_nr f1 s1).
  assert (represents R s s1') as Hr2.
  { intros x. destruct (Z.eq_dec x page_nr) as [->|Hne].
    - unfold s1'. rewrite (frame_with_frame_eq _ _ g1), Hf by done. cbn.
      f_equal. unfold f1, mapped. by rewrite Hrw, Hc.
    - unfold s1'. rewrite frame_with_frame_ne by lia. rewrite (Hr1 x).
      unfold b. by rewrite frame_with_frame_ne by lia. }
  assert (admissible d R s) as Ha2.
  { intros x w Hin. destruct (Ha1 x w Hin) as (f2 & Hf2 & Ho2 & Hty2).
    destruct (Z.eq_dec x page_nr) as [->|Hne].
    - exists f. split; [done|]. split; [done|]. intros _ Hcc. by rewrite Hc in Hcc.
    - unfold b in Hf2. rewrite frame_with_frame_ne in Hf2 by lia. by exists f2. }
  destruct (represents_put_walk d s (Z.of_nat N + 2) m N
              (map_domain_mem (page_address page_nr)) s1'
              (represents_rev _ _ _ Hr2) (admissible_rev _ _ _ Ha2) Hs
              ltac:(lia) Hd1 Hm1)
    as (s2 & Hput & Hr3 & Hd3 & Hm3).
  exists g1, s2. split; [done|]. split; [congruence|]. split; [done|].
  split; [done|]. split; [lia|]. split; [done|].
  split; [|split; [by apply represents_nil|done]].
  unfold put_l1_table.
  rewrite bind_unfold, (dec_page_refcnt_success _ _ _ g1); cycle 1.
  - done.
  - congruence.
  - done.
  - intros _. lia.
  - rewrite Hg1c. change (to_int (u32 (1 - 1)) =? 0) with true. cbn [negb].
    rewrite Hrel. exact Hput.
Qed.

Lemma settled_of_table bound b :
  Forall (λ f0, 0 ≤ tot_count f0 ∧ 0 ≤ type_count f0
                ∧ tot_count f0 + bound < 2 ^ 32
                ∧ type_count f0 + bound < 2 ^ 32
                ∧ (type_count f0 = 0 → page_type f0 = 0)) (frame_table b) →
  settled bound b.
Proof.
  intros Hall x f0 Hx. unfold frame in Hx.
  destruct (x <? 0); [done|]. by apply (Forall_lookup_1 _ _ _ _ Hall Hx).
Qed.

Lemma land_below_pin_bit x :
  0 ≤ x < REFCNT_PIN_BIT → Z.land x REFCNT_PIN_BIT = 0.
Proof.
  destruct pin_bit_single as (k & Hk & ->). intros Hx.
  apply Z.bits_inj'. intros n Hn.
  rewrite Z.land_spec, Z.bits_0, Z.pow2_bits_eqb by lia.
  destruct (Z.eqb_spec k n) as [<-|Hne]; [|apply andb_false_r].
  rewrite <- (Z.mod_small x (2 ^ k)) by lia.
  rewrite Z.mod_pow2_bits_high by lia. done.
Qed.

(** What a [get_l1_table] that returns 0 leaves in the frame of the table,
    and that [put_l1_table] then gives the frame table back. *)
Lemma get_l1_table_success s page_nr s1 :
  settled (Z.of_nat (Z.to_nat ENTRIES_PER_L1_PAGETABLE) + 2) s →
  get_l1_table page_nr s = Ret 0 s1 →
  ∃ f g1 s2,
    frame s page_nr = Some f ∧ frame s1 page_nr = Some g1
    ∧ owner g1 = current_domain s1
    ∧ page_type g1 = PGT_l1_page_table
    ∧ type_count g1 = type_count f + 1
    ∧ tot_count f + 1 ≤ tot_count g1
      ≤ tot_count f + 1 + Z.of_nat (Z.to_nat ENTRIES_PER_L1_PAGETABLE)
    ∧ current_domain s1 = current_domain s
    ∧ put_l1_table page_nr s1 = Ret tt s2
    ∧ frame_table s2 = frame_table s ∧ phys_mem s2 = phys_mem s.
Proof.
  set (N := Z.to_nat ENTRIES_PER_L1_PAGETABLE).
  intros Hs. unfold get_l1_table. rewrite bind_unfold.
  destruct (inc_page_refcnt page_nr PGT_l1_page_table s) as [r s'|w s']
    eqn:Hinc; [|done].
  destruct (inc_page_refcnt_cases _ _ _ _ _ Hinc)
    as [[-> ->]|(f & Hf & Ho & Hty & -> & ->)]; [done|].
  destruct (Hs page_nr f Hf) as (Ht0 & Hc0 & Htb & Hcb & Hnone).
  destruct (Z.eqb_spec (to_int (type_count f)) 0) as [Hz|Hz]; cbn [negb].
  - assert (0 ≤ type_count f < 2 ^ 32) as Hrange by lia.
    rewrite Hz. apply (proj1 (to_int_zero (type_count f) Hrange)) in Hz.
    fold N. intros Hwalk.
    destruct (put_after_get_fresh s page_nr f s1 Hf Ho Hz Hs Hwalk)
      as (g1 & s2 & ? & ? & ? & ? & ? & ? & ? & ? & ?).
    exists f, g1, s2. rewrite Hz. repeat split; (done || lia).
  - rewrite mret_run.
    destruct (Z.ltb_spec (to_int (type_count f)) 0) as [Hneg|Hpos];
      [by intros [= ? _]|].
    intros [= <-].
    assert (to_int (type_count f) = type_count f) as Hti
      by (apply to_int_range; lia).
    assert (type_count f ≠ 0) as Hcz by lia.
    destruct Hty as [Hty|Hty]; [|done].
    set (g := acquired PGT_l1_page_table f).
    assert (flags g = flags f) as Hfl by by apply flags_acquired_typed.
    exists f, g, s. split; [done|]. split; [eauto with frames|].
    split; [unfold owner; by rewrite Hfl|].
    split; [unfold page_type; by rewrite Hfl|].
    split; [cbn; apply u32_small; lia|].
    split; [cbn; rewrite u32_small; lia|].
    split; [done|]. split; [|done].
    apply put_after_get_referenced; auto; lia.
Qed.

(** Taking an L1 table and dropping it at once gives the frame table
    back. *)
Theorem get_then_put_l1_table_restores_frame_table (s s1 : machine)
    (page_nr : Z) :
  settled (Z.of_nat (Z.to_nat ENTRIES_PER_L1_PAGETABLE) + 2) s →
  get_l1_table page_nr s = Ret 0 s1 →
  ∃ s2, put_l1_table page_nr s1 = Ret tt s2
        ∧ frame_table s2 = frame_table s ∧ phys_mem s2 = phys_mem s.
Proof.
  intros Hs Hget.
  destruct (get_l1_table_success s page_nr s1 Hs Hget)
    as (f & g1 & s2 & _ & _ & _ & _ & _ & _ & _ & Hput & Hft & Hm).
  by exists s2.
Qed.

(** [PGEXT_PIN_L1_TABLE] that succeeds, followed at once by
    [PGEXT_UNPIN_TABLE]: the unpin succeeds and the frame table, with every
    count, type and pin bit in it, is as before the pin. *)
Theorem pin_l1_then_unpin_restores_frame_table (s s1 : machine)
    (ptr pin unpin : Z) :
  Z.land pin PGEXT_CMD_MASK = PGEXT_PIN_L1_TABLE →
  Z.land unpin PGEXT_CMD_MASK = PGEXT_UNPIN_TABLE →
  settled (Z.of_nat (Z.to_nat ENTRIES_PER_L1_PAGETABLE) + 2) s →
  (∀ f, frame s (Z.shiftr ptr PAGE_SHIFT) = Some f →
        tot_count f + Z.of_nat (Z.to_nat ENTRIES_PER_L1_PAGETABLE)
        < REFCNT_PIN_BIT) →
  do_extended_command ptr pin s = Ret 0 s1 →
  ∃ s2, do_extended_command ptr unpin s1 = Ret 0 s2
        ∧ frame_table s2 = frame_table s ∧ phys_mem s2 = phys_mem s.
Proof.
  set (N := Z.to_nat ENTRIES_PER_L1_PAGETABLE).
  intros Hpin Hunpin Hs Htot.
  unfold do_extended_command at 1. cbv zeta.
  set (pfn := Z.shiftr ptr PAGE_SHIFT) in *.
  rewrite Hpin, Z.eqb_refl, bind_unfold.
  destruct (get_l1_table pfn s) as [err s0|w s0] eqn:Hget; [|done].
  destruct (Z.eqb_spec err 0) as [->|Herr]; cbn [negb];
    [|by rewrite mret_run; intros [= ? _]].
  destruct (get_l1_table_success s pfn s0 Hs Hget)
    as (f & g1 & s2 & Hf & Hg1 & Ho1 & Hty1 & Hc1 & Ht1 & Hd1 & Hput & Hft
        & Hm).
  destruct (Hs pfn f Hf) as (Ht0 & Hc0 & Htb & Hcb & _).
  specialize (Htot f Hf).
  assert (u32 (type_count g1 - 1) = type_count f) as Hdown.
  { rewrite Hc1. replace (type_count f + 1 - 1) with (type_count f) by lia.
    apply u32_small. lia. }
  assert (u32 (tot_count g1 - 1) = tot_count g1 - 1) as Htdown
    by (apply u32_small; lia).
  mrun. frame_simpl. rewrite Hdown, Htdown.
  destruct (Z.eqb_spec (Z.land (type_count f) REFCNT_PIN_BIT) 0) as [Hcp|Hcp];
    [|by rewrite mret_run; intros [= ? _]].
  rewrite bind_unfold. erewrite assign_run by eauto with frames.
  rewrite with_frame_twice, bind_unfold.
  erewrite assign_run by eauto with frames.
  rewrite with_frame_twice, mret_run. frame_simpl. intros [= <-].
  (* the unpin *)
  assert (Z.land (tot_count g1 - 1) REFCNT_PIN_BIT = 0) as Htp
    by (apply land_below_pin_bit; lia).
  destruct (pin_bit_raised _ Hcp) as [Hc2 Hc3].
  destruct (pin_bit_raised _ Htp) as [Ht2 Ht3].
  unfold do_extended_command. cbv zeta. fold pfn. rewrite Hunpin.
  destruct (Z.eqb_spec PGEXT_UNPIN_TABLE PGEXT_PIN_L1_TABLE) as [E|_];
    [by destruct unpin_not_pin_l1|].
  destruct (Z.eqb_spec PGEXT_UNPIN_TABLE PGEXT_PIN_L2_TABLE) as [E|_];
    [by destruct unpin_not_pin_l2|].
  rewrite Z.eqb_refl. mrun. frame_simpl. fold (owner g1).
  change (current_domain (with_frame pfn _ s0)) with (current_domain s0).
  rewrite Ho1, Z.eqb_refl. cbn [negb]. mrun. frame_simpl. rewrite Hc2.
  destruct (Z.eqb_spec REFCNT_PIN_BIT 0) as [E|_];
    [by destruct pin_bit_nonzero|].
  cbn [negb]. rewrite bind_unfold.
  erewrite assign_run by eauto with frames. rewrite with_frame_twice.
  rewrite bind_unfold. erewrite assign_run by eauto with frames.
  rewrite with_frame_twice. mrun. frame_simpl. rewrite Hc3, Ht3.
  fold (page_type g1). rewrite Hty1, Z.eqb_refl.
  assert (with_frame pfn
            {| flags := flags g1; tot_count := u32 (tot_count g1 - 1 + 1);
               type_count := u32 (type_count f + 1) |} s0 = s0) as ->.
  { apply with_frame_same. rewrite Hg1. f_equal.
    replace (tot_count g1 - 1 + 1) with (tot_count g1) by lia.
    rewrite !u32_small by lia. rewrite <- Hc1. by destruct g1. }
  rewrite Hput. exists s2. by rewrite mret_run.
Qed.

End Roundtrip.

(** * Taking and dropping single references *)

Section Release.
Context `{PlatformLaws}.

Lemma released_acquired type f :
  Z.land type PG_type_mask = type →
  page_type f = type ∨ type_count f = 0 →
  (type_count f = 0 → page_type f = 0) →
  0 ≤ type_count f → type_count f + 2 < 2 ^ 32 →
  0 ≤ tot_count f → tot_count f + 2 < 2 ^ 32 →
  owner (acquired type f) = owner f
  ∧ page_type (acquired type f) = type
  ∧ type_count (acquired type f) = type_count f + 1
  ∧ released (acquired type f) = f.
Proof.
  intros Htag Hty Hnone Hc Hcb Ht Htb.
  assert (type_count (acquired type f) = type_count f + 1) as Hgc
    by (cbn; apply u32_small; lia).
  assert (tot_count (acquired type f) = tot_count f + 1) as Hgt
    by (cbn; apply u32_small; lia).
  assert (owner (acquired type f) = owner f
          ∧ page_type (acquired type f) = type
          ∧ (type_count f = 0 →
             Z.ldiff (flags (acquired type f)) PG_type_mask = flags f)
          ∧ (type_count f ≠ 0 → flags (acquired type f) = flags f))
    as (Ho & Hp & Hz & Hnz).
  { destruct (Z.eq_dec (type_count f) 0) as [Hc0|Hc0].
    - destruct (flags_acquired_untyped type f Htag (Hnone Hc0)) as (?&?&?).
      by repeat split.
    - destruct Hty as [Hty|Hty]; [|done].
      pose proof (flags_acquired_typed type f Hty) as Hfl.
      unfold owner, page_type. rewrite Hfl. by repeat split. }
  repeat split; try done.
  unfold released. rewrite Hgc, Hgt.
  replace (type_count f + 1 - 1) with (type_count f) by lia.
  replace (tot_count f + 1 - 1) with (tot_count f) by lia.
  rewrite !u32_small by lia.
  destruct (Z.eqb_spec (type_count f) 0) as [Hc0|Hc0].
  - rewrite (Hz Hc0). by destruct f.
  - rewrite (Hnz Hc0). by destruct f.
Qed.

(** [inc_page_refcnt] that succeeds, then [dec_page_refcnt] on the same
    frame with the same type: the state is the one before, and the count
    returned is the one [inc_page_refcnt] returned. *)
Theorem inc_then_dec_page_refcnt_restores (s s1 : machine)
    (page_nr type r : Z) :
  Z.land type PG_type_mask = type →
  settled 2 s →
  inc_page_refcnt page_nr type s = Ret r s1 → r ≠ -1 →
  dec_page_refcnt page_nr type s1 = Ret r s.
Proof.
  intros Htag Hs Hinc Hr.
  destruct (inc_page_refcnt_cases _ _ _ _ _ Hinc)
    as [[-> _]|(f & Hf & Ho & Hty & -> & ->)]; [done|].
  destruct (Hs page_nr f Hf) as (Ht0 & Hc0 & Htb & Hcb & Hnone).
  destruct (released_acquired type f) as (Ho' & Hp' & Hc' & Hback);
    [done..|].
  rewrite (dec_page_refcnt_success _ _ _ (acquired type f)); cycle 1.
  - eauto with frames.
  - by rewrite Ho'.
  - done.
  - intros _. lia.
  - rewrite Hback, with_frame_twice, (with_frame_same _ _ _ Hf), Hc'.
    replace (type_count f + 1 - 1) with (type_count f) by lia.
    by rewrite (u32_small (type_count f)) by lia.
Qed.

Lemma represents_self s : represents [] s s.
Proof.
  intros x. destruct (frame s x) as [f|]; [|done]. cbn.
  by rewrite mapped_nil.
Qed.

(** [get_page] that succeeds, then [put_page] on the same frame with the
    same [writeable]: the frame table is the one before. *)
Theorem get_then_put_page_restores_frame_table (s s1 : machine)
    (page_nr writeable : Z) :
  settled 2 s →
  get_page page_nr writeable s = Ret 0 s1 →
  ∃ s2, put_page page_nr writeable s1 = Ret tt s2
        ∧ frame_table s2 = frame_table s ∧ phys_mem s2 = phys_mem s
        ∧ current_domain s2 = current_domain s.
Proof.
  intros Hs Hget.
  assert (admissible (current_domain s) [] s) as Ha
    by (intros x w Hin; by apply elem_of_nil in Hin).
  destruct (represents_get (current_domain s) [] s 2 s page_nr writeable s1
              (represents_self s) Ha Hs) as (Hr1 & Ha1 & Hd1 & Hm1 & _);
    [cbn; lia|done|done|].
  destruct (represents_put (current_domain s) [] s 2 s1 page_nr writeable
              Hr1 Ha1 Hs) as (s2 & Hput & Hr2 & Hd2 & Hm2);
    [cbn; lia|done|].
  exists s2. split; [done|]. split; [by apply represents_nil|].
  split; [congruence|done].
Qed.

End Release.

Section Exclusive.
Context `{Platform}.

Lemma get_page_type_conflict s page_nr writeable f :
  frame s page_nr = Some f → writeable ≠ 0 →
  page_type f ≠ PGT_writeable_page → type_count f ≠ 0 →
  get_page page_nr writeable s = Ret (-1) s.
Proof.
  intros Hf Hw Hty Hc. pose proof (frame_Some_range _ _ _ Hf).
  unfold get_page. mrun.
  destruct (Z.leb_spec (max_page s) page_nr); [lia|]. mrun.
  destruct (Z.eqb_spec (Z.land (flags f) PG_domain_mask) (current_domain s));
    [|done].
  cbn [negb]. destruct (Z.eqb_spec writeable 0); [done|]. cbn [negb].
  destruct (Z.eqb_spec (Z.land (flags f) PG_type_mask) PGT_writeable_page);
    [done|].
  cbn [negb]. mrun. by destruct (Z.eqb_spec (type_count f) 0).
Qed.

Lemma inc_page_refcnt_refused s page_nr type f :
  frame s page_nr = Some f → page_type f ≠ type → type_count f ≠ 0 →
  inc_page_refcnt page_nr type s = Ret (-1) s.
Proof.
  intros Hf Hty Hc.
  destruct (Z.eq_dec (owner f) (current_domain s)).
  - by apply (inc_page_refcnt_type_conflict _ _ _ f).
  - by apply (inc_page_refcnt_wrong_domain _ _ _ f).
Qed.

(** The three uses of a frame exclude each other: while [type_count] is
    nonzero, a use other than the one the frame has is refused and nothing
    changes. *)
Theorem frame_in_use_refuses_other_uses (s : machine) (page_nr : Z)
    (f : pfn_info) :
  frame s page_nr = Some f → type_count f ≠ 0 →
  (page_type f ≠ PGT_writeable_page →
   ∀ writeable, writeable ≠ 0 → get_page page_nr writeable s = Ret (-1) s)
  ∧ (page_type f ≠ PGT_l1_page_table → get_l1_table page_nr s = Ret (-1) s)
  ∧ (page_type f ≠ PGT_l2_page_table → get_l2_table page_nr s = Ret (-1) s).
Proof.
  intros Hf Hc. split; [|split].
  - intros Hty w Hw. by apply (get_page_type_conflict _ _ _ f).
  - intros Hty. unfold get_l1_table.
    by rewrite bind_unfold, (inc_page_refcnt_refused _ _ _ f).
  - intros Hty. unfold get_l2_table.
    by rewrite bind_unfold, (inc_page_refcnt_refused _ _ _ f).
Qed.

Lemma dec_page_refcnt_out_of_range s page_nr type :
  max_page s ≤ page_nr → dec_page_refcnt page_nr type s = Ret (-1) s.
Proof.
  intros Hr. unfold dec_page_refcnt. mrun.
  by destruct (Z.leb_spec (max_page s) page_nr); [|lia].
Qed.

Lemma dec_page_refcnt_mismatch s page_nr type f :
  frame s page_nr = Some f →
  Z.land (flags f) (Z.lor PG_type_mask PG_domain_mask)
  ≠ Z.lor type (current_domain s) →
  dec_page_refcnt page_nr type s = Ret (-1) s.
Proof.
  intros Hf Hne. pose proof (frame_Some_range _ _ _ Hf).
  unfold dec_page_refcnt. mrun.
  destruct (Z.leb_spec (max_page s) page_nr); [lia|]. mrun.
  by destruct (Z.eqb_spec
                 (Z.land (flags f) (Z.lor PG_type_mask PG_domain_mask))
                 (Z.lor type (current_domain s))).
Qed.

(** A release of a frame outside the table, or of one whose type and owner
    are not the given type and the current domain, is refused:
    [dec_page_refcnt] and [put_l2_table] return -1, [put_l1_table] returns,
    and nothing has changed. *)
Theorem release_of_other_frame_is_refused (s : machine) (page_nr : Z) :
  ∀ type,
    (max_page s ≤ page_nr
     ∨ ∃ f, frame s page_nr = Some f
            ∧ Z.land (flags f) (Z.lor PG_type_mask PG_domain_mask)
              ≠ Z.lor type (current_domain s)) →
    dec_page_refcnt page_nr type s = Ret (-1) s
    ∧ (type = PGT_l1_page_table → put_l1_table page_nr s = Ret tt s)
    ∧ (type = PGT_l2_page_table → put_l2_table page_nr s = Ret (-1) s).
Proof.
  intros type Hbad.
  assert (dec_page_refcnt page_nr type s = Ret (-1) s) as Hdec.
  { destruct Hbad as [Hr|(f & Hf & Hne)].
    - by apply dec_page_refcnt_out_of_range.
    - by apply (dec_page_refcnt_mismatch _ _ _ f). }
  split; [done|]. split; intros ->.
  - unfold put_l1_table. by rewrite bind_unfold, Hdec.
  - unfold put_l2_table. by rewrite bind_unfold, Hdec.
Qed.

End Exclusive.

(** * The extended commands *)

Section Commands.
Context `{PlatformLaws} `{!CommandLaws}.

Lemma codes_apart :
  PGEXT_PIN_L2_TABLE ≠ PGEXT_PIN_L1_TABLE
  ∧ PGEXT_UNPIN_TABLE ≠ PGEXT_PIN_L1_TABLE
  ∧ PGEXT_UNPIN_TABLE ≠ PGEXT_PIN_L2_TABLE
  ∧ PGEXT_NEW_BASEPTR ≠ PGEXT_PIN_L1_TABLE
  ∧ PGEXT_NEW_BASEPTR ≠ PGEXT_PIN_L2_TABLE
  ∧ PGEXT_NEW_BASEPTR ≠ PGEXT_UNPIN_TABLE
  ∧ PGEXT_TLB_FLUSH ≠ PGEXT_PIN_L1_TABLE
  ∧ PGEXT_TLB_FLUSH ≠ PGEXT_PIN_L2_TABLE
  ∧ PGEXT_TLB_FLUSH ≠ PGEXT_UNPIN_TABLE
  ∧ PGEXT_TLB_FLUSH ≠ PGEXT_NEW_BASEPTR
  ∧ PGEXT_INVLPG ≠ PGEXT_PIN_L1_TABLE
  ∧ PGEXT_INVLPG ≠ PGEXT_PIN_L2_TABLE
  ∧ PGEXT_INVLPG ≠ PGEXT_UNPIN_TABLE
  ∧ PGEXT_INVLPG ≠ PGEXT_NEW_BASEPTR
  ∧ PGEXT_INVLPG ≠ PGEXT_TLB_FLUSH.
Proof.
  pose proof codes_differ as Hd. unfold command_codes in Hd.
  rewrite !list.NoDup_cons, !not_elem_of_cons in Hd.
  destruct Hd as ((?&?&?&?&?&_) & (?&?&?&?&_) & (?&?&?&_) & (?&?&_)
                  & (?&_) & _).
  repeat split; congruence.
Qed.

(** Decides the tests of the [switch] on a command that is known. *)
Ltac switch_on_command :=
  repeat match goal with
  | |- context [?a =? ?a] => rewrite (Z.eqb_refl a)
  | Hne : ?a ≠ ?b |- context [?a =? ?b] =>
      rewrite (proj2 (Z.eqb_neq a b) Hne)
  end.


(** [PGEXT_UNPIN_TABLE] on a frame of another domain, or on one that is not
    pinned, is refused with result 1 and nothing has changed. *)
Theorem unpin_of_unpinned_frame_is_refused (s : machine) (ptr val : Z)
    (f : pfn_info) :
  frame s (Z.shiftr ptr PAGE_SHIFT) = Some f →
  Z.land val PGEXT_CMD_MASK = PGEXT_UNPIN_TABLE →
  owner f ≠ current_domain s ∨ Z.land (type_count f) REFCNT_PIN_BIT = 0 →
  do_extended_command ptr val s = Ret 1 s.
Proof.
  intros Hf Hcmd Hbad.
  destruct codes_apart as (_ & Hne1 & Hne2 & _).
  unfold do_extended_command. cbv zeta. rewrite Hcmd. switch_on_command.
  mrun. fold (owner f).
  destruct (Z.eqb_spec (owner f) (current_domain s)) as [Ho|Ho]; [|done].
  cbn [negb]. mrun. destruct Hbad as [Hbad|Hbad]; [done|].
  by rewrite Hbad.
Qed.

Lemma get_l2_table_keeps_base_pointer v page_nr :
  inv_run (λ s, mm_pagetable s = v) any_stop (get_l2_table page_nr).
Proof.
  apply inv_run_get_l2_table with (allowed := any_deref); try done.
  intros. apply deref_any.
Qed.

(** [PGEXT_NEW_BASEPTR] sets the flush flag whether or not the new
    directory is accepted, and it installs the new base pointer exactly
    when it returns 0. *)
Theorem new_baseptr_installs_on_success_only (s s' : machine)
    (ptr val err : Z) :
  Z.land val PGEXT_CMD_MASK = PGEXT_NEW_BASEPTR →
  do_extended_command ptr val s = Ret err s' →
  tlb_flush s' = 1
  ∧ (err = 0 → mm_pagetable s' = page_address (Z.shiftr ptr PAGE_SHIFT))
  ∧ (err ≠ 0 → mm_pagetable s' = mm_pagetable s).
Proof.
  intros Hcmd.
  destruct codes_apart as (_ & _ & _ & Hne1 & Hne2 & Hne3 & _).
  unfold do_extended_command. cbv zeta. rewrite Hcmd. switch_on_command.
  set (pfn := Z.shiftr ptr PAGE_SHIFT).
  rewrite bind_unfold.
  pose proof (get_l2_table_keeps_base_pointer (mm_pagetable s) pfn s eq_refl)
    as Hkeep.
  destruct (get_l2_table pfn s) as [e s1|w s1]; [|done].
  rewrite bind_unfold.
  destruct (Z.eqb_spec e 0) as [->|He].
  - mrun.
    destruct (put_l2_table (Z.shiftr (mm_pagetable s1) PAGE_SHIFT) s1)
      as [r s2|w s2]; [|done].
    mrun. intros [= <- <-]. by repeat split.
  - mrun. intros [= <- <-]. by repeat split.
Qed.

(** [PGEXT_NEW_BASEPTR] between directories that are referenced apart from
    the base pointer (pinned ones, say) walks no table: it moves one
    reference from the old directory to the new one, and to reload the
    current base pointer changes no count at all. *)
Theorem new_baseptr_moves_one_reference (s : machine) (ptr val : Z)
    (f_new f_old : pfn_info) :
  let pfn := Z.shiftr ptr PAGE_SHIFT in
  let old := Z.shiftr (mm_pagetable s) PAGE_SHIFT in
  Z.land val PGEXT_CMD_MASK = PGEXT_NEW_BASEPTR →
  frame s pfn = Some f_new → frame s old = Some f_old →
  owner f_new = current_domain s → owner f_old = current_domain s →
  page_type f_new = PGT_l2_page_table → page_type f_old = PGT_l2_page_table →
  0 < type_count f_new < 2 ^ 31 - 1 → 1 < type_count f_old < 2 ^ 31 →
  0 ≤ tot_count f_new < 2 ^ 32 - 1 → 0 < tot_count f_old < 2 ^ 32 →
  ∃ s',
    do_extended_command ptr val s = Ret 0 s'
    ∧ mm_pagetable s' = page_address pfn ∧ tlb_flush s' = 1
    ∧ phys_mem s' = phys_mem s
    ∧ (pfn = old → frame_table s' = frame_table s)
    ∧ (pfn ≠ old →
       frame s' pfn
       = Some {| flags := flags f_new; tot_count := tot_count f_new + 1;
                 type_count := type_count f_new + 1 |}
       ∧ frame s' old
         = Some {| flags := flags f_old; tot_count := tot_count f_old - 1;
                   type_count := type_count f_old - 1 |}
       ∧ ∀ q, q ≠ pfn → q ≠ old → frame s' q = frame s q).
Proof.
  intros pfn old Hcmd Hfn Hfo Hon Hoo Htn Hto Hcn Hco Hnn Hno.
  destruct codes_apart as (_ & _ & _ & Hne1 & Hne2 & Hne3 & _).
  pose proof (frame_Some_range _ _ _ Hfn) as Hrn.
  pose proof (frame_Some_range _ _ _ Hfo) as Hro.
  set (g := {| flags := flags f_new; tot_count := u32 (tot_count f_new + 1);
               type_count := u32 (type_count f_new + 1) |}).
  assert (g = {| flags := flags f_new; tot_count := tot_count f_new + 1;
                 type_count := type_count f_new + 1 |}) as Hg
    by (unfold g; by rewrite !u32_small by lia).
  assert (get_l2_table pfn s = Ret 0 (with_frame pfn g s)) as Hget
    by (apply get_l2_table_referenced; auto; lia).
  unfold do_extended_command. cbv zeta. rewrite Hcmd. switch_on_command.
  fold pfn. rewrite bind_unfold, Hget.
  rewrite bind_unfold. cbn [Z.eqb]. mrun.
  change (mm_pagetable (with_frame pfn g s)) with (mm_pagetable s).
  fold old.
  destruct (Z.eq_dec pfn old) as [E|E].
  - assert (f_old = f_new) as -> by congruence.
    rewrite <- E.
    rewrite (put_l2_table_referenced _ _ g); cycle 1.
    { eauto with frames. } { done. } { done. }
    { rewrite Hg. cbn. lia. }
    rewrite with_frame_twice.
    assert (released g = f_new) as ->.
    { rewrite released_not_last by (rewrite Hg; cbn; lia).
      rewrite Hg. cbn [flags tot_count type_count].
      replace (tot_count f_new + 1 - 1) with (tot_count f_new) by lia.
      replace (type_count f_new + 1 - 1) with (type_count f_new) by lia.
      rewrite u32_small by lia. by destruct f_new. }
    rewrite (with_frame_same _ _ _ Hfn). mrun.
    eexists. split; [done|]. by repeat split.
  - assert (frame (with_frame pfn g s) old = Some f_old) as Hfo'
      by (rewrite frame_with_frame_ne by lia; done).
    rewrite (put_l2_table_referenced _ _ f_old); [|done|done|done|lia].
    mrun. eexists. split; [done|].
    split; [done|]. split; [done|]. split; [done|]. split; [done|].
    intros _.
    change (frame (set_tlb_flush 1 (set_mm_pagetable (page_address pfn) ?x)))
      with (frame x).
    split; [|split].
    + rewrite frame_with_frame_ne by lia. rewrite <- Hg. eauto with frames.
    + erewrite frame_with_frame_eq by done. f_equal.
      rewrite released_not_last by lia. by rewrite u32_small by lia.
    + intros q Hq1 Hq2. rewrite !frame_with_frame_ne by lia. done.
Qed.

End Commands.

Section Requests.
Context `{Platform}.

Lemma process_request_in_range s cur :
  Z.shiftr (ptr cur) PAGE_SHIFT < max_page s →
  process_request cur s
  = (x ← demux_request cur (Z.shiftr (ptr cur) PAGE_SHIFT);
     report_request x.1 x.2) s.
Proof.
  intros Hr. unfold process_request.
  rewrite bind_unfold, gets_run, bind_unfold.
  by destruct (Z.leb_spec (max_page s) (Z.shiftr (ptr cur) PAGE_SHIFT));
    [lia|].
Qed.

Lemma report_request_error s cur_ptr err f :
  err ≠ 0 → frame s (Z.shiftr cur_ptr PAGE_SHIFT) = Some f →
  report_request cur_ptr err s
  = Stop (DomainKilled Illegal_page_update_request) s.
Proof.
  intros He Hf. unfold report_request.
  destruct (Z.eqb_spec err 0); [done|]. cbn [negb].
  by rewrite bind_unfold, (page_flags_run _ _ _ f).
Qed.

Lemma process_request_extended s cur :
  Z.land (ptr cur) (sizeof_pgentry - 1) = PGREQ_EXTENDED_COMMAND →
  Z.shiftr (ptr cur) PAGE_SHIFT < max_page s →
  process_request cur s
  = (err ← do_extended_command (Z.ldiff (ptr cur) (sizeof_pgentry - 1))
                               (val cur);
     report_request (Z.ldiff (ptr cur) (sizeof_pgentry - 1)) err) s.
Proof.
  intros Hk Hr. rewrite process_request_in_range by done.
  unfold demux_request. rewrite Hk.
  change (PGREQ_EXTENDED_COMMAND =? PGREQ_NORMAL) with false.
  change (PGREQ_EXTENDED_COMMAND =? PGREQ_UNCHECKED_UPDATE) with false.
  change (PGREQ_EXTENDED_COMMAND =? PGREQ_EXTENDED_COMMAND) with true.
  cbv zeta. rewrite !bind_unfold.
  by destruct (do_extended_command _ _ s).
Qed.

End Requests.

Section SimpleCommands.
Context `{Platform} `{!CommandLaws}.

(** The commands that take no frame still need one: a request for
    [PGEXT_TLB_FLUSH] or [PGEXT_INVLPG] whose [ptr] lies outside the frame
    table kills the domain. Inside it, [PGEXT_TLB_FLUSH] only sets the flush
    flag, [PGEXT_INVLPG] only flushes the entry of [val] without its command
    bits, and a command that is none of the six kills the domain with
    nothing changed. *)
Theorem commands_without_frame (s : machine) (cur : page_update_request_t) :
  0 ≤ ptr cur →
  Z.land (ptr cur) (sizeof_pgentry - 1) = PGREQ_EXTENDED_COMMAND →
  let cmd := Z.land (val cur) PGEXT_CMD_MASK in
  (max_page s ≤ Z.shiftr (ptr cur) PAGE_SHIFT →
   process_request cur s
   = Stop (DomainKilled Page_update_request_out_of_range) s)
  ∧ (Z.shiftr (ptr cur) PAGE_SHIFT < max_page s →
     (cmd = PGEXT_TLB_FLUSH →
      process_request cur s = Ret tt (set_tlb_flush 1 s))
     ∧ (cmd = PGEXT_INVLPG →
        process_request cur s
        = Ret tt (log_event (FlushTlbOne (Z.ldiff (val cur) PGEXT_CMD_MASK))
                            s))
     ∧ (cmd ∉ command_codes →
        process_request cur s
        = Stop (DomainKilled Illegal_page_update_request) s)).
Proof.
  intros Hp Hk cmd. split; [apply process_request_out_of_range|].
  intros Hr. rewrite process_request_extended by done.
  pose proof codes_differ as Hd. unfold command_codes in Hd.
  rewrite !list.NoDup_cons, !not_elem_of_cons in Hd.
  destruct Hd as ((?&?&?&?&?&_) & (?&?&?&?&_) & (?&?&?&_) & (?&?&_)
                  & (?&_) & _).
  unfold do_extended_command. cbv zeta. fold cmd.
  split; [|split].
  - intros ->.
    repeat match goal with
    | |- context [?a =? ?a] => rewrite (Z.eqb_refl a)
    | |- context [?a =? ?b] =>
        destruct (Z.eqb_spec a b) as [?|_]; [congruence|]
    end.
    by mrun.
  - intros ->.
    repeat match goal with
    | |- context [?a =? ?a] => rewrite (Z.eqb_refl a)
    | |- context [?a =? ?b] =>
        destruct (Z.eqb_spec a b) as [?|_]; [congruence|]
    end.
    by mrun.
  - intros Hnot. unfold command_codes in Hnot.
    rewrite !not_elem_of_cons in Hnot.
    destruct Hnot as (?&?&?&?&?&?&_).
    repeat match goal with
    | |- context [?a =? ?b] =>
        destruct (Z.eqb_spec a b) as [?|_]; [congruence|]
    end.
    mrun.
    assert (0 ≤ Z.shiftr (ptr cur) PAGE_SHIFT) as Hpfn
      by by apply Z.shiftr_nonneg.
    destruct (frame_in_range s (Z.shiftr (ptr cur) PAGE_SHIFT)) as [f Hf];
      [done|].
    apply (report_request_error _ _ _ f); [done|].
    by rewrite shiftr_ldiff_low_bits.
Qed.

End SimpleCommands.

(** * What the entry modifiers and the normal request write *)

Section Entries.
Context `{Platform}.

Lemma get_page_keeps_memory m page_nr writeable :
  inv_run (memory_is m) any_stop (get_page page_nr writeable).
Proof.
  apply inv_run_get_page with (allowed := any_deref); try done.
  intros. apply deref_any.
Qed.

Lemma mod_l1_entry_success s pa new s' :
  mod_l1_entry pa new s = Ret 0 s' →
  phys_mem s' = store (map_domain_mem pa) new (phys_mem s).
Proof.
  unfold mod_l1_entry. cbv zeta. rewrite bind_unfold. unfold read_phys at 1.
  rewrite gets_run. set (old := phys_mem s (map_domain_mem pa)).
  unfold write_phys.
  assert (∀ s1, memory_is (phys_mem s) s1 →
    (modify (λ s0, set_phys_mem (store (map_domain_mem pa) new (phys_mem s0))
                                s0);; mret 0) s1 = Ret 0 s' →
    phys_mem s' = store (map_domain_mem pa) new (phys_mem s)) as Hfin.
  { intros s1 Hm. mrun. intros [= <-]. cbn. by rewrite Hm. }
  assert (∀ s1, memory_is (phys_mem s) s1 →
    (r ← get_page (l1_pgentry_to_pagenr new) (Z.land new _PAGE_RW);
     if negb (r =? 0) then mret (-1)
     else modify (λ s0, set_phys_mem
                          (store (map_domain_mem pa) new (phys_mem s0)) s0);;
          mret 0) s1 = Ret 0 s' →
    phys_mem s' = store (map_domain_mem pa) new (phys_mem s)) as Hget.
  { intros s1 Hm. rewrite bind_unfold.
    pose proof (get_page_keeps_memory (phys_mem s) (l1_pgentry_to_pagenr new)
                  (Z.land new _PAGE_RW) s1 Hm) as Hg.
    destruct (get_page _ _ s1) as [r2 s2|w s2]; [|done].
    destruct (Z.eqb_spec r2 0) as [->|Hr2]; cbn [negb]; [by apply Hfin|].
    rewrite mret_run. by intros [= ? _]. }
  pose proof (put_page_keeps_memory (phys_mem s)
                (l1_pgentry_to_pagenr old) (Z.land old _PAGE_RW) s eq_refl)
    as Hput.
  destruct (Z.eqb_spec (Z.land new _PAGE_PRESENT) 0) as [Hn|Hn]; cbn [negb].
  { destruct (Z.land old _PAGE_PRESENT =? 0); cbn [negb].
    - by apply Hfin.
    - rewrite bind_unfold.
      destruct (put_page _ _ s) as [[] s1|w s1]; [|done]. by apply Hfin. }
  destruct (Z.eqb_spec (Z.land new (Z.lor _PAGE_GLOBAL _PAGE_PAT)) 0)
    as [Hb|Hb]; cbn [negb]; [|by intros [= ? _]].
  destruct (Z.land (Z.lxor old new) 4294963203 =? 0); cbn [negb];
    [by apply Hfin|].
  rewrite bind_unfold.
  destruct (Z.eqb_spec (Z.land old _PAGE_PRESENT) 0) as [Ho|Ho]; cbn [negb].
  - rewrite mret_run. by apply Hget.
  - destruct (put_page _ _ s) as [[] s1|w s1]; [|done]. by apply Hget.
Qed.

Lemma mod_l2_entry_success s pa new s' :
  mod_l2_entry pa new s = Ret 0 s' →
  phys_mem s' = store (map_domain_mem pa) new (phys_mem s).
Proof.
  unfold mod_l2_entry. cbv zeta. rewrite bind_unfold. unfold read_phys at 1.
  rewrite gets_run. set (old := phys_mem s (map_domain_mem pa)).
  unfold write_phys.
  destruct (Z.leb_spec DOMAIN_ENTRIES_PER_L2_PAGETABLE
              (Z.shiftr (Z.land (map_domain_mem pa) (PAGE_SIZE - 1)) 2));
    [mrun; by intros [= ? _]|].
  mrun. set (s1 := set_phys_mem (store (map_domain_mem pa) new (phys_mem s)) s).
  assert (∀ s2, memory_is (phys_mem s1) s2 →
    (r2 ← get_l1_table (l2_pgentry_to_pagenr new);
     if negb (r2 =? 0)
     then modify (λ s, set_phys_mem
                         (store (map_domain_mem pa) old (phys_mem s)) s);;
          mret (-1)
     else mret 0) s2 = Ret 0 s' →
    phys_mem s' = store (map_domain_mem pa) new (phys_mem s)) as Hget.
  { intros s2 Hm2. rewrite bind_unfold.
    pose proof (get_l1_table_keeps_memory (phys_mem s1)
                  (l2_pgentry_to_pagenr new) s2 Hm2) as Hg.
    destruct (get_l1_table _ s2) as [r3 s3|w s3]; [|done].
    destruct (Z.eqb_spec r3 0) as [->|Hr3]; cbn [negb];
      [by intros [= <-]|].
    mrun. by intros [= ? _]. }
  pose proof (put_l1_table_keeps_memory (phys_mem s1)
                (l2_pgentry_to_pagenr old) s1 eq_refl) as Hput.
  destruct (Z.eqb_spec (Z.land new _PAGE_PRESENT) 0) as [Hn|Hn]; cbn [negb].
  { destruct (Z.land old _PAGE_PRESENT =? 0); cbn [negb].
    - by intros [= <-].
    - rewrite bind_unfold.
      destruct (put_l1_table _ s1) as [[] s2|w s2]; [|done].
      mrun. by intros [= <-]. }
  destruct (Z.eqb_spec (Z.land new (Z.lor _PAGE_GLOBAL _PAGE_PSE)) 0)
    as [Hb|Hb]; cbn [negb]; [|mrun; by intros [= ? _]].
  destruct (Z.land (Z.lxor old new) 4294963201 =? 0); cbn [negb];
    [by intros [= <-]|].
  destruct (Z.eqb_spec (Z.land old _PAGE_PRESENT) 0) as [Ho|Ho]; cbn [negb].
  - rewrite (bind_unfold (mret tt)), mret_run. by apply Hget.
  - rewrite (bind_unfold (put_l1_table _)).
    destruct (put_l1_table _ s1) as [[] s2|w s2]; [|done]. by apply Hget.
Qed.

(** When [mod_l1_entry] or [mod_l2_entry] returns 0, the entry holds the new
    value and no other word of memory has changed. *)
Theorem successful_modification_writes_the_entry (s s' : machine)
    (pa new : Z) :
  (mod_l1_entry pa new s = Ret 0 s' →
   phys_mem s' = store (map_domain_mem pa) new (phys_mem s))
  ∧ (mod_l2_entry pa new s = Ret 0 s' →
     phys_mem s' = store (map_domain_mem pa) new (phys_mem s)).
Proof. split; [apply mod_l1_entry_success|apply mod_l2_entry_success]. Qed.

Lemma process_request_normal s cur f :
  Z.land (ptr cur) (sizeof_pgentry - 1) = PGREQ_NORMAL →
  frame s (Z.shiftr (ptr cur) PAGE_SHIFT) = Some f →
  process_request cur s
  = (x ← (if owner f =? current_domain s then
            if page_type f =? PGT_l1_page_table then
              err ← mod_l1_entry (ptr cur) (val cur); mret (ptr cur, err)
            else if page_type f =? PGT_l2_page_table then
              err ← mod_l2_entry (ptr cur) (val cur); mret (ptr cur, err)
            else mret (ptr cur, 1)
          else mret (ptr cur, 1));
     report_request x.1 x.2) s.
Proof.
  intros Hk Hf. pose proof (frame_Some_range _ _ _ Hf) as Hr.
  rewrite process_request_in_range by lia.
  unfold demux_request. rewrite Hk.
  change (PGREQ_NORMAL =? PGREQ_NORMAL) with true. cbv zeta.
  rewrite !bind_unfold. by rewrite (page_flags_run _ _ _ f), bind_unfold,
    gets_run.
Qed.

(** A normal request is applied to page tables of the current domain only:
    aimed at a frame of another domain, or at one that is neither an L1 nor
    an L2 table, it kills the domain and nothing has changed. *)
Theorem normal_update_needs_a_table_of_the_domain (s : machine)
    (cur : page_update_request_t) (f : pfn_info) :
  Z.land (ptr cur) (sizeof_pgentry - 1) = PGREQ_NORMAL →
  frame s (Z.shiftr (ptr cur) PAGE_SHIFT) = Some f →
  owner f ≠ current_domain s
  ∨ (page_type f ≠ PGT_l1_page_table ∧ page_type f ≠ PGT_l2_page_table) →
  process_request cur s = Stop (DomainKilled Illegal_page_update_request) s.
Proof.
  intros Hk Hf Hbad. rewrite (process_request_normal _ _ f) by done.
  assert ((if owner f =? current_domain s then
             if page_type f =? PGT_l1_page_table then
               err ← mod_l1_entry (ptr cur) (val cur); mret (ptr cur, err)
             else if page_type f =? PGT_l2_page_table then
               err ← mod_l2_entry (ptr cur) (val cur); mret (ptr cur, err)
             else mret (ptr cur, 1)
           else mret (ptr cur, 1)) = (mret (ptr cur, 1) : M (Z * Z))) as ->.
  { destruct (Z.eqb_spec (owner f) (current_domain s)); [|done].
    destruct Hbad as [?|[? ?]]; [done|].
    destruct (Z.eqb_spec (page_type f) PGT_l1_page_table); [done|].
    by destruct (Z.eqb_spec (page_type f) PGT_l2_page_table). }
  rewrite bind_unfold, mret_run. cbn [fst snd].
  by apply (report_request_error _ _ _ f).
Qed.

End Entries.

Section HypervisorSlots.
Context `{PlatformLaws}.

(** The slots of a directory from [DOMAIN_ENTRIES_PER_L2_PAGETABLE] on are
    out of a guest's reach: a normal request aimed at one of them, in a
    directory of the domain, kills the domain, and the frame table and
    every word of memory are as before. *)
Theorem normal_update_cannot_reach_hypervisor_slots (s : machine)
    (cur : page_update_request_t) (f : pfn_info) :
  Z.land (ptr cur) (sizeof_pgentry - 1) = PGREQ_NORMAL →
  frame s (Z.shiftr (ptr cur) PAGE_SHIFT) = Some f →
  owner f = current_domain s → page_type f = PGT_l2_page_table →
  DOMAIN_ENTRIES_PER_L2_PAGETABLE
  ≤ Z.shiftr (Z.land (ptr cur) (PAGE_SIZE - 1)) 2 →
  ∃ s', process_request cur s
        = Stop (DomainKilled Illegal_page_update_request) s'
        ∧ frame_table s' = frame_table s
        ∧ (∀ a, phys_mem s' a = phys_mem s a)
        ∧ tlb_flush s' = tlb_flush s.
Proof.
  intros Hk Hf Ho Hty Hslot. rewrite (process_request_normal _ _ f) by done.
  rewrite Ho, Hty, !Z.eqb_refl.
  destruct (Z.eqb_spec PGT_l2_page_table PGT_l1_page_table) as [E|_];
    [by destruct tables_differ|].
  rewrite !bind_unfold.
  assert (mod_l2_entry (ptr cur) (val cur) s
          = Ret (-1) (set_phys_mem
                        (store (ptr cur) (phys_mem s (ptr cur)) (phys_mem s))
                        s)) as ->.
  { unfold mod_l2_entry, map_domain_mem. cbv zeta.
    rewrite bind_unfold. unfold read_phys at 1. rewrite gets_run.
    by destruct (Z.leb_spec DOMAIN_ENTRIES_PER_L2_PAGETABLE
                   (Z.shiftr (Z.land (ptr cur) (PAGE_SIZE - 1)) 2)); [|lia]. }
  rewrite mret_run. cbn [fst snd].
  erewrite (report_request_error _ _ _ f); [|done|done].
  eexists. split; [done|]. split; [done|]. split; [|done].
  intros a. apply store_old.
Qed.

End HypervisorSlots.

(** * The counts follow the entries *)

Section Step.
Context `{PlatformLaws}.

Lemma bits_above_word a n : 0 ≤ a < 2 ^ 32 → 32 ≤ n → Z.testbit a n = false.
Proof.
  intros Ha Hn. rewrite <- (Z.mod_small a (2 ^ 32)) by lia.
  apply Z.mod_pow2_bits_high. lia.
Qed.

(** Two entries that agree on "mapping (bits 12-31), writeable (bit 1),
    presence (bit 0)" hold the same reference. *)
Lemma masked_bits_equal a b :
  0 ≤ a < 2 ^ 32 → 0 ≤ b < 2 ^ 32 →
  Z.land (Z.lxor a b) 4294963203 = 0 →
  Z.shiftr a PAGE_SHIFT = Z.shiftr b PAGE_SHIFT
  ∧ Z.land a _PAGE_RW = Z.land b _PAGE_RW
  ∧ Z.land a _PAGE_PRESENT = Z.land b _PAGE_PRESENT.
Proof.
  intros Ha Hb Hx.
  assert (∀ n, Z.testbit 4294963203 n = true →
               Z.testbit a n = Z.testbit b n) as Hbit.
  { intros n HM. pose proof (f_equal (λ z, Z.testbit z n) Hx) as Hn.
    cbn beta in Hn.
    rewrite Z.land_spec, Z.lxor_spec, HM, Z.bits_0, andb_true_r in Hn.
    by destruct (Z.testbit a n), (Z.testbit b n). }
  assert (∀ n, 12 ≤ n < 32 → Z.testbit 4294963203 n = true) as HM.
  { intros n Hn.
    change 4294963203 with (Z.lor (Z.shiftl (Z.ones 20) 12) 3).
    rewrite Z.lor_spec, Z.shiftl_spec, Z.ones_spec_low by lia. done. }
  unfold PAGE_SHIFT, _PAGE_RW, _PAGE_PRESENT. split; [|split].
  - apply Z.bits_inj'. intros n Hn. rewrite !Z.shiftr_spec by lia.
    destruct (Z.lt_ge_cases (n + 12) 32).
    + apply Hbit, HM. lia.
    + by rewrite !bits_above_word by lia.
  - apply Z.bits_inj'. intros n Hn. rewrite !Z.land_spec.
    change 2 with (2 ^ 1). rewrite Z.pow2_bits_eqb by lia.
    destruct (Z.eqb_spec 1 n) as [<-|]; [|by rewrite !andb_false_r].
    by rewrite (Hbit 1).
  - apply Z.bits_inj'. intros n Hn. rewrite !Z.land_spec.
    change 1 with (2 ^ 0). rewrite Z.pow2_bits_eqb by lia.
    destruct (Z.eqb_spec 0 n) as [<-|]; [|by rewrite !andb_false_r].
    by rewrite (Hbit 0).
Qed.

Lemma admissible_tail d r R b : admissible d (r :: R) b → admissible d R b.
Proof. intros Ha x w Hin. apply Ha. by right. Qed.

Lemma present_refs_one m p :
  present_refs m 1 p
  = if Z.land (m p) _PAGE_PRESENT =? 0 then []
    else [(Z.shiftr (m p) PAGE_SHIFT, Z.land (m p) _PAGE_RW)].
Proof. reflexivity. Qed.

(** [mod_l1_entry] keeps the counts in step with the entry. Let the frame
    table be a base table [b] with these references counted on it: the one
    the entry at [pa] holds, and those of a list [R]. After a call that
    returns 0 it is [b] with the reference the new entry holds, and those
    of [R]. *)
Theorem mod_l1_entry_keeps_counts_in_step (d B : Z) (R : list ref)
    (b s s' : machine) (pa new : Z) :
  0 ≤ new < 2 ^ 32 → 0 ≤ phys_mem s (map_domain_mem pa) < 2 ^ 32 →
  represents (present_refs (phys_mem s) 1 (map_domain_mem pa) ++ R) b s →
  admissible d (present_refs (phys_mem s) 1 (map_domain_mem pa) ++ R) b →
  settled B b → Z.of_nat (length R) < B →
  current_domain s = d →
  mod_l1_entry pa new s = Ret 0 s' →
  represents (present_refs (phys_mem s') 1 (map_domain_mem pa) ++ R) b s'
  ∧ admissible d (present_refs (phys_mem s') 1 (map_domain_mem pa) ++ R) b
  ∧ current_domain s' = d.
Proof.
  intros Hnew Hold Hr Ha Hs HB Hd Hrun.
  pose proof (mod_l1_entry_success _ _ _ _ Hrun) as Hmem.
  rewrite !present_refs_one in *.
  assert (phys_mem s' (map_domain_mem pa) = new) as ->
    by (rewrite Hmem; unfold store; by rewrite Z.eqb_refl).
  clear Hmem. revert Hrun.
  unfold mod_l1_entry. cbv zeta. rewrite bind_unfold. unfold read_phys at 1.
  rewrite gets_run. set (old := phys_mem s (map_domain_mem pa)) in *.
  unfold write_phys, l1_pgentry_to_pagenr.
  assert (∀ s1 R', represents R' b s1 → admissible d R' b →
            current_domain s1 = d →
    (modify (λ s0, set_phys_mem (store (map_domain_mem pa) new (phys_mem s0))
                                s0);; mret 0) s1 = Ret 0 s' →
    represents R' b s' ∧ admissible d R' b ∧ current_domain s' = d) as Hfin.
  { intros s1 R' Hr1 Ha1 Hd1. mrun. by intros [= <-]. }
  assert (∀ s1, represents R b s1 → admissible d R b →
            current_domain s1 = d →
    (r ← get_page (Z.shiftr new PAGE_SHIFT) (Z.land new _PAGE_RW);
     if negb (r =? 0) then mret (-1)
     else modify (λ s0, set_phys_mem
                          (store (map_domain_mem pa) new (phys_mem s0)) s0);;
          mret 0) s1 = Ret 0 s' →
    let R' := (Z.shiftr new PAGE_SHIFT, Z.land new _PAGE_RW) :: R in
    represents R' b s' ∧ admissible d R' b ∧ current_domain s' = d) as Hget.
  { intros s1 Hr1 Ha1 Hd1. rewrite bind_unfold.
    destruct (get_page _ _ s1) as [r2 s2|w s2] eqn:Hg; [|done].
    destruct (Z.eqb_spec r2 0) as [->|Hr2]; cbn [negb];
      [|rewrite mret_run; by intros [= ? _]].
    destruct (represents_get d R b B s1 _ _ s2 Hr1 Ha1 Hs HB Hd1 Hg)
      as (Hr2 & Ha2 & Hd2 & _).
    intros Hrun. by apply (Hfin s2). }
  destruct (Z.eqb_spec (Z.land new _PAGE_PRESENT) 0) as [Hn|Hn]; cbn [negb].
  { destruct (Z.eqb_spec (Z.land old _PAGE_PRESENT) 0) as [Ho|Ho];
      cbn [negb app].
    - by apply Hfin.
    - cbn [app] in Hr, Ha. rewrite bind_unfold.
      destruct (represents_put d R b B s _ _ Hr Ha Hs HB Hd)
        as (s1 & -> & Hr1 & Hd1 & _).
      apply Hfin; [done| |done]. by eapply admissible_tail. }
  destruct (Z.eqb_spec (Z.land new (Z.lor _PAGE_GLOBAL _PAGE_PAT)) 0)
    as [Hb|Hb]; cbn [negb]; [|by intros [= ? _]].
  destruct (Z.eqb_spec (Z.land (Z.lxor old new) 4294963203) 0) as [Hsame|Hdiff];
    cbn [negb].
  - destruct (masked_bits_equal old new Hold Hnew Hsame) as (E1 & E2 & E3).
    rewrite E1, E2, E3 in *.
    destruct (Z.eqb_spec (Z.land new _PAGE_PRESENT) 0); [done|].
    by apply Hfin.
  - rewrite bind_unfold.
    destruct (Z.eqb_spec (Z.land old _PAGE_PRESENT) 0) as [Ho|Ho];
      cbn [negb app] in *.
    + rewrite mret_run. by apply Hget.
    + destruct (represents_put d R b B s _ _ Hr Ha Hs HB Hd)
        as (s1 & -> & Hr1 & Hd1 & _).
      apply Hget; [done| |done]. by eapply admissible_tail.
Qed.

End Step.

(** * The hypervisor's part of a directory *)

Section Directory.
Context `{Platform}.

Lemma get_l1_table_walk_frame m t v page_nr :
  inv_run (walk_frame m t v) any_stop (get_l1_table page_nr).
Proof.
  apply inv_run_get_l1_table with (allowed := any_deref); try done.
  intros. apply deref_any.
Qed.

Lemma page_address_bound page_nr :
  0 ≤ page_address page_nr ≤ 2 ^ 32 - PAGE_SIZE.
Proof.
  unfold page_address, u32, PAGE_SHIFT, PAGE_SIZE.
  rewrite Z.shiftl_mul_pow2 by lia.
  change (2 ^ 32) with (2 ^ 12 * 2 ^ 20).
  rewrite (Z.mul_comm page_nr), Z.mul_mod_distr_l by lia.
  pose proof (Z.mod_pos_bound page_nr (2 ^ 20)). lia.
Qed.

Lemma get_l2_entries_finished m t v page_nr n :
  ∀ i p ret s p' r' s',
    0 ≤ i → 4 * (i + Z.of_nat n) < PAGE_SIZE →
    p = map_domain_mem (page_address page_nr) + sizeof_pgentry * i →
    walk_frame m t v s →
    get_l2_entries n page_nr i p ret s = Ret (Finished p' r') s' →
    p' = map_domain_mem (page_address page_nr)
         + sizeof_pgentry * (i + Z.of_nat n)
    ∧ walk_frame m t v s'.
Proof.
  pose proof (page_address_bound page_nr) as Hb.
  unfold map_domain_mem, sizeof_pgentry, PAGE_SIZE in *.
  induction n as [|n IH]; intros i p ret s p' r' s' Hi Hn Hp Hs;
    cbn [get_l2_entries].
  { rewrite mret_run. intros [= <- _ <-]. split; [lia|done]. }
  rewrite bind_unfold. unfold read_phys at 1. rewrite gets_run.
  destruct (Z.land (phys_mem s p) _PAGE_PRESENT =? 0).
  { intros Hrun. unfold sizeof_pgentry in Hrun.
    destruct (IH (i + 1) (p + 4) ret s p' r' s') as [-> Hw];
      [lia|lia|lia|done|done|]. split; [lia|done]. }
  destruct (Z.land (phys_mem s p) (Z.lor _PAGE_GLOBAL _PAGE_PSE) =? 0);
    cbn [negb]; [|by rewrite mret_run].
  rewrite bind_unfold.
  pose proof (get_l1_table_walk_frame m t v
                (l2_pgentry_to_pagenr (phys_mem s p)) s Hs) as Hw.
  destruct (get_l1_table _ s) as [r s1|w s1]; [|done].
  destruct (r =? 0); cbn [negb]; [|by rewrite mret_run].
  intros Hrun. unfold sizeof_pgentry, map_domain_mem in Hrun.
  destruct (IH (i + 1) (u32 (page_address page_nr + (i + 1) * 4)) r s1
              p' r' s') as [-> Hw'];
    [lia|lia| |done|done|split; [lia|done]].
  unfold u32. rewrite Z.mod_small; lia.
Qed.

(** The memory [memcpy] leaves: the [n] words from [dst] on are those of the
    idle table from index [from] on. *)
Lemma copy_idle_entries_run n :
  ∀ dst from s, ∃ s',
    copy_idle_entries n dst from s = Ret tt s'
    ∧ frame_table s' = frame_table s
    ∧ mm_perdomain_pt s' = mm_perdomain_pt s
    ∧ (∀ k, 0 ≤ k < Z.of_nat n →
         phys_mem s' (dst + sizeof_pgentry * k) = idle_pg_table s (from + k))
    ∧ (∀ a, (∀ k, 0 ≤ k < Z.of_nat n → a ≠ dst + sizeof_pgentry * k) →
         phys_mem s' a = phys_mem s a).
Proof.
  unfold sizeof_pgentry.
  induction n as [|n IH]; intros dst from s; cbn [copy_idle_entries].
  { exists s. rewrite mret_run. repeat split; try done. intros; lia. }
  rewrite bind_unfold, gets_run, bind_unfold. unfold write_phys at 1.
  rewrite modify_run. unfold sizeof_pgentry.
  set (s1 := set_phys_mem (store dst (idle_pg_table s from) (phys_mem s)) s).
  destruct (IH (dst + 4) (from + 1) s1) as (s' & -> & Hft & Hpd & Hin & Hout).
  exists s'. split; [done|]. split; [done|]. split; [done|]. split.
  - intros k Hk. destruct (Z.eq_dec k 0) as [->|Hk0].
    + rewrite Hout.
      * cbn. unfold store. rewrite !Z.add_0_r, Z.eqb_refl. done.
      * intros j Hj. lia.
    + replace (dst + 4 * k) with (dst + 4 + 4 * (k - 1)) by lia.
      rewrite Hin by lia. cbn. f_equal. lia.
  - intros a Ha. rewrite Hout.
    + cbn. unfold store. destruct (Z.eqb_spec a dst) as [->|]; [|done].
      specialize (Ha 0). lia.
    + intros j Hj E. apply (Ha (j + 1)); lia.
Qed.

(** A directory that [get_l2_table] takes for the first time, and accepts,
    gets the hypervisor's entries whatever it held there: the per-domain
    slot maps [perdomain_pt], the other slots from
    [DOMAIN_ENTRIES_PER_L2_PAGETABLE] on are those of the idle table, and
    no other word of memory has changed. *)
Theorem fresh_directory_gets_hypervisor_entries (s s' : machine)
    (page_nr : Z) (f : pfn_info) :
  0 ≤ DOMAIN_ENTRIES_PER_L2_PAGETABLE →
  4 * DOMAIN_ENTRIES_PER_L2_PAGETABLE < PAGE_SIZE →
  frame s page_nr = Some f → type_count f = 0 →
  get_l2_table page_nr s = Ret 0 s' →
  let slot i := map_domain_mem (page_address page_nr) + sizeof_pgentry * i in
  phys_mem s' (slot PERDOMAIN_L2_INDEX)
  = Z.lor (mm_perdomain_pt s) __PAGE_HYPERVISOR
  ∧ (∀ k, 0 ≤ k < HYPERVISOR_ENTRIES_PER_L2_PAGETABLE →
       DOMAIN_ENTRIES_PER_L2_PAGETABLE + k ≠ PERDOMAIN_L2_INDEX →
       phys_mem s' (slot (DOMAIN_ENTRIES_PER_L2_PAGETABLE + k))
       = idle_pg_table s (DOMAIN_ENTRIES_PER_L2_PAGETABLE + k))
  ∧ (∀ a,
       (∀ k, 0 ≤ k < HYPERVISOR_ENTRIES_PER_L2_PAGETABLE →
             a ≠ slot (DOMAIN_ENTRIES_PER_L2_PAGETABLE + k)) →
       a ≠ slot PERDOMAIN_L2_INDEX →
       phys_mem s' a = phys_mem s a).
Proof.
  intros HD0 HD Hf Hc Hrun slot. revert Hrun.
  unfold get_l2_table. rewrite bind_unfold.
  destruct (Z.eq_dec (owner f) (current_domain s)) as [Ho|Ho]; cycle 1.
  { by rewrite (inc_page_refcnt_wrong_domain _ _ _ f). }
  rewrite (inc_page_refcnt_success _ _ _ f) by auto.
  rewrite Hc. change (to_int 0) with 0. cbn [Z.eqb negb].
  set (s0 := with_frame page_nr (acquired PGT_l2_page_table f) s).
  rewrite bind_unfold.
  destruct (get_l2_entries _ page_nr 0 _ 0 s0) as [[r|p' r'] s1|w s1] eqn:Hwalk;
    [|clear Hf|done].
  { rewrite mret_run. intros [= -> <-].
    exfalso. revert Hwalk. clear.
    generalize (map_domain_mem (page_address page_nr)) as p.
    generalize 0 at 1 as i. generalize 0 at 1 as ret.
    generalize s0. clear s0.
    induction (Z.to_nat DOMAIN_ENTRIES_PER_L2_PAGETABLE) as [|n IH];
      intros s0 ret i p; cbn [get_l2_entries]; [by rewrite mret_run|].
    rewrite bind_unfold. unfold read_phys at 1. rewrite gets_run.
    destruct (Z.land (phys_mem s0 p) _PAGE_PRESENT =? 0); [apply IH|].
    destruct (Z.land (phys_mem s0 p) (Z.lor _PAGE_GLOBAL _PAGE_PSE) =? 0);
      cbn [negb]; [|by rewrite mret_run].
    rewrite bind_unfold.
    destruct (get_l1_table _ s0) as [r s2|w s2]; [|done].
    destruct (Z.eqb_spec r 0) as [->|Hr]; cbn [negb]; [apply IH|].
    rewrite mret_run. by intros [= E _]. }
  destruct (get_l2_entries_finished (phys_mem s) (idle_pg_table s)
              (mm_perdomain_pt s) page_nr
              (Z.to_nat DOMAIN_ENTRIES_PER_L2_PAGETABLE) 0
              (map_domain_mem (page_address page_nr)) 0 s0 p' r' s1)
    as (-> & Hm1 & Ht1 & Hv1); [lia|lia|unfold sizeof_pgentry; lia|done|done|].
  replace (map_domain_mem (page_address page_nr)
           + sizeof_pgentry
             * (0 + Z.of_nat (Z.to_nat DOMAIN_ENTRIES_PER_L2_PAGETABLE)))
    with (slot DOMAIN_ENTRIES_PER_L2_PAGETABLE)
    by (unfold slot, sizeof_pgentry; lia).
  rewrite bind_unfold.
  destruct (copy_idle_entries_run
              (Z.to_nat HYPERVISOR_ENTRIES_PER_L2_PAGETABLE)
              (slot DOMAIN_ENTRIES_PER_L2_PAGETABLE)
              DOMAIN_ENTRIES_PER_L2_PAGETABLE s1)
    as (s2 & Hcopy & _ & Hv2 & Hin & Hout).
  rewrite Hcopy.
  rewrite bind_unfold, gets_run, bind_unfold. unfold write_phys.
  rewrite modify_run, mret_run. intros [= _ <-]. cbn [phys_mem set_phys_mem].
  assert (slot DOMAIN_ENTRIES_PER_L2_PAGETABLE
          + (PERDOMAIN_L2_INDEX - DOMAIN_ENTRIES_PER_L2_PAGETABLE)
            * sizeof_pgentry = slot PERDOMAIN_L2_INDEX) as ->
    by (unfold slot, sizeof_pgentry; lia).
  assert (∀ k, slot DOMAIN_ENTRIES_PER_L2_PAGETABLE + sizeof_pgentry * k
               = slot (DOMAIN_ENTRIES_PER_L2_PAGETABLE + k)) as Hslot
    by (intros k; unfold slot, sizeof_pgentry; lia).
  split; [|split].
  - unfold store. by rewrite Z.eqb_refl, Hv2, Hv1.
  - intros k Hk Hne. unfold store.
    destruct (Z.eqb_spec (slot (DOMAIN_ENTRIES_PER_L2_PAGETABLE + k))
                (slot PERDOMAIN_L2_INDEX)) as [E|_].
    { unfold slot, sizeof_pgentry in E. lia. }
    rewrite <- Hslot, Hin by lia. by rewrite Ht1.
  - intros a Ha Hp. unfold store.
    destruct (Z.eqb_spec a (slot PERDOMAIN_L2_INDEX)); [done|].
    rewrite Hout, Hm1; [done|].
    intros k Hk. rewrite Hslot. apply Ha. lia.
Qed.

End Directory.

(** * Batches *)

Section Batch.
Context `{Platform}.

Lemma process_updates_split n m updates i s :
  process_updates (n + m) updates i s
  = (process_updates n updates i;; process_updates m updates (i + n)%nat) s.
Proof.
  revert i s. induction n as [|n IH]; intros i s.
  { cbn [process_updates Nat.add]. by rewrite bind_unfold, mret_run,
      Nat.add_0_r. }
  cbn [process_updates Nat.add].
  destruct (copy_from_user updates i) as [cur|]; [|done].
  rewrite !bind_unfold.
  destruct (process_request cur s) as [[] s1|w s1]; [|done].
  rewrite IH, bind_unfold. by replace (i + S n)%nat with (S i + n)%nat by lia.
Qed.

(** A batch is not undone. It stops at the first request that fails, in
    the state that request left, with what the requests before it have
    done; the requests after it are not looked at and the flush that ends a
    batch is not made. A [count] that runs past the end of the array kills
    the domain the same way, after every request of the array has been
    applied. *)
Theorem batch_stops_at_first_failure
    (updates : list page_update_request_t) (count : Z) (s s1 : machine) :
  (∀ pre cur post w s2,
     updates = pre ++ cur :: post →
     process_updates (length pre) updates 0 s = Ret tt s1 →
     process_request cur s1 = Stop w s2 →
     Z.of_nat (length pre) < count →
     do_process_page_updates updates count s = Stop w s2)
  ∧ (process_updates (length updates) updates 0 s = Ret tt s1 →
     Z.of_nat (length updates) < count →
     do_process_page_updates updates count s
     = Stop (DomainKilled Cannot_read_page_update_request) s1).
Proof.
  split.
  - intros pre cur post w s2 -> Hpre Hcur Hcount.
    unfold do_process_page_updates.
    replace (Z.to_nat count)
      with (length pre + S (Z.to_nat count - length pre - 1))%nat by lia.
    rewrite bind_unfold, process_updates_split, bind_unfold, Hpre.
    cbn [process_updates Nat.add]. unfold copy_from_user.
    rewrite list_lookup_middle by done.
    by rewrite bind_unfold, Hcur.
  - intros Hall Hcount. unfold do_process_page_updates.
    replace (Z.to_nat count)
      with (length updates + S (Z.to_nat count - length updates - 1))%nat
      by lia.
    rewrite bind_unfold, process_updates_split, bind_unfold, Hall.
    cbn [process_updates Nat.add]. unfold copy_from_user.
    by rewrite lookup_ge_None_2 by lia.
Qed.

(** ** The second dispatcher *)

Lemma new_process_request_run cur s :
  match new_process_request cur s with
  | Ret _ s' => process_request cur s = Ret tt s'
  | Stop w s' => process_request cur s = Stop w s'
  end.
Proof.
  unfold new_process_request, process_request.
  rewrite !bind_unfold, !gets_run, !bind_unfold.
  destruct (max_page s <=? Z.shiftr (ptr cur) PAGE_SHIFT); [done|].
  rewrite !mret_run, !bind_unfold.
  destruct (demux_request cur _ s) as [x s1|w s1]; [|done].
  rewrite bind_unfold.
  by destruct (report_request x.1 x.2 s1) as [[] s2|w s2].
Qed.

Lemma new_process_updates_run updates n :
  ∀ reqs i s,
    (∀ j, (i ≤ j < i + n)%nat → updates !! j = Some (reqs j)) →
    match new_process_updates n reqs i s with
    | Ret _ s' => process_updates n updates i s = Ret tt s'
    | Stop w s' => process_updates n updates i s = Stop w s'
    end.
Proof.
  induction n as [|n IH]; intros reqs i s Hreqs;
    cbn [new_process_updates process_updates]; [done|].
  unfold copy_from_user. rewrite (Hreqs i) by lia.
  rewrite !bind_unfold.
  pose proof (new_process_request_run (reqs i) s) as Hone.
  destruct (new_process_request (reqs i) s) as [cur' s1|w s1];
    rewrite Hone; [|done].
  apply IH. intros j Hj. unfold set_request.
  destruct (Nat.eqb_spec j i); [lia|]. apply Hreqs. lia.
Qed.

(** On the machine [new_do_process_page_updates] does what
    [do_process_page_updates] does on the same requests: the same result or
    the same stop, in the same state. *)
Theorem second_dispatcher_agrees_with_first (cur : request_array)
    (updates : list page_update_request_t) (count : Z) (s : machine) :
  (∀ j, (j < Z.to_nat count)%nat → updates !! j = Some (cur j)) →
  forget_array (new_do_process_page_updates cur count s)
  = do_process_page_updates updates count s.
Proof.
  intros Hreqs.
  unfold new_do_process_page_updates, do_process_page_updates.
  rewrite !bind_unfold.
  pose proof (new_process_updates_run updates (Z.to_nat count) cur 0 s)
    as Hloop.
  destruct (new_process_updates _ cur 0 s) as [reqs s1|w s1];
    rewrite Hloop by (intros j Hj; apply Hreqs; lia); [|done].
  rewrite !bind_unfold.
  by destruct (flush_if_pending s1) as [[] s2|w s2].
Qed.

Lemma ldiff_of_clear x m : Z.land x m = 0 → Z.ldiff x m = x.
Proof.
  intros Hx. rewrite <- (Z.lor_ldiff_and x m) at 2.
  by rewrite Hx, Z.lor_0_r.
Qed.

Lemma demux_request_pointer cur pfn s p err s' :
  demux_request cur pfn s = Ret (p, err) s' →
  err = 0 → p = Z.ldiff (ptr cur) (sizeof_pgentry - 1).
Proof.
  unfold demux_request. cbv zeta.
  destruct (Z.eqb_spec (Z.land (ptr cur) (sizeof_pgentry - 1)) PGREQ_NORMAL)
    as [Hk|_].
  { rewrite (ldiff_of_clear _ _ Hk). rewrite bind_unfold.
    destruct (page_flags _ pfn s) as [fl s1|w s1]; [|done].
    rewrite bind_unfold, gets_run.
    destruct (Z.land fl PG_domain_mask =? current_domain s1);
      [|by intros [= <- <- _]].
    destruct (Z.land fl PG_type_mask =? PGT_l1_page_table).
    { rewrite bind_unfold.
      destruct (mod_l1_entry _ _ s1) as [e s2|w s2]; [|done].
      by intros [= <- _ _]. }
    destruct (Z.land fl PG_type_mask =? PGT_l2_page_table);
      [|by intros [= <- <- _]].
    rewrite bind_unfold.
    destruct (mod_l2_entry _ _ s1) as [e s2|w s2]; [|done].
    by intros [= <- _ _]. }
  destruct (Z.land (ptr cur) (sizeof_pgentry - 1) =? PGREQ_UNCHECKED_UPDATE).
  { rewrite bind_unfold.
    destruct (page_flags _ pfn s) as [fl s1|w s1]; [|done].
    rewrite bind_unfold, gets_run.
    destruct (Z.lor fl (current_domain s1) =? PGT_l1_page_table).
    - rewrite bind_unfold. unfold write_phys. rewrite modify_run, mret_run.
      by intros [= <- _ _].
    - by intros [= <- _ _]. }
  destruct (Z.land (ptr cur) (sizeof_pgentry - 1) =? PGREQ_EXTENDED_COMMAND).
  { rewrite bind_unfold.
    destruct (do_extended_command _ _ s) as [e s1|w s1]; [|done].
    by intros [= <- _ _]. }
  by intros [= <- <- _].
Qed.

Lemma new_process_request_value cur s cur' s' :
  new_process_request cur s = Ret cur' s' →
  cur' = {| ptr := Z.ldiff (ptr cur) (sizeof_pgentry - 1); val := val cur |}.
Proof.
  unfold new_process_request.
  rewrite !bind_unfold, !gets_run, !bind_unfold.
  destruct (max_page s <=? Z.shiftr (ptr cur) PAGE_SHIFT); [done|].
  rewrite !mret_run, !bind_unfold.
  destruct (demux_request cur _ s) as [[p err] s1|w s1] eqn:Hd; [|done].
  rewrite bind_unfold. cbn [fst snd]. unfold report_request.
  destruct (Z.eqb_spec err 0) as [->|He]; cbn [negb].
  - rewrite !mret_run. intros [= <- _].
    by rewrite (demux_request_pointer _ _ _ _ _ _ Hd eq_refl).
  - rewrite bind_unfold.
    by destruct (page_flags _ _ s1) as [fl s2|w s2].
Qed.

Lemma new_process_updates_value n :
  ∀ reqs i s reqs' s',
    new_process_updates n reqs i s = Ret reqs' s' →
    ∀ j, reqs' j
         = if bool_decide (i ≤ j < i + n)%nat
           then {| ptr := Z.ldiff (ptr (reqs j)) (sizeof_pgentry - 1);
                   val := val (reqs j) |}
           else reqs j.
Proof.
  induction n as [|n IH]; intros reqs i s reqs' s';
    cbn [new_process_updates].
  { rewrite mret_run. intros [= <- _] j.
    by rewrite bool_decide_eq_false_2 by lia. }
  rewrite bind_unfold.
  destruct (new_process_request (reqs i) s) as [cur' s1|w s1] eqn:Hone;
    [|done].
  apply new_process_request_value in Hone. intros Hrest j.
  rewrite (IH _ _ _ _ _ Hrest j). unfold set_request.
  destruct (Nat.eqb_spec j i) as [->|Hne].
  - rewrite bool_decide_eq_false_2, bool_decide_eq_true_2 by lia. done.
  - destruct (decide (S i ≤ j < S i + n)%nat).
    + by rewrite !bool_decide_eq_true_2 by lia.
    + by rewrite !bool_decide_eq_false_2 by lia.
Qed.

(** [new_do_process_page_updates] works on the caller's array: when it
    returns, every request it has processed has lost the two low bits of
    its [ptr], so that its kind reads as normal, and the rest of the array
    is as it was. *)
Theorem second_dispatcher_masks_the_requests (cur cur' : request_array)
    (count r : Z) (s s' : machine) :
  new_do_process_page_updates cur count s = Ret (r, cur') s' →
  r = 0
  ∧ ∀ j, cur' j
         = if bool_decide (j < Z.to_nat count)%nat
           then {| ptr := Z.ldiff (ptr (cur j)) (sizeof_pgentry - 1);
                   val := val (cur j) |}
           else cur j.
Proof.
  unfold new_do_process_page_updates. rewrite bind_unfold.
  destruct (new_process_updates _ cur 0 s) as [reqs s1|w s1] eqn:Hloop;
    [|done].
  rewrite bind_unfold.
  destruct (flush_if_pending s1) as [[] s2|w s2]; [|done].
  rewrite mret_run. intros [= <- <- _]. split; [done|]. intros j.
  rewrite (new_process_updates_value _ _ _ _ _ _ Hloop j).
  destruct (decide (j < Z.to_nat count)%nat).
  - by rewrite !bool_decide_eq_true_2 by lia.
  - by rewrite !bool_decide_eq_false_2 by lia.
Qed.

End Batch.

(** * Frames of other domains *)

Section Isolation.
Context `{PlatformLaws}.
Variable d : Z.
Variable s0 : machine.
Hypothesis d_fits : Z.land d PG_domain_mask = d.
Hypothesis assertions : NDEBUG = false.

Lemma isolated_update s p f g :
  isolated d s0 s → frame s p = Some f → owner f = d → owner g = owner f →
  isolated d s0 (with_frame p g s).
Proof.
  intros [Hd Hfr] Hf Ho Hg. split; [done|]. intros x.
  pose proof (frame_Some_range _ _ _ Hf) as Hr.
  destruct (Z.eq_dec x p) as [->|Hne].
  - rewrite (frame_with_frame_eq _ _ f) by done.
    specialize (Hfr p). rewrite Hf in Hfr.
    destruct (frame s0 p) as [f0|]; [|done]. destruct Hfr as [Hof _].
    split; [congruence|]. intros Hn. congruence.
  - rewrite frame_with_frame_ne by lia. apply Hfr.
Qed.

Lemma owner_of_checked fl type :
  Z.land type PG_type_mask = type →
  Z.land fl (Z.lor PG_type_mask PG_domain_mask) = Z.lor type d →
  Z.land fl PG_domain_mask = d.
Proof.
  intros Ht Hc.
  pose proof (f_equal (λ z, Z.land z PG_domain_mask) Hc) as E. cbn beta in E.
  rewrite <- Z.land_assoc, Z.land_lor_distr_l, Z.land_diag in E.
  rewrite (Z.land_comm PG_type_mask), Z.land_comm in E.
  rewrite (Z.land_comm PG_domain_mask PG_type_mask), fields_disjoint in E.
  rewrite Z.lor_0_l in E.
  rewrite Z.land_lor_distr_l, (tag_outside_owner_field _ Ht), Z.lor_0_l,
    d_fits in E.
  by rewrite Z.land_comm.
Qed.

Lemma iso_deref fn p : inv_run (isolated d s0) any_stop (deref fn p).
Proof. apply deref_any. Qed.

Lemma iso_page_flags fn p : inv_run (isolated d s0) any_stop (page_flags fn p).
Proof. unfold page_flags. inv_go. apply iso_deref. Qed.

Lemma iso_inc_page_refcnt p type :
  Z.land type PG_type_mask = type →
  inv_run (isolated d s0) any_stop (inc_page_refcnt p type).
Proof.
  intros Ht s Hs. pose proof Hs as [Hd _].
  unfold inc_page_refcnt. rewrite bind_unfold, gets_run.
  destruct (max_page s <=? p); [done|].
  destruct (frame s p) as [f|] eqn:Hf;
    [|by rewrite bind_unfold, page_flags_wild].
  mrun. fold (owner f) (page_type f).
  destruct (Z.eqb_spec (owner f) (current_domain s)) as [Ho|Ho]; cbn [negb];
    [|done].
  destruct (Z.eqb_spec (page_type f) type); cbn [negb].
  - mrun. cbv beta iota. apply (isolated_update _ _ f); [done|done|congruence|].
    done.
  - mrun. destruct (type_count f =? 0); cbn [negb]; [|done].
    mrun. cbv beta iota.
    apply (isolated_update _ _ f); [done|done|congruence|].
    unfold owner. frame_simpl. by apply owner_with_tag.
Qed.

Lemma iso_dec_page_refcnt p type :
  Z.land type PG_type_mask = type →
  inv_run (isolated d s0) any_stop (dec_page_refcnt p type).
Proof.
  intros Ht s Hs. pose proof Hs as [Hd _].
  unfold dec_page_refcnt. rewrite bind_unfold, gets_run.
  destruct (max_page s <=? p); [done|].
  destruct (frame s p) as [f|] eqn:Hf;
    [|by rewrite bind_unfold, page_flags_wild].
  mrun.
  destruct (Z.eqb_spec (Z.land (flags f) (Z.lor PG_type_mask PG_domain_mask))
              (Z.lor type (current_domain s))) as [Hc|Hc]; cbn [negb];
    [|done].
  rewrite Hd in Hc. apply owner_of_checked in Hc; [|done].
  unfold ASSERT. rewrite assertions. mrun.
  destruct (type_count f =? 0); cbn [negb]; [done|].
  mrun. destruct (u32 (type_count f - 1) =? 0); mrun; cbv beta iota.
  - apply (isolated_update _ _ f); [done|done|done|].
    unfold owner. frame_simpl. apply owner_without_type.
  - by apply (isolated_update _ _ f).
Qed.

Lemma iso_get_page p w : inv_run (isolated d s0) any_stop (get_page p w).
Proof.
  intros s Hs. pose proof Hs as [Hd _].
  unfold get_page. rewrite bind_unfold, gets_run.
  destruct (max_page s <=? p); [done|].
  destruct (frame s p) as [f|] eqn:Hf;
    [|by rewrite bind_unfold, page_flags_wild].
  mrun. fold (owner f) (page_type f).
  destruct (Z.eqb_spec (owner f) (current_domain s)) as [Ho|Ho]; cbn [negb];
    [|done].
  destruct (w =? 0); cbn [negb].
  { mrun. cbv beta iota. apply (isolated_update _ _ f); [done|done|congruence|].
    done. }
  destruct (Z.eqb_spec (page_type f) PGT_writeable_page); cbn [negb].
  - mrun. cbv beta iota.
    apply (isolated_update _ _ f); [done|done|congruence|]. done.
  - mrun. destruct (type_count f =? 0); cbn [negb]; [|done].
    mrun. cbv beta iota.
    apply (isolated_update _ _ f); [done|done|congruence|].
    unfold owner. frame_simpl. apply owner_with_tag, writeable_is_tag.
Qed.

Lemma iso_put_page p w : inv_run (isolated d s0) any_stop (put_page p w).
Proof.
  intros s Hs. pose proof Hs as [Hd _].
  unfold put_page, ASSERT. rewrite assertions.
  rewrite !bind_unfold, gets_run, mret_run.
  destruct (p <? max_page s); [|done].
  rewrite mret_run.
  destruct (frame s p) as [f|] eqn:Hf;
    [|by rewrite !bind_unfold, page_flags_wild].
  mrun. fold (owner f) (page_type f).
  destruct (Z.eqb_spec (owner f) (current_domain s)) as [Ho|Ho]; [|done].
  mrun. destruct (Z.eqb_spec w 0) as [->|Hw]; cbn [negb].
  { mrun. cbv beta iota. by apply (isolated_update _ _ f); [|  |congruence|]. }
  mrun.
  destruct (negb (type_count f =? 0) && _); [|done].
  mrun. destruct (u32 (type_count f - 1) =? 0).
  - rewrite bind_unfold, modify_run, <- with_frame_set_tlb_flush.
    assert (frame (set_tlb_flush 1 s) p = Some f) as Hf' by done.
    assert (isolated d s0 (set_tlb_flush 1 s)) as Hs' by done.
    mrun. cbv beta iota.
    apply (isolated_update _ _ f); [done|done|congruence|].
    unfold owner. frame_simpl. apply owner_without_type.
  - mrun. cbv beta iota. by apply (isolated_update _ _ f); [| |congruence|].
Qed.

Hint Resolve iso_deref iso_page_flags iso_get_page iso_put_page : inv.

Lemma iso_get_l1_entries n p ret :
  inv_run (isolated d s0) any_stop (get_l1_entries n p ret).
Proof.
  revert p ret. induction n as [|n IH]; intros p ret; cbn [get_l1_entries];
    inv_go.
Qed.

Lemma iso_put_l1_entries n p :
  inv_run (isolated d s0) any_stop (put_l1_entries n p).
Proof.
  revert p. induction n as [|n IH]; intros p; cbn [put_l1_entries]; inv_go.
Qed.

Hint Resolve iso_get_l1_entries iso_put_l1_entries : inv.

Lemma iso_get_l1_table p : inv_run (isolated d s0) any_stop (get_l1_table p).
Proof.
  unfold get_l1_table. inv_go. apply iso_inc_page_refcnt, l1_is_tag.
Qed.

Lemma iso_put_l1_table p : inv_run (isolated d s0) any_stop (put_l1_table p).
Proof.
  unfold put_l1_table. inv_go. apply iso_dec_page_refcnt, l1_is_tag.
Qed.

Hint Resolve iso_get_l1_table iso_put_l1_table : inv.

Lemma iso_put_l2_entries n page_nr i p :
  inv_run (isolated d s0) any_stop (put_l2_entries n page_nr i p).
Proof.
  revert i p. induction n as [|n IH]; intros i p; cbn [put_l2_entries];
    inv_go.
Qed.

Hint Resolve iso_put_l2_entries : inv.

Lemma iso_put_l2_table p : inv_run (isolated d s0) any_stop (put_l2_table p).
Proof.
  unfold put_l2_table. inv_go. apply iso_dec_page_refcnt, l2_is_tag.
Qed.

Lemma iso_write_phys p v : inv_run (isolated d s0) any_stop (write_phys p v).
Proof. by intros s Hs. Qed.

Hint Resolve iso_put_l2_table iso_write_phys : inv.

Lemma iso_get_l2_entries n page_nr i p ret :
  inv_run (isolated d s0) any_stop (get_l2_entries n page_nr i p ret).
Proof.
  revert i p ret.
  induction n as [|n IH]; intros i p ret; cbn [get_l2_entries]; inv_go.
Qed.

Lemma iso_copy_idle_entries n dst from :
  inv_run (isolated d s0) any_stop (copy_idle_entries n dst from).
Proof.
  revert dst from.
  induction n as [|n IH]; intros dst from; cbn [copy_idle_entries]; inv_go.
Qed.

Hint Resolve iso_get_l2_entries iso_copy_idle_entries : inv.

Lemma iso_get_l2_table p : inv_run (isolated d s0) any_stop (get_l2_table p).
Proof.
  unfold get_l2_table. inv_go. apply iso_inc_page_refcnt, l2_is_tag.
Qed.

Lemma iso_mod_l1_entry pa new :
  inv_run (isolated d s0) any_stop (mod_l1_entry pa new).
Proof. unfold mod_l1_entry. inv_go. Qed.

Lemma iso_mod_l2_entry pa new :
  inv_run (isolated d s0) any_stop (mod_l2_entry pa new).
Proof. unfold mod_l2_entry. inv_go. Qed.

Hint Resolve iso_get_l2_table iso_mod_l1_entry iso_mod_l2_entry : inv.

Lemma iso_modify (g : machine → machine) :
  (∀ s, frame_table (g s) = frame_table s) →
  (∀ s, current_domain (g s) = current_domain s) →
  inv_run (isolated d s0) any_stop (modify g).
Proof.
  intros Hft Hcd s [Hd Hfr]. rewrite modify_run. split; [by rewrite Hcd|].
  intros x. specialize (Hfr x). unfold frame in *. by rewrite Hft.
Qed.

Lemma iso_set_tlb_flush v :
  inv_run (isolated d s0) any_stop (modify (set_tlb_flush v)).
Proof. by apply iso_modify. Qed.

Lemma iso_set_mm_pagetable v :
  inv_run (isolated d s0) any_stop (modify (set_mm_pagetable v)).
Proof. by apply iso_modify. Qed.

Lemma iso_log_event e :
  inv_run (isolated d s0) any_stop (modify (log_event e)).
Proof. by apply iso_modify. Qed.

Lemma iso_kill {A : Type} msg :
  inv_run (isolated d s0) any_stop (kill_domain_with_errmsg msg : M A).
Proof. by apply inv_run_halt. Qed.

Hint Resolve iso_set_tlb_flush iso_set_mm_pagetable iso_log_event iso_kill
  : inv.

(** A table that [get_l1_table] or [get_l2_table] has taken belongs to the
    domain. *)
Lemma taken_table_is_owned type (walk : Z → M Z) p s s1 :
  (r ← inc_page_refcnt p type;
   if negb (r =? 0) then mret (if r <? 0 then r else 0) else walk r) s
  = Ret 0 s1 →
  ∃ f, frame s p = Some f ∧ owner f = current_domain s.
Proof.
  rewrite bind_unfold.
  destruct (inc_page_refcnt p type s) as [r s'|w s'] eqn:Hinc; [|done].
  destruct (inc_page_refcnt_cases _ _ _ _ _ Hinc)
    as [[-> ->]|(f & Hf & Ho & _)]; [done|].
  intros _. by exists f.
Qed.

Lemma owned_persists s s1 p f :
  isolated d s0 s → isolated d s0 s1 →
  frame s p = Some f → owner f = d →
  ∃ f1, frame s1 p = Some f1 ∧ owner f1 = d.
Proof.
  intros [_ Hfr] [_ Hfr1] Hf Ho. specialize (Hfr p). specialize (Hfr1 p).
  rewrite Hf in Hfr. destruct (frame s0 p) as [f0|]; [|done].
  destruct (frame s1 p) as [f1|]; [|done].
  exists f1. split; [done|]. destruct Hfr, Hfr1. congruence.
Qed.

Lemma iso_mark_as_pinned p s1 f1 :
  isolated d s0 s1 → frame s1 p = Some f1 → owner f1 = d →
  match
    (put_page_type In_do_extended_command p;;
     put_page_tot In_do_extended_command p;;
     cnt ← page_type_count In_do_extended_command p;
     if Z.land cnt REFCNT_PIN_BIT =? 0 then
       assign In_do_extended_command p
         (λ f, set_type_count (Z.lor (type_count f) REFCNT_PIN_BIT) f);;
       assign In_do_extended_command p
         (λ f, set_tot_count (Z.lor (tot_count f) REFCNT_PIN_BIT) f);;
       mret 0
     else mret 1) s1
  with
  | Ret _ s' => isolated d s0 s'
  | Stop w s' => isolated d s0 s' ∧ any_stop w
  end.
Proof.
  intros Hs Hf Ho. mrun. frame_simpl.
  destruct (Z.land (u32 (type_count f1 - 1)) REFCNT_PIN_BIT =? 0).
  - rewrite bind_unfold. erewrite assign_run by eauto with frames.
    rewrite with_frame_twice, bind_unfold.
    erewrite assign_run by eauto with frames.
    rewrite with_frame_twice, mret_run.
    by apply (isolated_update _ _ f1).
  - rewrite mret_run. by apply (isolated_update _ _ f1).
Qed.

Lemma iso_do_extended_command ptr val :
  inv_run (isolated d s0) any_stop (do_extended_command ptr val).
Proof.
  unfold do_extended_command. cbv zeta.
  set (pfn := Z.shiftr ptr PAGE_SHIFT).
  destruct (Z.land val PGEXT_CMD_MASK =? PGEXT_PIN_L1_TABLE).
  { intros s Hs. pose proof Hs as [Hd _]. rewrite bind_unfold.
    pose proof (iso_get_l1_table pfn s Hs) as Hget.
    destruct (get_l1_table pfn s) as [err s1|w s1] eqn:E; [|done].
    destruct (Z.eqb_spec err 0) as [->|]; cbn [negb]; [|done].
    destruct (taken_table_is_owned _ _ _ _ _ E) as (f & Hf & Ho).
    destruct (owned_persists s s1 pfn f) as (f1 & Hf1 & Ho1);
      [done|done|done|congruence|].
    by apply (iso_mark_as_pinned pfn s1 f1). }
  destruct (Z.land val PGEXT_CMD_MASK =? PGEXT_PIN_L2_TABLE).
  { intros s Hs. pose proof Hs as [Hd _]. rewrite bind_unfold.
    pose proof (iso_get_l2_table pfn s Hs) as Hget.
    destruct (get_l2_table pfn s) as [err s1|w s1] eqn:E; [|done].
    destruct (Z.eqb_spec err 0) as [->|]; cbn [negb]; [|done].
    destruct (taken_table_is_owned _ _ _ _ _ E) as (f & Hf & Ho).
    destruct (owned_persists s s1 pfn f) as (f1 & Hf1 & Ho1);
      [done|done|done|congruence|].
    by apply (iso_mark_as_pinned pfn s1 f1). }
  destruct (Z.land val PGEXT_CMD_MASK =? PGEXT_UNPIN_TABLE); [|inv_go].
  intros s Hs. pose proof Hs as [Hd _].
  destruct (frame s pfn) as [f|] eqn:Hf;
    [|by rewrite bind_unfold, page_flags_wild].
  mrun. fold (owner f).
  destruct (Z.eqb_spec (owner f) (current_domain s)) as [Ho|Ho]; cbn [negb];
    [|done].
  mrun. destruct (Z.land (type_count f) REFCNT_PIN_BIT =? 0); cbn [negb];
    [done|].
  rewrite bind_unfold. erewrite assign_run by eauto with frames.
  rewrite bind_unfold. erewrite assign_run by eauto with frames.
  rewrite with_frame_twice. mrun. frame_simpl.
  match goal with
  | |- context [with_frame pfn ?g s] =>
      assert (isolated d s0 (with_frame pfn g s)) as Hs'
        by (by apply (isolated_update _ _ f); [| |congruence|]);
      generalize dependent (with_frame pfn g s)
  end.
  intros S HS.
  destruct (Z.land (flags f) PG_type_mask =? PGT_l1_page_table).
  - pose proof (iso_put_l1_table pfn S HS) as Hput.
    by destruct (put_l1_table pfn S) as [[] s2|w s2].
  - rewrite bind_unfold. pose proof (iso_put_l2_table pfn S HS) as Hput.
    by destruct (put_l2_table pfn S) as [r s2|w s2].
Qed.

Hint Resolve iso_do_extended_command : inv.

Lemma iso_process_request cur :
  inv_run (isolated d s0) any_stop (process_request cur).
Proof. unfold process_request, demux_request, report_request. inv_go. Qed.

Hint Resolve iso_process_request : inv.

Lemma iso_process_updates n updates i :
  inv_run (isolated d s0) any_stop (process_updates n updates i).
Proof.
  revert i. induction n as [|n IH]; intros i; cbn [process_updates];
    inv_go.
Qed.

Lemma iso_do_process_page_updates updates count :
  inv_run (isolated d s0) any_stop (do_process_page_updates updates count).
Proof.
  unfold do_process_page_updates, flush_if_pending. inv_go.
  apply iso_process_updates.
Qed.

End Isolation.

Section Apart.
Context `{PlatformLaws}.

(** A batch leaves the frames of other domains alone. In a build with
    [ASSERT], and for a domain whose identifier fits the owner field,
    whatever the requests and however the batch ends (it returns, or the
    domain is killed, or an assertion fails): no frame has changed owner,
    and the record of every frame that the domain does not own, its counts
    and its type, is as before the batch. *)
Theorem page_updates_leave_other_domains_alone
    (updates : list page_update_request_t) (count : Z) (s : machine) :
  NDEBUG = false →
  Z.land (current_domain s) PG_domain_mask = current_domain s →
  let s' := final_state (do_process_page_updates updates count s) in
  current_domain s' = current_domain s
  ∧ max_page s' = max_page s
  ∧ ∀ x f0, frame s x = Some f0 →
      ∃ f, frame s' x = Some f ∧ owner f = owner f0
           ∧ (owner f0 ≠ current_domain s → f = f0).
Proof.
  intros Hassert Hfits s'.
  assert (isolated (current_domain s) s s) as Hrefl.
  { split; [done|]. intros x. by destruct (frame s x). }
  pose proof (iso_do_process_page_updates (current_domain s) s Hfits Hassert
                updates count s Hrefl) as Hrun.
  assert (isolated (current_domain s) s s') as [Hd Hfr].
  { unfold s'. destruct (do_process_page_updates updates count s);
      [done|by destruct Hrun]. }
  split; [done|]. split.
  - destruct (Z.lt_ge_cases (max_page s') (max_page s)) as [Hlt|Hge].
    + pose proof (Hfr (max_page s')) as Hx. unfold max_page in *.
      destruct (frame_in_range s (Z.of_nat (length (frame_table s'))))
        as [f Hf]; [unfold max_page; lia|].
      unfold max_page in Hf. rewrite Hf in Hx.
      destruct (frame s' (Z.of_nat (length (frame_table s')))) as [f'|] eqn:E;
        [|done].
      apply frame_Some_range in E. unfold max_page in E. lia.
    + destruct (Z.eq_dec (max_page s') (max_page s)) as [|Hne]; [done|].
      pose proof (Hfr (max_page s)) as Hx.
      destruct (frame_in_range s' (max_page s)) as [f Hf];
        [unfold max_page in *; lia|].
      rewrite Hf in Hx.
      destruct (frame s (max_page s)) as [f'|] eqn:E; [|done].
      apply frame_Some_range in E. lia.
  - intros x f0 Hf0. specialize (Hfr x). rewrite Hf0 in Hfr.
    destruct (frame s' x) as [f|]; [|done]. by exists f.
Qed.

End Apart.

(** * The frame table at start of day *)

Section Boot.
Context `{Layout}.

Lemma add_free_pages_run fuel :
  ∀ page_index nr_pages free,
    0 ≤ page_index → nr_pages < 2 ^ 32 →
    nr_pages - page_index ≤ Z.of_nat fuel →
    add_free_pages fuel page_index nr_pages free
    = free ++ seqZ page_index (nr_pages - page_index).
Proof.
  induction fuel as [|fuel IH]; intros page_index nr_pages free Hp Hn Hfuel;
    cbn [add_free_pages].
  { rewrite seqZ_nil by lia. by rewrite app_nil_r. }
  destruct (Z.ltb_spec page_index nr_pages) as [Hlt|Hge].
  - rewrite (u32_small (page_index + 1)) by lia.
    rewrite IH by lia. rewrite <- app_assoc. cbn [app]. f_equal.
    rewrite (seqZ_cons page_index) by lia. f_equal. f_equal; lia.
  - rewrite seqZ_nil by lia. by rewrite app_nil_r.
Qed.

Lemma land_page_mask x :
  0 ≤ x < 2 ^ 32 → Z.land x PAGE_MASK = PAGE_SIZE * (x `div` PAGE_SIZE).
Proof.
  intros Hx. unfold PAGE_SIZE. change 4096 with (2 ^ 12).
  rewrite <- Z.shiftr_div_pow2, Z.mul_comm, <- Z.shiftl_mul_pow2 by lia.
  apply Z.bits_inj'. intros n Hn. rewrite Z.land_spec.
  change PAGE_MASK with (Z.shiftl (Z.ones 20) 12).
  destruct (Z.lt_ge_cases n 12) as [Hlow|Hhigh].
  - rewrite !Z.shiftl_spec_low by lia. apply andb_false_r.
  - rewrite !Z.shiftl_spec, Z.shiftr_spec by lia.
    replace (n - 12 + 12) with n by lia.
    destruct (Z.lt_ge_cases n 32).
    + rewrite Z.ones_spec_low by lia. apply andb_true_r.
    + rewrite (bits_above_word x n) by lia. done.
Qed.

Lemma first_free_range (nr_pages : Z) :
  0 ≤ Z.shiftr (u32 (MAX_MONITOR_ADDRESS
                     + boot_frame_table_size (init_frametable nr_pages)))
               PAGE_SHIFT < 2 ^ 32.
Proof.
  pose proof (u32_range (MAX_MONITOR_ADDRESS
    + boot_frame_table_size (init_frametable nr_pages))) as Hu.
  rewrite Z.shiftr_div_pow2 by (unfold PAGE_SHIFT; lia).
  unfold PAGE_SHIFT. split; [apply Z.div_pos; lia|].
  apply Z.div_lt_upper_bound; lia.
Qed.

Lemma free_list_is_range (nr_pages : Z) :
  0 ≤ nr_pages < 2 ^ 32 →
  let first_free :=
    Z.shiftr (u32 (MAX_MONITOR_ADDRESS
                   + boot_frame_table_size (init_frametable nr_pages)))
             PAGE_SHIFT in
  free_list (init_frametable nr_pages)
  = seqZ first_free (nr_pages - first_free).
Proof.
  intros Hn first_free. pose proof (first_free_range nr_pages) as Hff.
  fold first_free in Hff.
  change (add_free_pages (Z.to_nat nr_pages) first_free nr_pages []
          = seqZ first_free (nr_pages - first_free)).
  by rewrite add_free_pages_run by lia.
Qed.

(** [init_frametable] puts on the free list the frames from the first one
    past the monitor and the frame table up to [nr_pages], in rising order
    and each once. [free_pfns] is their number when there is such a frame
    or none is needed; on a machine too small to hold the monitor and the
    frame table the list is empty while [free_pfns] has wrapped around. *)
Theorem init_frametable_free_list (nr_pages : Z) :
  0 ≤ nr_pages < 2 ^ 32 →
  let g := init_frametable nr_pages in
  let first_free :=
    Z.shiftr (u32 (MAX_MONITOR_ADDRESS + boot_frame_table_size g))
             PAGE_SHIFT in
  boot_max_page g = nr_pages
  ∧ free_list g = seqZ first_free (nr_pages - first_free)
  ∧ (first_free ≤ nr_pages →
     boot_free_pfns g = Z.of_nat (length (free_list g)))
  ∧ (nr_pages < first_free →
     free_list g = []
     ∧ boot_free_pfns g = 2 ^ 32 - (first_free - nr_pages)).
Proof.
  intros Hn g first_free.
  assert (0 ≤ first_free < 2 ^ 32) as Hff by apply first_free_range.
  assert (free_list g = seqZ first_free (nr_pages - first_free)) as Hlist
    by by apply free_list_is_range.
  split; [done|]. split; [done|]. split.
  - intros Hle. rewrite Hlist, length_seqZ.
    change (boot_free_pfns g) with (u32 (nr_pages - first_free)).
    rewrite u32_small by lia. lia.
  - intros Hlt. split; [rewrite Hlist; apply seqZ_nil; lia|].
    change (boot_free_pfns g) with (u32 (nr_pages - first_free)).
    unfold u32.
    replace (nr_pages - first_free)
      with (2 ^ 32 - (first_free - nr_pages) + -1 * 2 ^ 32) by lia.
    rewrite Z.mod_add by lia. apply Z.mod_small. lia.
Qed.

(** When the monitor ends on a page boundary and the monitor and the frame
    table fit the address space, no frame on the free list overlaps the
    monitor or the frame table, and the frame table holds a cleared record
    for every frame. *)
Theorem init_frametable_keeps_the_table_off_the_free_list (nr_pages : Z) :
  0 ≤ nr_pages → 0 < sizeof_pfn_info →
  0 ≤ MAX_MONITOR_ADDRESS → MAX_MONITOR_ADDRESS `mod` PAGE_SIZE = 0 →
  MAX_MONITOR_ADDRESS + nr_pages * sizeof_pfn_info + PAGE_SIZE ≤ 2 ^ 32 →
  let g := init_frametable nr_pages in
  (∀ p, p ∈ free_list g →
        MAX_MONITOR_ADDRESS + nr_pages * sizeof_pfn_info ≤ p * PAGE_SIZE
        ∧ p < nr_pages)
  ∧ nr_pages ≤ Z.of_nat (length (zeroed_records g))
  ∧ ∀ i r, zeroed_records g !! i = Some r → r = zero_record.
Proof.
  intros Hn Hsz Hmon Halign Hfit g.
  assert (nr_pages < 2 ^ 32) as Hn32 by (unfold PAGE_SIZE in *; nia).
  set (size0 := nr_pages * sizeof_pfn_info) in *.
  assert (0 ≤ size0) as Hs0 by (unfold size0; nia).
  assert (boot_frame_table_size g
          = PAGE_SIZE * ((size0 + PAGE_SIZE - 1) `div` PAGE_SIZE)) as Hsize.
  { unfold g, init_frametable. cbn [boot_frame_table_size]. fold size0.
    unfold PAGE_SIZE in *.
    rewrite (u32_small size0) by lia.
    rewrite (u32_small (size0 + 4096 - 1)) by lia.
    apply (land_page_mask (size0 + 4096 - 1)). lia. }
  assert (size0 ≤ boot_frame_table_size g ≤ size0 + PAGE_SIZE - 1) as Hb.
  { rewrite Hsize. unfold PAGE_SIZE.
    pose proof (Z.div_mod (size0 + 4096 - 1) 4096 ltac:(lia)) as Hdm.
    pose proof (Z.mod_pos_bound (size0 + 4096 - 1) 4096 ltac:(lia)). lia. }
  pose proof (free_list_is_range nr_pages ltac:(lia)) as Hlist.
  cbv zeta in Hlist. fold g in Hlist.
  set (first_free := Z.shiftr (u32 (MAX_MONITOR_ADDRESS
                                    + boot_frame_table_size g)) PAGE_SHIFT)
    in *.
  assert (first_free * PAGE_SIZE
          = MAX_MONITOR_ADDRESS + boot_frame_table_size g) as Hfirst.
  { unfold first_free, PAGE_SHIFT, PAGE_SIZE in *.
    rewrite u32_small by lia. rewrite Z.shiftr_div_pow2 by lia.
    change (2 ^ 12) with 4096.
    pose proof (Z.div_mod (MAX_MONITOR_ADDRESS + boot_frame_table_size g)
                  4096 ltac:(lia)) as Hdm.
    assert ((MAX_MONITOR_ADDRESS + boot_frame_table_size g) `mod` 4096 = 0)
      as Hz.
    { rewrite Hsize, Z.add_mod, Halign by lia.
      rewrite (Z.mul_comm 4096), Z.mod_mul by lia. done. }
    lia. }
  split; [|split].
  - intros p Hp. rewrite Hlist in Hp. apply elem_of_seqZ in Hp.
    unfold PAGE_SIZE in *. lia.
  - unfold g, init_frametable. cbn [zeroed_records]. fold size0.
    rewrite length_replicate.
    change (Z.land _ PAGE_MASK) with (boot_frame_table_size g).
    assert (nr_pages ≤ boot_frame_table_size g `div` sizeof_pfn_info).
    { apply Z.div_le_lower_bound; [lia|]. unfold size0 in Hb. lia. }
    lia.
  - intros i r Hr. unfold g, init_frametable in Hr. cbn [zeroed_records] in Hr.
    by apply lookup_replicate in Hr as [-> _].
Qed.

End Boot.

(** * What an accepted table holds *)

Section Validation.
Context `{PlatformLaws}.

Lemma isolated_self s : isolated (current_domain s) s s.
Proof. split; [done|]. intros x. by destruct (frame s x). Qed.

Lemma isolated_step d sa sb sc :
  isolated d sa sb → isolated d sb sc → isolated d sa sc.
Proof.
  intros [Hd1 H1] [Hd2 H2]. split; [done|]. intros x.
  specialize (H1 x). specialize (H2 x).
  destruct (frame sa x) as [fa|], (frame sb x) as [fb|],
    (frame sc x) as [fc|]; try done.
  destruct H1 as [Ho1 Hk1], H2 as [Ho2 Hk2]. split; [congruence|].
  intros Hne. rewrite Hk2 by congruence. by apply Hk1.
Qed.

(** An owner found after a run was the owner before it. *)
Lemma owner_before d sa sb x g :
  isolated d sa sb → frame sb x = Some g →
  ∃ g0, frame sa x = Some g0 ∧ owner g0 = owner g.
Proof.
  intros [_ Hfr] Hg. specialize (Hfr x). rewrite Hg in Hfr.
  destruct (frame sa x) as [g0|]; [|done]. exists g0. by destruct Hfr.
Qed.

Lemma accepted_l1_entries n :
  ∀ p ret s s',
    get_l1_entries n p ret s = Ret 0 s' →
    phys_mem s' = phys_mem s
    ∧ isolated (current_domain s) s s'
    ∧ ∀ k, 0 ≤ k < Z.of_nat n →
        let e := phys_mem s (p + sizeof_pgentry * k) in
        Z.land e _PAGE_PRESENT ≠ 0 →
        Z.land e (Z.lor _PAGE_GLOBAL _PAGE_PAT) = 0
        ∧ ∃ g, frame s (l1_pgentry_to_pagenr e) = Some g
               ∧ owner g = current_domain s.
Proof.
  unfold sizeof_pgentry.
  induction n as [|n IH]; intros p ret s s'; cbn [get_l1_entries].
  { rewrite mret_run. intros [= _ <-]. split; [done|].
    split; [apply isolated_self|]. intros k Hk. lia. }
  rewrite bind_unfold. unfold read_phys at 1. rewrite gets_run.
  unfold sizeof_pgentry.
  destruct (Z.eqb_spec (Z.land (phys_mem s p) _PAGE_PRESENT) 0) as [Hnp|Hp].
  { intros Hrun. destruct (IH _ _ _ _ Hrun) as (Hm & Hi & Hk).
    split; [done|]. split; [done|]. intros k Hk0. set (e := phys_mem s (p + 4 * k)). intros He.
    destruct (Z.eq_dec k 0) as [->|Hne].
    - unfold e in He. by rewrite Z.mul_0_r, Z.add_0_r in He.
    - unfold e in *. replace (p + 4 * k) with (p + 4 + 4 * (k - 1)) in * by lia.
      apply Hk; [lia|done]. }
  destruct (Z.eqb_spec (Z.land (phys_mem s p) (Z.lor _PAGE_GLOBAL _PAGE_PAT))
              0) as [Hbits|Hbits]; cbn [negb]; [|by rewrite mret_run].
  rewrite bind_unfold.
  pose proof (iso_get_page (current_domain s) s
                (l1_pgentry_to_pagenr (phys_mem s p))
                (Z.land (phys_mem s p) _PAGE_RW) s (isolated_self s)) as Hiso.
  pose proof (get_page_keeps_memory (phys_mem s)
                (l1_pgentry_to_pagenr (phys_mem s p))
                (Z.land (phys_mem s p) _PAGE_RW) s eq_refl) as Hmem.
  destruct (get_page _ _ s) as [r s1|w s1] eqn:Hget; [|done].
  destruct (Z.eqb_spec r 0) as [->|Hr]; cbn [negb];
    [|rewrite mret_run; by intros [= ? _]].
  intros Hrun. destruct (IH _ _ _ _ Hrun) as (Hm & Hi & Hk).
  pose proof Hiso as [Hd1 _]. unfold memory_is in Hmem.
  rewrite Hd1 in Hi. rewrite Hmem in Hm, Hk.
  split; [done|]. split; [by eapply isolated_step|].
  intros k Hk0. set (e := phys_mem s (p + 4 * k)). intros He. destruct (Z.eq_dec k 0) as [->|Hne].
  - unfold e in *. rewrite Z.mul_0_r, Z.add_0_r in *. split; [done|].
    destruct (get_page_success_frame _ _ _ _ Hget) as [g Hg].
    exists g. split; [done|].
    by destruct (get_page_success _ _ _ _ g Hg Hget) as [? _].
  - unfold e in *. replace (p + 4 * k) with (p + 4 + 4 * (k - 1)) in * by lia.
    destruct (Hk (k - 1)) as (Hb & g & Hg & Ho); [lia|done|].
    split; [done|].
    destruct (owner_before _ _ _ _ _ Hiso Hg) as (g0 & Hg0 & Ho0).
    exists g0. split; [done|]. congruence.
Qed.

(** A frame that [get_l1_table] takes for the first time, and accepts, has
    been checked entry by entry: no present entry of it has the global or
    the PAT bit, and every present entry maps a frame of the table that
    the current domain owns. *)
Theorem accepted_l1_table_maps_frames_of_the_domain (s s' : machine)
    (page_nr : Z) (f : pfn_info) :
  frame s page_nr = Some f → type_count f = 0 →
  get_l1_table page_nr s = Ret 0 s' →
  ∀ k, 0 ≤ k < ENTRIES_PER_L1_PAGETABLE →
    let e := phys_mem s (map_domain_mem (page_address page_nr)
                         + sizeof_pgentry * k) in
    Z.land e _PAGE_PRESENT ≠ 0 →
    Z.land e (Z.lor _PAGE_GLOBAL _PAGE_PAT) = 0
    ∧ ∃ g, frame s (l1_pgentry_to_pagenr e) = Some g
           ∧ owner g = current_domain s.
Proof.
  intros Hf Hc Hrun k Hk e He. revert Hrun.
  unfold get_l1_table. rewrite bind_unfold.
  destruct (Z.eq_dec (owner f) (current_domain s)) as [Ho|Ho]; cycle 1.
  { by rewrite (inc_page_refcnt_wrong_domain _ _ _ f). }
  rewrite (inc_page_refcnt_success _ _ _ f) by auto.
  rewrite Hc. change (to_int 0) with 0. cbn [Z.eqb negb].
  set (s1 := with_frame page_nr (acquired PGT_l1_page_table f) s).
  intros Hwalk.
  destruct (accepted_l1_entries _ _ _ _ _ Hwalk) as (_ & _ & Hall).
  destruct (Hall k ltac:(lia) He) as (Hbits & g & Hg & Hog).
  split; [done|].
  pose proof (frame_Some_range _ _ _ Hf) as Hr.
  destruct (Z.eq_dec (l1_pgentry_to_pagenr e) page_nr) as [E|E].
  - exists f. by rewrite E.
  - exists g. split; [|done]. unfold s1 in Hg.
    rewrite frame_with_frame_ne in Hg; [done|lia|].
    intros X. by apply E.
Qed.

Lemma accepted_l2_entries page_nr n :
  ∀ i p ret s p' r' s',
    0 ≤ i → 4 * (i + Z.of_nat n) < PAGE_SIZE →
    p = map_domain_mem (page_address page_nr) + sizeof_pgentry * i →
    get_l2_entries n page_nr i p ret s = Ret (Finished p' r') s' →
    phys_mem s' = phys_mem s
    ∧ isolated (current_domain s) s s'
    ∧ ∀ k, 0 ≤ k < Z.of_nat n →
        let e := phys_mem s (p + sizeof_pgentry * k) in
        Z.land e _PAGE_PRESENT ≠ 0 →
        Z.land e (Z.lor _PAGE_GLOBAL _PAGE_PSE) = 0
        ∧ ∃ g, frame s (l2_pgentry_to_pagenr e) = Some g
               ∧ owner g = current_domain s.
Proof.
  pose proof (page_address_bound page_nr) as Hb.
  unfold map_domain_mem, sizeof_pgentry, PAGE_SIZE in *.
  induction n as [|n IH]; intros i p ret s p' r' s' Hi Hn Hp;
    cbn [get_l2_entries].
  { rewrite mret_run. intros [= _ _ <-]. split; [done|].
    split; [apply isolated_self|]. intros k Hk. lia. }
  rewrite bind_unfold. unfold read_phys at 1. rewrite gets_run.
  unfold sizeof_pgentry.
  destruct (Z.eqb_spec (Z.land (phys_mem s p) _PAGE_PRESENT) 0) as [Hnp|Hpr].
  { intros Hrun.
    destruct (IH (i + 1) (p + 4) ret s p' r' s') as (Hm & Hiso & Hk);
      [lia|lia|lia|done|].
    split; [done|]. split; [done|]. intros k Hk0. set (e := phys_mem s (p + 4 * k)). intros He.
    destruct (Z.eq_dec k 0) as [->|Hne].
    - unfold e in He. by rewrite Z.mul_0_r, Z.add_0_r in He.
    - unfold e in *. replace (p + 4 * k) with (p + 4 + 4 * (k - 1)) in * by lia.
      apply Hk; [lia|done]. }
  destruct (Z.eqb_spec (Z.land (phys_mem s p) (Z.lor _PAGE_GLOBAL _PAGE_PSE))
              0) as [Hbits|Hbits]; cbn [negb]; [|by rewrite mret_run].
  rewrite bind_unfold.
  pose proof (iso_get_l1_table (current_domain s) s
                (l2_pgentry_to_pagenr (phys_mem s p)) s (isolated_self s))
    as Hiso.
  pose proof (get_l1_table_keeps_memory (phys_mem s)
                (l2_pgentry_to_pagenr (phys_mem s p)) s eq_refl) as Hmem.
  destruct (get_l1_table _ s) as [r s1|w s1] eqn:Hget; [|done].
  destruct (Z.eqb_spec r 0) as [->|Hr]; cbn [negb]; [|by rewrite mret_run].
  unfold map_domain_mem. intros Hrun.
  assert (u32 (page_address page_nr + (i + 1) * 4) = p + 4) as Hnext
    by (unfold u32; rewrite Z.mod_small; lia).
  rewrite Hnext in Hrun.
  destruct (IH (i + 1) (p + 4) 0 s1 p' r' s') as (Hm & Hi1 & Hk);
    [lia|lia|lia|done|].
  pose proof Hiso as [Hd1 _]. unfold memory_is in Hmem.
  rewrite Hd1 in Hi1. rewrite Hmem in Hm, Hk.
  split; [done|]. split; [by eapply isolated_step|].
  intros k Hk0. set (e := phys_mem s (p + 4 * k)). intros He. destruct (Z.eq_dec k 0) as [->|Hne].
  - unfold e in *. rewrite Z.mul_0_r, Z.add_0_r in *. split; [done|].
    unfold get_l1_table in Hget.
    by apply taken_table_is_owned in Hget.
  - unfold e in *. replace (p + 4 * k) with (p + 4 + 4 * (k - 1)) in * by lia.
    destruct (Hk (k - 1)) as (Hb' & g & Hg & Ho); [lia|done|].
    split; [done|].
    destruct (owner_before _ _ _ _ _ Hiso Hg) as (g0 & Hg0 & Ho0).
    exists g0. split; [done|]. congruence.
Qed.

(** The same for a directory that [get_l2_table] takes for the first time
    and accepts: no present entry of its guest slots has the global or the
    PSE bit, and every one of them points at a frame of the table that the
    current domain owns. *)
Theorem accepted_directory_points_at_frames_of_the_domain (s s' : machine)
    (page_nr : Z) (f : pfn_info) :
  0 ≤ DOMAIN_ENTRIES_PER_L2_PAGETABLE →
  4 * DOMAIN_ENTRIES_PER_L2_PAGETABLE < PAGE_SIZE →
  frame s page_nr = Some f → type_count f = 0 →
  get_l2_table page_nr s = Ret 0 s' →
  ∀ k, 0 ≤ k < DOMAIN_ENTRIES_PER_L2_PAGETABLE →
    let e := phys_mem s (map_domain_mem (page_address page_nr)
                         + sizeof_pgentry * k) in
    Z.land e _PAGE_PRESENT ≠ 0 →
    Z.land e (Z.lor _PAGE_GLOBAL _PAGE_PSE) = 0
    ∧ ∃ g, frame s (l2_pgentry_to_pagenr e) = Some g
           ∧ owner g = current_domain s.
Proof.
  intros HD0 HD Hf Hc Hrun k Hk e He. revert Hrun.
  unfold get_l2_table. rewrite bind_unfold.
  destruct (Z.eq_dec (owner f) (current_domain s)) as [Ho|Ho]; cycle 1.
  { by rewrite (inc_page_refcnt_wrong_domain _ _ _ f). }
  rewrite (inc_page_refcnt_success _ _ _ f) by auto.
  rewrite Hc. change (to_int 0) with 0. cbn [Z.eqb negb].
  set (s1 := with_frame page_nr (acquired PGT_l2_page_table f) s).
  rewrite bind_unfold.
  destruct (get_l2_entries _ page_nr 0 _ 0 s1) as [[r|p' r'] s2|w s2]
    eqn:Hwalk; [| |done].
  { rewrite mret_run. intros [= -> <-]. exfalso. revert Hwalk. clear.
    generalize (map_domain_mem (page_address page_nr)) as p.
    generalize 0 at 1 as i. generalize 0 at 1 as ret.
    generalize s1. clear s1.
    induction (Z.to_nat DOMAIN_ENTRIES_PER_L2_PAGETABLE) as [|n IH];
      intros s1 ret i p; cbn [get_l2_entries]; [by rewrite mret_run|].
    rewrite bind_unfold. unfold read_phys at 1. rewrite gets_run.
    destruct (Z.land (phys_mem s1 p) _PAGE_PRESENT =? 0); [apply IH|].
    destruct (Z.land (phys_mem s1 p) (Z.lor _PAGE_GLOBAL _PAGE_PSE) =? 0);
      cbn [negb]; [|by rewrite mret_run].
    rewrite bind_unfold.
    destruct (get_l1_table _ s1) as [r s3|w s3]; [|done].
    destruct (Z.eqb_spec r 0) as [->|Hr]; cbn [negb]; [apply IH|].
    rewrite mret_run. by intros [= E _]. }
  intros _.
  destruct (accepted_l2_entries page_nr
              (Z.to_nat DOMAIN_ENTRIES_PER_L2_PAGETABLE) 0
              (map_domain_mem (page_address page_nr)) 0 s1 p' r' s2)
    as (_ & _ & Hall); [lia|lia|unfold sizeof_pgentry; lia|done|].
  destruct (Hall k ltac:(lia) He) as (Hbits & g & Hg & Hog).
  split; [done|].
  pose proof (frame_Some_range _ _ _ Hf) as Hr.
  destruct (Z.eq_dec (l2_pgentry_to_pagenr e) page_nr) as [E|E].
  - exists f. by rewrite E.
  - exists g. split; [|done]. unfold s1 in Hg.
    rewrite frame_with_frame_ne in Hg; [done|lia|].
    intros X. by apply E.
Qed.

End Validation.

(** * The theorems at work on the i386 constants *)

Section I386.
#[local] Existing Instance xeno_i386.

(** The hypothesis of C1 on the frame is needed. Frame 1 of
    [unreferenced_l2] has no typed reference and yet carries the tag of an
    L2 table, which no release in this file leaves behind. A request for an
    L1 table succeeds on it, and [page->flags |= type] leaves the OR of the
    two tags. *)
Lemma inc_page_refcnt_keeps_old_type_bits :
  (owner <$> frame unreferenced_l2 1) = Some (current_domain unreferenced_l2)
  ∧ (type_count <$> frame unreferenced_l2 1) = Some 0
  ∧ (page_type <$> frame unreferenced_l2 1) = Some PGT_l2_page_table
  ∧ returned (inc_page_refcnt 1 PGT_l1_page_table unreferenced_l2) = Some 0
  ∧ (page_type <$> frame (final_state (inc_page_refcnt 1 PGT_l1_page_table
                                         unreferenced_l2)) 1)
    = Some (Z.lor PGT_l2_page_table PGT_l1_page_table)
  ∧ Z.lor PGT_l2_page_table PGT_l1_page_table ≠ PGT_l1_page_table.
Proof. vm_compute. by repeat split. Qed.

Lemma inc_page_refcnt_acquire_witness :
  ∃ f', inc_page_refcnt 1 PGT_l2_page_table l2_with_back_reference
        = Ret 0 (with_frame 1 f' l2_with_back_reference)
    ∧ page_type f' = PGT_l2_page_table
    ∧ tot_count f' = 1 ∧ type_count f' = 1.
Proof.
  assert (Z.land PGT_l2_page_table PG_type_mask = PGT_l2_page_table)
    as Htag by reflexivity.
  destruct (inc_page_refcnt_acquire l2_with_back_reference 1
              PGT_l2_page_table Htag) as [_ Hin].
  destruct (Hin (mk_frame 5 0 0) eq_refl (λ _, eq_refl)) as (_ & _ & Hok).
  destruct Hok as (f' & Hrun & Hty & _ & Htot & Hcnt & _);
    [reflexivity|by right|].
  exists f'. split; [exact Hrun|]. split; [exact Hty|by split].
Defined.

(** C2, counterexample. In [l1_with_writeable_pte] the entry at 4096 maps
    frame 2 writeable; the new entry maps frame 3, which another domain
    owns. [mod_l1_entry] fails, yet frame 2 has lost its reference and its
    type and the flush flag is set. In [l2_and_table_with_foreign_pte]
    [mod_l2_entry] fails in the walk of the new table, frame 2, which keeps
    the type and the reference taken before the walk. *)
Lemma failed_modification_changes_frame_table :
  (returned (mod_l1_entry 4096 (3 * 4096 + 1) l1_with_writeable_pte)
   = Some (-1)
   ∧ frame l1_with_writeable_pte 2 = Some (mk_frame (117440512 + 5) 1 1)
   ∧ frame (final_state (mod_l1_entry 4096 (3 * 4096 + 1)
                           l1_with_writeable_pte)) 2
     = Some (mk_frame 5 0 0)
   ∧ tlb_flush l1_with_writeable_pte = 0
   ∧ tlb_flush (final_state (mod_l1_entry 4096 (3 * 4096 + 1)
                               l1_with_writeable_pte)) = 1)
  ∧ (returned (mod_l2_entry 4096 (2 * 4096 + 1)
                 l2_and_table_with_foreign_pte) = Some (-1)
     ∧ frame l2_and_table_with_foreign_pte 2 = Some (mk_frame 5 0 0)
     ∧ frame (final_state (mod_l2_entry 4096 (2 * 4096 + 1)
                             l2_and_table_with_foreign_pte)) 2
       = Some (mk_frame (16777216 + 5) 1 1)).
Proof. vm_compute. by repeat split. Qed.

Lemma failed_modification_restores_entry_witness :
  phys_mem (final_state (mod_l1_entry 4096 (3 * 4096 + 1)
                           l1_with_writeable_pte))
  = phys_mem l1_with_writeable_pte
  ∧ ∀ a, phys_mem (final_state (mod_l2_entry 4096 (2 * 4096 + 1)
                                  l2_and_table_with_foreign_pte)) a
         = phys_mem l2_and_table_with_foreign_pte a.
Proof.
  split.
  - apply (failed_modification_restores_entry l1_with_writeable_pte
             (final_state (mod_l1_entry 4096 (3 * 4096 + 1)
                             l1_with_writeable_pte))
             4096 (3 * 4096 + 1) (-1)); [lia|].
    vm_compute. reflexivity.
  - apply (failed_modification_restores_entry l2_and_table_with_foreign_pte
             (final_state (mod_l2_entry 4096 (2 * 4096 + 1)
                             l2_and_table_with_foreign_pte))
             4096 (2 * 4096 + 1) (-1)); [lia|].
    vm_compute. reflexivity.
Defined.

(** C3, evaluated. Slot 16 of a directory is one of the guest's
    ([16 < DOMAIN_ENTRIES_PER_L2_PAGETABLE]). [put_l2_table] drops the last
    reference of the directory in frame 1 and returns 0, but the L1 table in
    frame 2, to which the present entry in slot 16 points, keeps its
    reference: the loop stops at [HYPERVISOR_ENTRIES_PER_L2_PAGETABLE]. The
    same entry in slot 15 is released. *)
Lemma put_l2_table_stops_at_hypervisor_entries :
  HYPERVISOR_ENTRIES_PER_L2_PAGETABLE ≤ 16 < DOMAIN_ENTRIES_PER_L2_PAGETABLE
  ∧ returned (put_l2_table 1 (l2_with_entry 16)) = Some 0
  ∧ frame (final_state (put_l2_table 1 (l2_with_entry 16))) 1
    = Some (mk_frame 5 0 0)
  ∧ frame (final_state (put_l2_table 1 (l2_with_entry 16))) 2
    = Some (mk_frame (16777216 + 5) 1 1)
  ∧ frame (final_state (put_l2_table 1 (l2_with_entry 15))) 2
    = Some (mk_frame 5 0 0).
Proof. vm_compute. by repeat split. Qed.

(** The hypothesis of C4 on the identifier is needed. [0x01000000], the
    value of [PGT_l1_page_table], does not fit the 24 bits of the owner
    field; were it the identifier of the current domain, the test
    [(flags | current->domain) == PGT_l1_page_table] would hold of frame 1,
    which has owner field 0 and no type, and [val] would be written. *)
Lemma unchecked_update_accepted_from_nonzero_domain :
  current_domain domain_numbered_like_l1_tag ≠ 0
  ∧ (page_type <$> frame domain_numbered_like_l1_tag 1) = Some PGT_none
  ∧ returned (process_request {| ptr := 4096 + 1; val := 4919 |}
                domain_numbered_like_l1_tag) = Some tt
  ∧ phys_mem (final_state (process_request {| ptr := 4096 + 1; val := 4919 |}
                             domain_numbered_like_l1_tag)) 4096 = 4919.
Proof. vm_compute. by repeat split. Qed.

(** C6, evaluated. Frame 1 of [l2_with_back_reference] is pinned as an L2
    table and unpinned at once; both requests succeed. The L1 table hanging
    off slot 16 maps frame 1 read-only, which the pin counts in [tot_count];
    the unpin walks 16 slots only and never gives it back. *)
Lemma pin_l2_then_unpin_leaves_a_reference :
  frame l2_with_back_reference 1 = Some (mk_frame 5 0 0)
  ∧ returned (do_process_page_updates
                [{| ptr := 4096 + 2; val := PGEXT_PIN_L2_TABLE |};
                 {| ptr := 4096 + 2; val := PGEXT_UNPIN_TABLE |}] 2
                l2_with_back_reference) = Some 0
  ∧ frame (final_state (do_process_page_updates
                [{| ptr := 4096 + 2; val := PGEXT_PIN_L2_TABLE |}] 1
                l2_with_back_reference)) 1
    = Some (mk_frame (33554432 + 5) (1073741824 + 1) 1073741824)
  ∧ frame (final_state (do_process_page_updates
                [{| ptr := 4096 + 2; val := PGEXT_PIN_L2_TABLE |};
                 {| ptr := 4096 + 2; val := PGEXT_UNPIN_TABLE |}] 2
                l2_with_back_reference)) 1
    = Some (mk_frame 5 1 0).
Proof. vm_compute. by repeat split. Qed.

Lemma dec_page_refcnt_release_witness :
  ∃ f', dec_page_refcnt 2 PGT_l1_page_table (l2_with_entry 16)
        = Ret 0 (with_frame 2 f' (l2_with_entry 16))
    ∧ type_count f' = 0 ∧ tot_count f' = 0 ∧ page_type f' = PGT_none.
Proof.
  destruct (dec_page_refcnt_release (l2_with_entry 16) 2 PGT_l1_page_table
              (mk_frame (16777216 + 5) 1 1))
    as (f' & Hrun & Hcnt & Htot & Hz & _ & _);
    [reflexivity|reflexivity|reflexivity|done|].
  assert (type_count f' = 0) as Hc0 by exact Hcnt.
  exists f'. rewrite Hrun, Hc0. split; [reflexivity|].
  split; [reflexivity|]. split; [exact Htot|]. by apply Hz.
Defined.

Lemma put_page_schedules_flush_witness :
  (∃ f' s', put_page 2 _PAGE_RW l1_with_writeable_pte = Ret tt s'
     ∧ frame s' 2 = Some f' ∧ page_type f' = PGT_none ∧ tlb_flush s' = 1)
  ∧ ∃ s', do_process_page_updates [{| ptr := 4096; val := 0 |}] 1
            l1_with_writeable_pte = Ret 0 s'
      ∧ tlb_flush s' = 0 ∧ hw_log s' = [LoadCR3 0].
Proof.
  destruct put_page_schedules_flush_and_dispatcher_consumes_it
    as [Hput Hflush].
  split.
  - destruct (Hput l1_with_writeable_pte 2 _PAGE_RW
                (mk_frame (117440512 + 5) 1 1))
      as (f' & s' & Hrun & Hf & Hty & _ & _ & Hfl);
      [reflexivity|done|reflexivity|done|].
    by exists f', s'.
  - destruct (Hflush [{| ptr := 4096; val := 0 |}] 1 l1_with_writeable_pte
                (final_state (process_updates 1 [{| ptr := 4096; val := 0 |}]
                                0 l1_with_writeable_pte)))
      as (s' & Hrun & Hfl & _ & Hlog & _); [vm_compute; reflexivity|].
    exists s'. split; [exact Hrun|]. split; [exact Hfl|].
    rewrite Hlog; [reflexivity|]. vm_compute. discriminate.
Defined.

Lemma read_only_mapping_witness :
  ∃ f_get f_put,
    get_page 2 0 l1_with_writeable_pte
    = Ret 0 (with_frame 2 f_get l1_with_writeable_pte)
    ∧ put_page 2 0 l1_with_writeable_pte
      = Ret tt (with_frame 2 f_put l1_with_writeable_pte)
    ∧ tot_count f_get = 2 ∧ tot_count f_put = 0
    ∧ type_count f_get = 1 ∧ type_count f_put = 1.
Proof.
  destruct (read_only_mapping_changes_tot_count_only l1_with_writeable_pte 2
              (mk_frame (117440512 + 5) 1 1))
    as (f_get & f_put & Hget & Hput & Htg & Htp & Hsame & _);
    [reflexivity|reflexivity|].
  exists f_get, f_put. split; [exact Hget|]. split; [exact Hput|].
  split; [exact Htg|]. split; [exact Htp|].
  split; [apply (Hsame f_get)|apply (Hsame f_put)]; auto.
Defined.

(** [do_extended_command] called on its own with a frame number past the
    table does dereference it; the dispatcher never lets that happen. *)
Lemma extended_command_bounds_witness :
  wild_access_in In_do_extended_command
    (do_extended_command (9 * 4096) PGEXT_UNPIN_TABLE l2_with_back_reference)
  = true
  ∧ wild_access_in In_do_extended_command
      (do_process_page_updates
         [{| ptr := 9 * 4096 + 2; val := PGEXT_UNPIN_TABLE |}] 1
         l2_with_back_reference) = false.
Proof.
  split; [vm_compute; reflexivity|].
  apply (extended_command_frame_accesses_in_bounds
           [{| ptr := 9 * 4096 + 2; val := PGEXT_UNPIN_TABLE |}] 1
           l2_with_back_reference).
  repeat constructor. cbn. lia.
Defined.

Lemma unknown_request_kind_witness :
  ∃ msg,
    process_request {| ptr := 4096 + 3; val := 7 |} l1_with_writeable_pte
    = Stop (DomainKilled msg) l1_with_writeable_pte
    ∧ do_process_page_updates [{| ptr := 4096 + 3; val := 7 |}] 1
        l1_with_writeable_pte
      = Stop (DomainKilled msg) l1_with_writeable_pte.
Proof.
  destruct (unknown_request_kind_kills_without_mutation l1_with_writeable_pte
              {| ptr := 4096 + 3; val := 7 |}) as (msg & Hrun & Hloop);
    [cbn; lia|reflexivity|].
  exists msg. split; [exact Hrun|].
  unfold do_process_page_updates. rewrite bind_unfold.
  change (Z.to_nat 1) with 1%nat.
  by rewrite (Hloop 0%nat [{| ptr := 4096 + 3; val := 7 |}] 0%nat eq_refl).
Defined.

Lemma xeno_i386_laws : @PlatformLaws xeno_i386.
Proof.
  split; try (vm_compute; congruence).
  exists 30. split; [lia|reflexivity].
Qed.

Lemma unchecked_update_decision_witness :
  process_request {| ptr := 4096 + 1; val := 4919 |} dom0_with_l1
  = Ret tt (set_phys_mem (store 4096 4919 (phys_mem dom0_with_l1))
                         dom0_with_l1)
  ∧ process_request {| ptr := 1; val := 4919 |} dom0_with_l1
    = Stop (DomainKilled Illegal_page_update_request) dom0_with_l1.
Proof.
  split.
  - apply (@unchecked_update_decision _ xeno_i386_laws dom0_with_l1
             {| ptr := 4096 + 1; val := 4919 |}
             (mk_frame 16777216 1 1)); reflexivity.
  - apply (@unchecked_update_decision _ xeno_i386_laws dom0_with_l1
             {| ptr := 1; val := 4919 |} (mk_frame 0 0 0));
      [reflexivity|reflexivity|vm_compute; discriminate].
Defined.

Lemma unchecked_update_only_by_domain_0_witness :
  process_request {| ptr := 4096 + 1; val := 4919 |} dom0_with_l1
  = Ret tt (set_phys_mem (store 4096 4919 (phys_mem dom0_with_l1))
                         dom0_with_l1)
  ∧ process_request {| ptr := 4096 + 1; val := 4919 |} l1_with_writeable_pte
    = Stop (DomainKilled Illegal_page_update_request) l1_with_writeable_pte
  ∧ process_request {| ptr := 4 * 4096 + 1; val := 4919 |}
      l1_with_writeable_pte
    = Stop (DomainKilled Page_update_request_out_of_range)
           l1_with_writeable_pte.
Proof.
  pose proof (@unchecked_update_only_by_domain_0 _ xeno_i386_laws
                dom0_with_l1 {| ptr := 4096 + 1; val := 4919 |}
                eq_refl eq_refl) as [_ Hdom0].
  pose proof (@unchecked_update_only_by_domain_0 _ xeno_i386_laws
                l1_with_writeable_pte {| ptr := 4096 + 1; val := 4919 |}
                eq_refl eq_refl) as [_ Hdom5].
  pose proof (@unchecked_update_only_by_domain_0 _ xeno_i386_laws
                l1_with_writeable_pte {| ptr := 4 * 4096 + 1; val := 4919 |}
                eq_refl eq_refl) as [Hout _].
  split; [|split].
  - apply (Hdom0 (mk_frame 16777216 1 1) eq_refl eq_refl). by repeat split.
  - apply (Hdom5 (mk_frame (16777216 + 5) 1 1) eq_refl eq_refl).
    intros [Hd _]. vm_compute in Hd. discriminate.
  - apply Hout. vm_compute. discriminate.
Defined.

Lemma pin_then_unpin_witness :
  do_extended_command (2 * 4096) PGEXT_UNPIN_TABLE
    (with_frame 2 (with_pin (mk_frame (16777216 + 5) 1 1)) (l2_with_entry 16))
  = Ret 0 (l2_with_entry 16).
Proof.
  apply (@pin_then_unpin_of_referenced_table _ xeno_i386_laws
           (l2_with_entry 16) (2 * 4096) PGEXT_PIN_L1_TABLE
           PGEXT_UNPIN_TABLE (mk_frame (16777216 + 5) 1 1));
    try reflexivity; try (left; split; reflexivity); cbn; lia.
Defined.

Lemma put_l2_table_hypervisor_count_witness :
  put_l2_table 1 (l2_with_entry 16)
  = Ret 0 (with_frame 1 (released (mk_frame (33554432 + 5) 1 1))
                      (l2_with_entry 16)).
Proof.
  apply (put_l2_table_reads_hypervisor_count_of_slots (l2_with_entry 16) 1
           (mk_frame (33554432 + 5) 1 1)); try reflexivity; [done|].
  intros k Hk. change HYPERVISOR_ENTRIES_PER_L2_PAGETABLE with 16 in Hk.
  change (map_domain_mem (page_address 1)) with 4096.
  unfold l2_with_entry, mk_machine, store, zero_mem, sizeof_pgentry.
  cbn [phys_mem].
  by destruct (Z.eqb_spec (4096 + 4 * k) (4096 + 4 * 16)); [lia|].
Defined.

Lemma failed_get_page_witness :
  final_state (get_page 3 0 l1_with_writeable_pte) = l1_with_writeable_pte.
Proof.
  apply (failed_get_page_changes_nothing l1_with_writeable_pte
           (final_state (get_page 3 0 l1_with_writeable_pte)) 3 0 (-1));
    [|lia].
  vm_compute. reflexivity.
Defined.

Lemma untyped_with_writeable_pte_settled :
  settled (Z.of_nat (Z.to_nat ENTRIES_PER_L1_PAGETABLE) + 2)
          untyped_with_writeable_pte.
Proof.
  apply settled_of_table.
  repeat constructor; vm_compute; congruence.
Qed.

Lemma get_then_put_l1_table_witness :
  ∃ s2,
    put_l1_table 1
      (with_frame 2 (mk_frame (117440512 + 5) 1 1)
         (with_frame 1 (mk_frame (16777216 + 5) 1 1)
            untyped_with_writeable_pte)) = Ret tt s2
    ∧ frame_table s2 = frame_table untyped_with_writeable_pte
    ∧ phys_mem s2 = phys_mem untyped_with_writeable_pte.
Proof.
  apply (@get_then_put_l1_table_restores_frame_table _ xeno_i386_laws
           untyped_with_writeable_pte).
  - exact untyped_with_writeable_pte_settled.
  - vm_compute. reflexivity.
Defined.

Lemma pin_l1_then_unpin_witness :
  ∃ s2,
    do_extended_command 4096 PGEXT_UNPIN_TABLE
      (with_frame 2 (mk_frame (117440512 + 5) 1 1)
         (with_frame 1 (with_pin (mk_frame (16777216 + 5) 0 0))
            untyped_with_writeable_pte)) = Ret 0 s2
    ∧ frame_table s2 = frame_table untyped_with_writeable_pte
    ∧ phys_mem s2 = phys_mem untyped_with_writeable_pte.
Proof.
  apply (@pin_l1_then_unpin_restores_frame_table _ xeno_i386_laws
           untyped_with_writeable_pte _ 4096 PGEXT_PIN_L1_TABLE
           PGEXT_UNPIN_TABLE).
  - reflexivity.
  - reflexivity.
  - exact untyped_with_writeable_pte_settled.
  - intros f Hf. vm_compute in Hf. injection Hf as <-. vm_compute.
    reflexivity.
  - vm_compute. reflexivity.
Defined.

End I386.

(** * More of the theorems at work on the i386 constants *)

Section I386More.
#[local] Existing Instance xeno_i386.
#[local] Existing Instance xeno_i386_laws.

Lemma xeno_i386_commands : @CommandLaws xeno_i386.
Proof.
  split.
  - apply (bool_decide_unpack _). by vm_compute.
  - by repeat constructor.
Qed.

#[local] Existing Instance xeno_i386_commands.

Lemma untyped_with_writeable_pte_room :
  settled 2 untyped_with_writeable_pte.
Proof. apply settled_of_table. repeat constructor; vm_compute; congruence. Qed.

Lemma inc_then_dec_page_refcnt_witness :
  dec_page_refcnt 1 PGT_l1_page_table
    (with_frame 1 (mk_frame (16777216 + 5) 1 1) untyped_with_writeable_pte)
  = Ret 0 untyped_with_writeable_pte.
Proof.
  apply (inc_then_dec_page_refcnt_restores untyped_with_writeable_pte).
  - reflexivity.
  - exact untyped_with_writeable_pte_room.
  - vm_compute. reflexivity.
  - lia.
Defined.

Lemma get_then_put_page_witness :
  ∃ s2,
    put_page 2 2
      (with_frame 2 (mk_frame (117440512 + 5) 1 1) untyped_with_writeable_pte)
    = Ret tt s2
    ∧ frame_table s2 = frame_table untyped_with_writeable_pte
    ∧ phys_mem s2 = phys_mem untyped_with_writeable_pte
    ∧ current_domain s2 = current_domain untyped_with_writeable_pte.
Proof.
  apply (get_then_put_page_restores_frame_table untyped_with_writeable_pte).
  - exact untyped_with_writeable_pte_room.
  - vm_compute. reflexivity.
Defined.

Lemma frame_in_use_witness :
  get_page 1 2 l1_with_writeable_pte = Ret (-1) l1_with_writeable_pte
  ∧ get_l2_table 1 l1_with_writeable_pte = Ret (-1) l1_with_writeable_pte
  ∧ get_l1_table 2 l1_with_writeable_pte = Ret (-1) l1_with_writeable_pte.
Proof.
  destruct (frame_in_use_refuses_other_uses l1_with_writeable_pte 1
              (mk_frame (16777216 + 5) 1 1)) as (Hw & _ & Hd);
    [reflexivity|cbn; lia|].
  destruct (frame_in_use_refuses_other_uses l1_with_writeable_pte 2
              (mk_frame (117440512 + 5) 1 1)) as (_ & Ht & _);
    [reflexivity|cbn; lia|].
  split; [apply Hw; [vm_compute; discriminate|lia]|].
  split; [apply Hd|apply Ht]; vm_compute; discriminate.
Defined.

Lemma release_of_other_frame_witness :
  put_l1_table 3 l1_with_writeable_pte = Ret tt l1_with_writeable_pte
  ∧ put_l2_table 7 l1_with_writeable_pte = Ret (-1) l1_with_writeable_pte.
Proof.
  split.
  - apply (release_of_other_frame_is_refused l1_with_writeable_pte 3
             PGT_l1_page_table); [|reflexivity].
    right. exists (mk_frame 6 0 0). split; [reflexivity|].
    vm_compute. discriminate.
  - apply (release_of_other_frame_is_refused l1_with_writeable_pte 7
             PGT_l2_page_table); [|reflexivity].
    left. vm_compute. discriminate.
Defined.


Lemma unpin_of_unpinned_frame_witness :
  do_extended_command (2 * 4096) PGEXT_UNPIN_TABLE (l2_with_entry 16)
  = Ret 1 (l2_with_entry 16)
  ∧ do_extended_command (3 * 4096) PGEXT_UNPIN_TABLE l1_with_writeable_pte
    = Ret 1 l1_with_writeable_pte.
Proof.
  split.
  - apply (unpin_of_unpinned_frame_is_refused _ _ _
             (mk_frame (16777216 + 5) 1 1)); [reflexivity|reflexivity|].
    right. reflexivity.
  - apply (unpin_of_unpinned_frame_is_refused _ _ _ (mk_frame 6 0 0));
      [reflexivity|reflexivity|].
    left. vm_compute. discriminate.
Defined.

Lemma new_baseptr_installs_witness :
  (tlb_flush (final_state (do_extended_command 4096 PGEXT_NEW_BASEPTR
                             (l2_with_entry 16))) = 1
   ∧ mm_pagetable (final_state (do_extended_command 4096 PGEXT_NEW_BASEPTR
                                  (l2_with_entry 16))) = 4096)
  ∧ (tlb_flush (final_state (do_extended_command (2 * 4096) PGEXT_NEW_BASEPTR
                               (l2_with_entry 16))) = 1
     ∧ mm_pagetable (final_state (do_extended_command (2 * 4096)
                                    PGEXT_NEW_BASEPTR (l2_with_entry 16)))
       = mm_pagetable (l2_with_entry 16)).
Proof.
  split.
  - destruct (new_baseptr_installs_on_success_only (l2_with_entry 16)
                (final_state (do_extended_command 4096 PGEXT_NEW_BASEPTR
                                (l2_with_entry 16)))
                4096 PGEXT_NEW_BASEPTR 0) as (Hf & Hok & _);
      [reflexivity|vm_compute; reflexivity|].
    split; [exact Hf|]. by apply Hok.
  - destruct (new_baseptr_installs_on_success_only (l2_with_entry 16)
                (final_state (do_extended_command (2 * 4096)
                                PGEXT_NEW_BASEPTR (l2_with_entry 16)))
                (2 * 4096) PGEXT_NEW_BASEPTR (-1)) as (Hf & _ & Hbad);
      [reflexivity|vm_compute; reflexivity|].
    split; [exact Hf|]. apply Hbad. lia.
Defined.

Lemma new_baseptr_moves_one_reference_witness :
  ∃ s',
    do_extended_command (2 * 4096) PGEXT_NEW_BASEPTR two_directories
    = Ret 0 s'
    ∧ mm_pagetable s' = 2 * 4096
    ∧ frame s' 2 = Some (mk_frame (33554432 + 5) 2 2)
    ∧ frame s' 1 = Some (mk_frame (33554432 + 5) 1 1).
Proof.
  destruct (new_baseptr_moves_one_reference two_directories (2 * 4096)
              PGEXT_NEW_BASEPTR (mk_frame (33554432 + 5) 1 1)
              (mk_frame (33554432 + 5) 2 2))
    as (s' & Hrun & Hpt & _ & _ & _ & Hmove);
    try reflexivity; try (cbn; lia).
  destruct Hmove as (Hnew & Hold & _); [vm_compute; discriminate|].
  exists s'. by repeat split.
Defined.

Lemma commands_without_frame_witness :
  process_request flush_request (l2_with_entry 16)
  = Ret tt (set_tlb_flush 1 (l2_with_entry 16))
  ∧ process_request {| ptr := 100 * 4096 + 2; val := 6 |} (l2_with_entry 16)
    = Stop (DomainKilled Page_update_request_out_of_range)
           (l2_with_entry 16)
  ∧ process_request {| ptr := 2; val := 9 |} (l2_with_entry 16)
    = Stop (DomainKilled Illegal_page_update_request) (l2_with_entry 16).
Proof.
  split; [|split].
  - destruct (commands_without_frame (l2_with_entry 16) flush_request)
      as (_ & Hin); [vm_compute; discriminate|reflexivity|].
    destruct Hin as (Hflush & _); [reflexivity|]. by apply Hflush.
  - destruct (commands_without_frame (l2_with_entry 16)
                {| ptr := 100 * 4096 + 2; val := 6 |})
      as (Hout & _); [vm_compute; discriminate|reflexivity|].
    apply Hout. vm_compute. discriminate.
  - destruct (commands_without_frame (l2_with_entry 16)
                {| ptr := 2; val := 9 |})
      as (_ & Hin); [vm_compute; discriminate|reflexivity|].
    destruct Hin as (_ & _ & Hbad); [reflexivity|]. apply Hbad.
    apply (bool_decide_unpack _). by vm_compute.
Defined.

Lemma successful_modification_witness :
  phys_mem (final_state (mod_l1_entry 4096 0 l1_with_writeable_pte))
  = store 4096 0 (phys_mem l1_with_writeable_pte)
  ∧ phys_mem (final_state (mod_l2_entry (4096 + 4 * 16) 0 (l2_with_entry 16)))
    = store (4096 + 4 * 16) 0 (phys_mem (l2_with_entry 16)).
Proof.
  split.
  - apply (proj1 (successful_modification_writes_the_entry
                    l1_with_writeable_pte
                    (final_state (mod_l1_entry 4096 0 l1_with_writeable_pte))
                    4096 0)).
    vm_compute. reflexivity.
  - apply (proj2 (successful_modification_writes_the_entry (l2_with_entry 16)
                    (final_state (mod_l2_entry (4096 + 4 * 16) 0
                                               (l2_with_entry 16)))
                    (4096 + 4 * 16) 0)).
    vm_compute. reflexivity.
Defined.

Lemma normal_update_needs_a_table_witness :
  process_request {| ptr := 8; val := 4096 + 1 |} (l2_with_entry 16)
  = Stop (DomainKilled Illegal_page_update_request) (l2_with_entry 16)
  ∧ process_request {| ptr := 3 * 4096; val := 4096 + 1 |}
      l1_with_writeable_pte
    = Stop (DomainKilled Illegal_page_update_request) l1_with_writeable_pte.
Proof.
  split.
  - apply (normal_update_needs_a_table_of_the_domain _ _ (mk_frame 5 0 0));
      [reflexivity|reflexivity|].
    right. split; vm_compute; discriminate.
  - apply (normal_update_needs_a_table_of_the_domain _ _ (mk_frame 6 0 0));
      [reflexivity|reflexivity|].
    left. vm_compute. discriminate.
Defined.

Lemma hypervisor_slots_witness :
  ∃ s',
    process_request {| ptr := 4096 + 4 * 1008; val := 2 * 4096 + 1 |}
      (l2_with_entry 16)
    = Stop (DomainKilled Illegal_page_update_request) s'
    ∧ frame_table s' = frame_table (l2_with_entry 16)
    ∧ (∀ a, phys_mem s' a = phys_mem (l2_with_entry 16) a)
    ∧ tlb_flush s' = tlb_flush (l2_with_entry 16).
Proof.
  apply (normal_update_cannot_reach_hypervisor_slots _ _
           (mk_frame (33554432 + 5) 1 1));
    reflexivity.
Defined.

Lemma represents_by_index (R : list ref) (b s : machine) :
  length (frame_table s) = length (frame_table b) →
  (∀ i f0, frame_table b !! i = Some f0 →
           frame_table s !! i = Some (mapped R (Z.of_nat i) f0)) →
  represents R b s.
Proof.
  intros Hlen Hall x. unfold frame.
  destruct (Z.ltb_spec x 0); [done|].
  destruct (frame_table b !! Z.to_nat x) as [f0|] eqn:E.
  - rewrite (Hall _ _ E). cbn. by rewrite Z2Nat.id by lia.
  - cbn. apply lookup_ge_None. apply lookup_ge_None in E. lia.
Qed.

Lemma l1_with_writeable_pte_counts :
  represents (present_refs (phys_mem l1_with_writeable_pte) 1
                           (map_domain_mem 4096) ++ [])
             l1_without_reference l1_with_writeable_pte
  ∧ admissible 5 (present_refs (phys_mem l1_with_writeable_pte) 1
                               (map_domain_mem 4096) ++ [])
               l1_without_reference
  ∧ settled 5 l1_without_reference.
Proof.
  split; [|split].
  - apply represents_by_index; [reflexivity|].
    intros [|[|[|[|i]]]] f0; cbn; intros [= <-]; reflexivity.
  - intros x w Hin. change (present_refs _ 1 _ ++ []) with [(2, 2) : ref] in Hin.
    apply list_elem_of_singleton in Hin. injection Hin as -> ->.
    exists (mk_frame 5 0 0). split; [reflexivity|]. split; [reflexivity|].
    intros _ Hc. by destruct Hc.
  - apply settled_of_table. repeat constructor; vm_compute; congruence.
Qed.

Lemma mod_l1_entry_keeps_counts_witness :
  represents
    (present_refs
       (phys_mem (final_state (mod_l1_entry 4096 1 l1_with_writeable_pte)))
       1 (map_domain_mem 4096) ++ [])
    l1_without_reference
    (final_state (mod_l1_entry 4096 1 l1_with_writeable_pte))
  ∧ admissible 5
      (present_refs
         (phys_mem (final_state (mod_l1_entry 4096 1 l1_with_writeable_pte)))
         1 (map_domain_mem 4096) ++ [])
      l1_without_reference
  ∧ current_domain (final_state (mod_l1_entry 4096 1 l1_with_writeable_pte))
    = 5.
Proof.
  destruct l1_with_writeable_pte_counts as (Hr & Ha & Hs).
  apply (mod_l1_entry_keeps_counts_in_step 5 5 [] l1_without_reference
           l1_with_writeable_pte
           (final_state (mod_l1_entry 4096 1 l1_with_writeable_pte))
           4096 1); done.
Defined.

Lemma fresh_directory_witness :
  phys_mem (final_state (get_l2_table 1 l2_with_back_reference))
           (4096 + 4 * 1022) = 99
  ∧ phys_mem (final_state (get_l2_table 1 l2_with_back_reference))
             (4096 + 4 * 16)
    = phys_mem l2_with_back_reference (4096 + 4 * 16).
Proof.
  destruct (fresh_directory_gets_hypervisor_entries l2_with_back_reference
              (final_state (get_l2_table 1 l2_with_back_reference)) 1
              (mk_frame 5 0 0)) as (Hpd & _ & Hrest);
    [vm_compute; discriminate|reflexivity|reflexivity|reflexivity
    |vm_compute; reflexivity|].
  split; [exact Hpd|]. apply Hrest.
  - intros k Hk. change HYPERVISOR_ENTRIES_PER_L2_PAGETABLE with 16 in Hk.
    change DOMAIN_ENTRIES_PER_L2_PAGETABLE with 1008.
    change (map_domain_mem (page_address 1)) with 4096.
    unfold sizeof_pgentry. lia.
  - vm_compute. discriminate.
Defined.

Lemma batch_stops_witness :
  do_process_page_updates [flush_request; odd_request; flush_request] 3
    (l2_with_entry 16)
  = Stop (DomainKilled Illegal_page_update_request)
         (set_tlb_flush 1 (l2_with_entry 16))
  ∧ do_process_page_updates [flush_request] 2 (l2_with_entry 16)
    = Stop (DomainKilled Cannot_read_page_update_request)
           (set_tlb_flush 1 (l2_with_entry 16)).
Proof.
  split.
  - apply (batch_stops_at_first_failure
             [flush_request; odd_request; flush_request] 3
             (l2_with_entry 16) (set_tlb_flush 1 (l2_with_entry 16)))
      with (pre := [flush_request]) (cur := odd_request)
           (post := [flush_request]).
    + reflexivity.
    + vm_compute. reflexivity.
    + vm_compute. reflexivity.
    + cbn. lia.
  - apply (batch_stops_at_first_failure [flush_request] 2
             (l2_with_entry 16) (set_tlb_flush 1 (l2_with_entry 16))).
    + vm_compute. reflexivity.
    + cbn. lia.
Defined.

Lemma second_dispatcher_agrees_witness :
  forget_array (new_do_process_page_updates two_requests 2 (l2_with_entry 16))
  = do_process_page_updates
      [flush_request; {| ptr := 2; val := 20480 + 7 |}] 2 (l2_with_entry 16).
Proof.
  apply second_dispatcher_agrees_with_first.
  intros [|[|j]] Hj; [reflexivity|reflexivity|].
  change (Z.to_nat 2) with 2%nat in Hj. lia.
Defined.

Lemma second_dispatcher_masks_witness :
  match new_do_process_page_updates two_requests 2 (l2_with_entry 16) with
  | Ret (r, cur') _ =>
      r = 0 ∧ ptr (cur' 0%nat) = 0 ∧ ptr (cur' 1%nat) = 0
      ∧ cur' 2%nat = two_requests 2%nat
  | Stop _ _ => False
  end.
Proof.
  destruct (new_do_process_page_updates two_requests 2 (l2_with_entry 16))
    as [[r cur'] s'|w s'] eqn:E.
  - destruct (second_dispatcher_masks_the_requests _ _ _ _ _ _ E)
      as [Hr Hcur].
    split; [exact Hr|]. rewrite !Hcur. by repeat split.
  - vm_compute in E. discriminate.
Defined.

Lemma other_domains_witness :
  ∃ f, frame (final_state
                (do_process_page_updates
                   [{| ptr := 4096; val := 3 * 4096 + 3 |}] 1
                   l1_with_writeable_pte)) 3 = Some f
       ∧ f = mk_frame 6 0 0.
Proof.
  destruct (page_updates_leave_other_domains_alone
              [{| ptr := 4096; val := 3 * 4096 + 3 |}] 1
              l1_with_writeable_pte) as (_ & _ & Hall);
    [reflexivity|reflexivity|].
  destruct (Hall 3 (mk_frame 6 0 0)) as (f & Hf & _ & Hsame); [reflexivity|].
  exists f. split; [exact Hf|]. apply Hsame. vm_compute. discriminate.
Defined.

Lemma accepted_l1_table_witness :
  ∃ g, frame untyped_with_writeable_pte 2 = Some g
       ∧ owner g = current_domain untyped_with_writeable_pte.
Proof.
  assert (get_l1_table 1 untyped_with_writeable_pte
          = Ret 0 (final_state (get_l1_table 1 untyped_with_writeable_pte)))
    as Hrun by (vm_compute; reflexivity).
  destruct (accepted_l1_table_maps_frames_of_the_domain
              untyped_with_writeable_pte _ 1 (mk_frame 5 0 0)
              eq_refl eq_refl Hrun 0) as [_ Hg].
  - vm_compute. split; [discriminate|reflexivity].
  - vm_compute. discriminate.
  - exact Hg.
Defined.

Lemma accepted_directory_witness :
  ∃ g, frame l2_with_back_reference 2 = Some g
       ∧ owner g = current_domain l2_with_back_reference.
Proof.
  assert (get_l2_table 1 l2_with_back_reference
          = Ret 0 (final_state (get_l2_table 1 l2_with_back_reference)))
    as Hrun by (vm_compute; reflexivity).
  assert (0 ≤ DOMAIN_ENTRIES_PER_L2_PAGETABLE) as H0
    by (vm_compute; discriminate).
  assert (4 * DOMAIN_ENTRIES_PER_L2_PAGETABLE < PAGE_SIZE) as H1
    by reflexivity.
  destruct (accepted_directory_points_at_frames_of_the_domain
              l2_with_back_reference _ 1 (mk_frame 5 0 0)
              H0 H1 eq_refl eq_refl Hrun 16) as [_ Hg].
  - vm_compute. split; [discriminate|reflexivity].
  - vm_compute. discriminate.
  - exact Hg.
Defined.

End I386More.

Section Boot16M.
#[local] Existing Instance layout_16M.

Lemma init_frametable_free_list_witness :
  (free_list (init_frametable 4200) = seqZ 4121 79
   ∧ boot_free_pfns (init_frametable 4200) = 79)
  ∧ (free_list (init_frametable 100) = []
     ∧ boot_free_pfns (init_frametable 100) = 2 ^ 32 - 3997).
Proof.
  split.
  - destruct (init_frametable_free_list 4200) as (_ & Hlist & Hcount & _);
      [lia|].
    split; [exact Hlist|]. rewrite Hcount; [|vm_compute; discriminate].
    by vm_compute.
  - destruct (init_frametable_free_list 100) as (_ & _ & _ & Hwrap); [lia|].
    apply Hwrap. vm_compute. reflexivity.
Defined.

Lemma init_frametable_table_witness :
  (∀ p, p ∈ free_list (init_frametable 4200) →
        16777216 + 4200 * 24 ≤ p * 4096 ∧ p < 4200)
  ∧ 4200 ≤ Z.of_nat (length (zeroed_records (init_frametable 4200))).
Proof.
  destruct (init_frametable_keeps_the_table_off_the_free_list 4200)
    as (Hoff & Hlen & _); [done|done|done|done|done|].
  split; [exact Hoff|exact Hlen].
Defined.

End Boot16M.
